(** * Verification of the homes.com / redfin.com scraper (pkg/scraper/homes.go)

    A shallow embedding of the extraction pipeline of [pkg/scraper/homes.go]
    and the properties of it that the specification states.

    Modelling conventions.
    - A Go [string] is a byte string ([string] of [ascii]).  [len], slicing,
      [strings.Index], [strings.Split] and [strings.ReplaceAll] work on
      bytes, as in Go.
    - Text is read as runes where Go reads it so: [for range],
      [strings.Map] and with it [strings.ToLower], [strings.ToUpper] and
      [strings.Title], [strings.TrimSpace], and the regexp machine decode
      UTF-8 with [utf8.DecodeRuneInString]; a byte that is no encoding is
      the rune U+FFFD of width 1.
    - The case mappings and the classes of letters and digits past Latin-1
      are tables of Go's package [unicode], which is no part of the
      repository: they are a parameter ([unicode.Tables]) of every
      definition that reaches them, and every statement holds for all
      tables.  What Go decides without a table (ASCII, Latin-1,
      [unicode.IsSpace]) is written out.
    - A Go [int] is a [Z]; the only place where the 64-bit range shows is
      [strconv.Atoi], which saturates, and it is written out.
    - A [float64] is never computed with by the scraper: it is produced by
      [strconv.ParseFloat] on a matched literal, negated once, or left at its
      zero value.  It is kept as that expression ([float64] below).
    - Package [regexp] is embedded as a backtracking matcher over runes
      with Go's leftmost-first preference order over the operators the
      scraper's patterns use; every pattern is written out as a syntax tree
      next to the source text of the pattern.
    - [goquery] documents are records holding the flattened text and, for
      each selector the scraper evaluates, the texts it selects in document
      order.
    - The network is a function from requests to outcomes carried by the
      scraper value [h]: one answer per request for the duration of a call.
      Every function that fetches also returns the list of URLs it has
      requested, oldest first.
    - Go leaves the order of [range] over a map open; [h] carries one
      enumeration per map and every statement holds for all of them.
    - A Go value-and-error pair is a pair whose second component is an
      [option error]; [nil] slices and pointers are [[]] and [None]. *)

From Stdlib Require Import ZArith NArith Ascii String List Bool Lia.
From stdpp Require Import base option list strings pretty gmap fin_maps.

Open Scope string_scope.
Open Scope Z_scope.

(** ** Bytes *)

Definition code (c : ascii) : N := N_of_ascii c.

(** [s[:n]] and [s[n:]] for [0 <= n]; Go panics past the end, the callers
    clamp before they slice. *)
Fixpoint takeBytes (n : nat) (s : string) : string :=
  match n, s with
  | S n', String c s' => String c (takeBytes n' s')
  | _, _ => EmptyString
  end.

Fixpoint dropBytes (n : nat) (s : string) : string :=
  match n, s with
  | S n', String _ s' => dropBytes n' s'
  | _, _ => s
  end.

Fixpoint allBytes (p : ascii -> bool) (s : string) : bool :=
  match s with
  | EmptyString => true
  | String c s' => p c && allBytes p s'
  end.

(** ** Package [unicode/utf8] *)

Module utf8.
#[local] Open Scope N_scope.

(** A code point.  Go's [rune] is an [int32]; the functions below never
    produce a negative one. *)
Definition rune : Type := N.
#[global] Bind Scope N_scope with rune.

Definition RuneError : rune := 65533.      (* U+FFFD *)
Definition RuneSelf : N := 128.
Definition MaxRune : rune := 1114111.      (* U+10FFFF *)

(** The table [first] of the package: for a leading byte, the length of
    its sequence and the range its second byte must lie in; [None] for a
    byte that starts no sequence. *)
Definition first (s0 : N) : option (nat * (N * N)) :=
  (if (194 <=? s0) && (s0 <=? 223) then Some (2%nat, (128, 191))
   else if s0 =? 224 then Some (3%nat, (160, 191))
   else if (225 <=? s0) && (s0 <=? 236) then Some (3%nat, (128, 191))
   else if s0 =? 237 then Some (3%nat, (128, 159))
   else if (238 <=? s0) && (s0 <=? 239) then Some (3%nat, (128, 191))
   else if s0 =? 240 then Some (4%nat, (144, 191))
   else if (241 <=? s0) && (s0 <=? 243) then Some (4%nat, (128, 191))
   else if s0 =? 244 then Some (4%nat, (128, 143))
   else None)%N.

(** A continuation byte: [locb <= b <= hicb]. *)
Definition continuation (b : N) : bool := ((128 <=? b) && (b <=? 191))%N.

(** [utf8.DecodeRuneInString]: the first rune of [s] and its width in
    bytes; [(RuneError, 1)] where the bytes are no encoding, [(RuneError, 0)]
    on the empty string. *)
Definition DecodeRuneInString (s : string) : rune * nat :=
  match s with
  | EmptyString => (RuneError, 0%nat)
  | String a0 t0 =>
      let s0 := code a0 in
      if (s0 <? RuneSelf)%N then (s0, 1%nat)
      else
        match first s0 with
        | None => (RuneError, 1%nat)
        | Some (sz, (lo, hi)) =>
            match t0 with
            | EmptyString => (RuneError, 1%nat)
            | String a1 t1 =>
                let s1 := code a1 in
                if ((s1 <? lo) || (hi <? s1))%N then (RuneError, 1%nat)
                else if (sz <=? 2)%nat
                then (N.lor (N.shiftl (N.land s0 31) 6) (N.land s1 63), 2%nat)
                else
                  match t1 with
                  | EmptyString => (RuneError, 1%nat)
                  | String a2 t2 =>
                      let s2 := code a2 in
                      if negb (continuation s2) then (RuneError, 1%nat)
                      else if (sz <=? 3)%nat
                      then (N.lor (N.shiftl (N.land s0 15) 12)
                              (N.lor (N.shiftl (N.land s1 63) 6) (N.land s2 63)), 3%nat)
                      else
                        match t2 with
                        | EmptyString => (RuneError, 1%nat)
                        | String a3 _ =>
                            let s3 := code a3 in
                            if negb (continuation s3) then (RuneError, 1%nat)
                            else (N.lor (N.shiftl (N.land s0 7) 18)
                                    (N.lor (N.shiftl (N.land s1 63) 12)
                                       (N.lor (N.shiftl (N.land s2 63) 6) (N.land s3 63))),
                                  4%nat)
                        end
                  end
            end
        end
  end.

Definition byteOf (n : N) : ascii := ascii_of_N n.

(** [utf8.AppendRune] to the empty string: the encoding of [r], that of
    [RuneError] for a surrogate or a value past [MaxRune]. *)
Definition EncodeRune (r : rune) : string :=
  let three (r : rune) :=
    String (byteOf (N.lor 224 (N.shiftr r 12)))
      (String (byteOf (N.lor 128 (N.land (N.shiftr r 6) 63)))
         (String (byteOf (N.lor 128 (N.land r 63))) EmptyString)) in
  (if r <=? 127 then String (byteOf r) EmptyString
   else if r <=? 2047
   then String (byteOf (N.lor 192 (N.shiftr r 6)))
          (String (byteOf (N.lor 128 (N.land r 63))) EmptyString)
   else if (MaxRune <? r) || ((55296 <=? r) && (r <=? 57343)) then three RuneError
   else if r <=? 65535 then three r
   else String (byteOf (N.lor 240 (N.shiftr r 18)))
          (String (byteOf (N.lor 128 (N.land (N.shiftr r 12) 63)))
             (String (byteOf (N.lor 128 (N.land (N.shiftr r 6) 63)))
                (String (byteOf (N.lor 128 (N.land r 63))) EmptyString))))%N.

(** The runes of a string as [for _, r := range s] and the regexp machine
    read them, each with the bytes it was decoded from.  [skip] counts the
    bytes still to pass that belong to the rune before. *)
Record token : Type := Token { t_rune : rune; t_bytes : string }.

Fixpoint decodeFrom (skip : nat) (s : string) : list token :=
  match s with
  | EmptyString => []
  | String _ s' =>
      match skip with
      | S n => decodeFrom n s'
      | O =>
          let '(r, w) := DecodeRuneInString s in
          Token r (takeBytes w s) :: decodeFrom (w - 1) s'
      end
  end.

Definition runes (s : string) : list token := decodeFrom 0 s.

Definition width (t : token) : nat := String.length (t_bytes t).

Fixpoint bytes (l : list token) : string :=
  match l with
  | [] => EmptyString
  | t :: l' => t_bytes t +:+ bytes l'
  end.

(** The two shapes of a decoded rune: one byte below [RuneSelf], read as
    itself; or a rune from [RuneSelf] up, read from bytes from [RuneSelf]
    up (an encoding, or one byte that is none). *)
Definition asciiToken (a : ascii) : token := Token (code a) (String a EmptyString).

Definition wellFormed (t : token) : Prop :=
  (exists a, code a < RuneSelf /\ t = asciiToken a)
  \/ (RuneSelf <= t_rune t /\ t_bytes t <> EmptyString
      /\ allBytes (fun b => RuneSelf <=? code b) (t_bytes t) = true).

Fixpoint asciiTokens (w : string) : list token :=
  match w with
  | EmptyString => []
  | String a w' => asciiToken a :: asciiTokens w'
  end.

(** A string that does not begin in the middle of an encoding. *)
Definition boundary (s : string) : Prop :=
  match s with
  | EmptyString => True
  | String a _ => continuation (code a) = false
  end.

(** The string that [strings.Builder.WriteRune] builds from a list of
    runes. *)
Fixpoint encodeAll (l : list rune) : string :=
  match l with
  | [] => EmptyString
  | r :: l' => EncodeRune r +:+ encodeAll l'
  end.

End utf8.

(** ** Package [unicode] *)

Module unicode.
Import utf8.
#[local] Open Scope N_scope.

(** The tables of the package that come from the Unicode character
    database and are no part of this repository: the case mappings of
    [unicode.CaseRanges] and the classes [unicode.Letter] and
    [unicode.Digit].  The functions below consult them as Go does, past
    the ranges that Go decides without them; every statement holds for all
    tables. *)
Class Tables : Type := {
  lowerCase : rune -> rune;      (* unicode.To(unicode.LowerCase, r) *)
  upperCase : rune -> rune;      (* unicode.To(unicode.UpperCase, r) *)
  titleCase : rune -> rune;      (* unicode.To(unicode.TitleCase, r) *)
  Letter : rune -> bool;         (* unicode.Is(unicode.Letter, r) *)
  Digit : rune -> bool           (* unicode.Is(unicode.Digit, r) *)
}.

Definition MaxASCII : rune := 127.
Definition MaxLatin1 : rune := 255.

Definition between (lo hi r : rune) : bool := ((lo <=? r) && (r <=? hi))%N.

Section Functions.
Context {tables : Tables}.

(** [unicode.ToLower], [unicode.ToUpper], [unicode.ToTitle] *)
Definition ToLower (r : rune) : rune :=
  (if r <=? MaxASCII then (if between 65 90 r then r + 32 else r)
   else lowerCase r)%N.

Definition ToUpper (r : rune) : rune :=
  (if r <=? MaxASCII then (if between 97 122 r then r - 32 else r)
   else upperCase r)%N.

Definition ToTitle (r : rune) : rune :=
  (if r <=? MaxASCII then (if between 97 122 r then r - 32 else r)
   else titleCase r)%N.

(** [unicode.IsLetter]: the letters of Latin-1 are A-Z, a-z, U+00AA, U+00B5,
    U+00BA, U+00C0-U+00D6, U+00D8-U+00F6 and U+00F8-U+00FF. *)
Definition IsLetter (r : rune) : bool :=
  (if r <=? MaxLatin1
   then between 65 90 r || between 97 122 r || (r =? 170) || (r =? 181) || (r =? 186)
        || between 192 214 r || between 216 246 r || between 248 255 r
   else Letter r)%N.

(** [unicode.IsDigit] *)
Definition IsDigit (r : rune) : bool :=
  (if r <=? MaxLatin1 then between 48 57 r else Digit r)%N.

End Functions.

(** [unicode.IsSpace]: in Latin-1 the six ASCII blanks, U+0085 and U+00A0;
    past it the class [White_Space]. *)
Definition IsSpace (r : rune) : bool :=
  (if r <=? MaxLatin1
   then between 9 13 r || (r =? 32) || (r =? 133) || (r =? 160)
   else (r =? 5760) || between 8192 8202 r || (r =? 8232) || (r =? 8233)
        || (r =? 8239) || (r =? 8287) || (r =? 12288))%N.

(** A cut of the tables to Latin-1 and to five letters past it whose case
    mapping leaves their block (U+0130, U+0131, U+017F, U+212A, U+212B):
    Go's entries there, nothing mapped and nothing classed elsewhere.  It
    serves the closed statements, whose inputs it covers. *)
Definition sample : Tables := {|
  lowerCase r :=
    (if between 192 214 r || between 216 222 r then r + 32
     else if r =? 304 then 105          (* U+0130 -> i *)
     else if r =? 8490 then 107         (* U+212A KELVIN SIGN -> k *)
     else if r =? 8491 then 229         (* U+212B ANGSTROM SIGN -> U+00E5 *)
     else r)%N;
  upperCase r :=
    (if between 224 246 r || between 248 254 r then r - 32
     else if r =? 181 then 924          (* U+00B5 -> U+039C *)
     else if r =? 255 then 376          (* U+00FF -> U+0178 *)
     else if r =? 305 then 73           (* U+0131 -> I *)
     else if r =? 383 then 83           (* U+017F -> S *)
     else r)%N;
  titleCase r :=
    (if between 224 246 r || between 248 254 r then r - 32
     else if r =? 181 then 924
     else if r =? 255 then 376
     else if r =? 305 then 73
     else if r =? 383 then 83
     else r)%N;
  Letter r := ((r =? 304) || (r =? 305) || (r =? 383) || (r =? 8490) || (r =? 8491))%N;
  Digit _ := false
|}.

End unicode.

(** ** The functions of package [strings] *)

Module GoStrings.
Import utf8.

Definition inRange (lo hi : N) (c : ascii) : bool :=
  ((lo <=? code c) && (code c <=? hi))%N.

Definition isDigit (c : ascii) : bool := inRange 48 57 c.
Definition isUpper (c : ascii) : bool := inRange 65 90 c.
Definition isLower (c : ascii) : bool := inRange 97 122 c.
Definition isLetter (c : ascii) : bool := isUpper c || isLower c.

Definition toLowerByte (c : ascii) : ascii :=
  if isUpper c then ascii_of_N (code c + 32) else c.

Definition toUpperByte (c : ascii) : ascii :=
  if isLower c then ascii_of_N (code c - 32) else c.

Fixpoint mapBytes (f : ascii -> ascii) (s : string) : string :=
  match s with
  | EmptyString => EmptyString
  | String c s' => String (f c) (mapBytes f s')
  end.

Fixpoint filterBytes (p : ascii -> bool) (s : string) : string :=
  match s with
  | EmptyString => EmptyString
  | String c s' => if p c then String c (filterBytes p s') else filterBytes p s'
  end.

(** No byte from [utf8.RuneSelf] up. *)
Definition isASCII (s : string) : bool := allBytes (fun c => (code c <? RuneSelf)%N) s.

(** [strings.Map] for a mapping that drops no rune: every rune of [s], a
    byte that is no encoding read as [utf8.RuneError], is mapped and
    written back in UTF-8. *)
Definition Map (mapping : rune -> rune) (s : string) : string :=
  encodeAll ((fun t => mapping (t_rune t)) <$> runes s).

Section Case.
Context {tables : unicode.Tables}.

(** [strings.ToLower], [strings.ToUpper]: the byte loop for a string of
    ASCII, [Map] with the mapping of package [unicode] otherwise. *)
Definition ToLower (s : string) : string :=
  if isASCII s then mapBytes toLowerByte s else Map unicode.ToLower s.

Definition ToUpper (s : string) : string :=
  if isASCII s then mapBytes toUpperByte s else Map unicode.ToUpper s.

(** [isSeparator] of package [strings]: ASCII letters, digits and the
    underscore are no separators, other ASCII is; past ASCII letters and
    digits are none, and spaces are. *)
Definition isSeparator (r : rune) : bool :=
  (if r <=? 127
   then negb (unicode.between 48 57 r || unicode.between 97 122 r
              || unicode.between 65 90 r || (r =? 95))
   else if unicode.IsLetter r || unicode.IsDigit r then false
   else unicode.IsSpace r)%N.

(** The mapping of [strings.Title] with its state [prev], the rune before:
    the rune after a separator goes to title case. *)
Fixpoint titleFrom (prev : rune) (l : list rune) : list rune :=
  match l with
  | [] => []
  | r :: l' => (if isSeparator prev then unicode.ToTitle r else r) :: titleFrom r l'
  end.

Definition Title (s : string) : string :=
  encodeAll (titleFrom 32%N (t_rune <$> runes s)).

End Case.

(** [s[lo:hi]] *)
Definition slice (s : string) (lo hi : Z) : string :=
  takeBytes (Z.to_nat (hi - lo)) (dropBytes (Z.to_nat lo) s).

Definition len (s : string) : Z := Z.of_nat (String.length s).

Fixpoint hasPrefix (p s : string) : bool :=
  match p, s with
  | EmptyString, _ => true
  | String a p', String b s' => Ascii.eqb a b && hasPrefix p' s'
  | String _ _, EmptyString => false
  end.

(** [strings.Index]: offset of the first occurrence, [-1] when absent. *)
Fixpoint indexFrom (i : Z) (s sub : string) : Z :=
  if hasPrefix sub s then i
  else match s with
       | EmptyString => -1
       | String _ s' => indexFrom (i + 1) s' sub
       end.

Definition Index (s sub : string) : Z := indexFrom 0 s sub.

Definition Contains (s sub : string) : bool := 0 <=? Index s sub.

(** [strings.LastIndex] for a one-byte separator. *)
Fixpoint lastIndexFrom (i : Z) (s : string) (sep : ascii) (found : Z) : Z :=
  match s with
  | EmptyString => found
  | String c s' =>
      lastIndexFrom (i + 1) s' sep (if Ascii.eqb c sep then i else found)
  end.

Definition LastIndex (s : string) (sep : ascii) : Z := lastIndexFrom 0 s sep (-1).

(** [strings.Split] for a one-byte separator (the scraper splits on ["/"],
    ["-"] and [","] only): always at least one field. *)
Fixpoint Split (s : string) (sep : ascii) : list string :=
  match s with
  | EmptyString => [EmptyString]
  | String c s' =>
      if Ascii.eqb c sep then EmptyString :: Split s' sep
      else match Split s' sep with
           | [] => [String c EmptyString]
           | f :: fs => String c f :: fs
           end
  end.

Fixpoint Join (l : list string) (sep : string) : string :=
  match l with
  | [] => EmptyString
  | [x] => x
  | x :: rest => x +:+ sep +:+ Join rest sep
  end.

(** [strings.ReplaceAll] for one-byte [old] and [new]. *)
Definition ReplaceAll (s : string) (old new : ascii) : string :=
  mapBytes (fun c => if Ascii.eqb c old then new else c) s.

(** [strings.TrimSpace]: the runes at both ends that [unicode.IsSpace]
    holds of are cut off.  (Go reads the right end backwards; a rune that
    is a space is read the same from either side.) *)
Definition spaceToken (t : token) : bool := unicode.IsSpace (t_rune t).

Fixpoint trimLeft (l : list token) : list token :=
  match l with
  | [] => []
  | t :: l' => if spaceToken t then trimLeft l' else l
  end.

(** Drops the trailing spaces: [None] stands for "nothing but spaces from
    here on". *)
Fixpoint trimRightAux (l : list token) : option (list token) :=
  match l with
  | [] => None
  | t :: l' =>
      match trimRightAux l' with
      | Some r => Some (t :: r)
      | None => if spaceToken t then None else Some [t]
      end
  end.

Definition trimRight (l : list token) : list token :=
  match trimRightAux l with Some r => r | None => [] end.

Definition TrimSpace (s : string) : string := bytes (trimRight (trimLeft (runes s))).

End GoStrings.
Export GoStrings.

(** ** Package [strconv] *)

Definition maxInt64 : Z := 9223372036854775807.
Definition minInt64 : Z := -9223372036854775808.

Fixpoint digitsValue (acc : Z) (s : string) : Z :=
  match s with
  | EmptyString => acc
  | String c s' => digitsValue (10 * acc + Z.of_N (code c - 48)) s'
  end.

(** The value [strconv.Atoi] returns next to its error, which every caller
    in the scraper drops: [0] on a syntax error, the nearest 64-bit bound
    when out of range. *)
Definition Atoi (s : string) : Z :=
  let '(neg, body) :=
    match s with
    | String "-"%char s' => (true, s')
    | String "+"%char s' => (false, s')
    | _ => (false, s)
    end in
  match body with
  | EmptyString => 0
  | _ =>
      if allBytes isDigit body then
        let v := digitsValue 0 body in
        if neg then Z.max minInt64 (- v) else Z.min maxInt64 v
      else 0
  end.

(** A [float64] as the scraper builds it. *)
Inductive float64 : Type :=
| FZero : float64                       (* the zero value of the type *)
| FParse (lit : string) : float64       (* strconv.ParseFloat(lit, 64) *)
| FNeg (x : float64) : float64.         (* unary minus *)

(** ** Package [regexp]

    The operators that occur in the scraper's patterns, matched as Go's
    machine does: over the runes of the input, leftmost-first.  Every
    repetition in the patterns is over a single character class, so [Rep]
    carries the class; [Rep true] is greedy ([x*], [x+], [x{n,m}]),
    [Rep false] is lazy ([x*?]).  [Alt] and [Opt] prefer their first (resp.
    non-empty) alternative, and the search takes the leftmost start. *)

Module Regexp.
Import utf8.

Inductive regex : Type :=
| Eps : regex
| Chr (p : rune -> bool) : regex
| Cat (r1 r2 : regex) : regex
| Alt (r1 r2 : regex) : regex
| Opt (r : regex) : regex
| Rep (greedy : bool) (p : rune -> bool) (lo : nat) (hi : option nat) : regex
| Cap (n : nat) (r : regex) : regex
| WordBoundary : regex.

(** The matcher's position: the rune before it (for [\b]), its byte offset
    in the whole text, and the capture groups closed so far, latest
    first. *)
Record cursor : Type := Cursor {
  cur_prev : option rune;
  cur_pos : nat;
  cur_caps : list (nat * (nat * nat))
}.

Definition advance (c : cursor) (t : token) : cursor :=
  Cursor (Some (t_rune t)) (cur_pos c + width t) (cur_caps c).

(** The cursor after the runes of [w]. *)
Fixpoint advanceOver (c : cursor) (w : list token) : cursor :=
  match w with
  | [] => c
  | t :: w' => advanceOver (advance c t) w'
  end.

Definition closeGroup (n from : nat) (c : cursor) : cursor :=
  Cursor (cur_prev c) (cur_pos c) ((n, (from, cur_pos c)) :: cur_caps c).

(** [syntax.IsWordChar]: ASCII letters, digits and the underscore. *)
Definition isWordChar (r : rune) : bool :=
  unicode.between 65 90 r || unicode.between 97 122 r || unicode.between 48 57 r
  || (r =? 95)%N.

Definition wordBefore (c : cursor) : bool :=
  match cur_prev c with Some r => isWordChar r | None => false end.

Definition wordAfter (s : list token) : bool :=
  match s with t :: _ => isWordChar (t_rune t) | [] => false end.

Section Matcher.
Context {R : Type}.

(** [x{lo,hi}] over the class [p], then [k]. *)
Fixpoint rep (greedy : bool) (p : rune -> bool) (lo : nat) (hi : option nat)
    (c : cursor) (s : list token) (k : cursor -> list token -> option R)
    {struct s} : option R :=
  let stop (_ : unit) := match lo with O => k c s | S _ => None end in
  let more (_ : unit) :=
    match hi with
    | Some O => None
    | _ =>
        match s with
        | t :: s' =>
            if p (t_rune t)
            then rep greedy p (Nat.pred lo) (Nat.pred <$> hi) (advance c t) s' k
            else None
        | [] => None
        end
    end in
  if greedy
  then match more () with Some x => Some x | None => stop () end
  else match stop () with Some x => Some x | None => more () end.

Fixpoint run (r : regex) (c : cursor) (s : list token)
    (k : cursor -> list token -> option R) {struct r} : option R :=
  match r with
  | Eps => k c s
  | Chr p =>
      match s with
      | t :: s' => if p (t_rune t) then k (advance c t) s' else None
      | [] => None
      end
  | Cat r1 r2 => run r1 c s (fun c' s' => run r2 c' s' k)
  | Alt r1 r2 =>
      match run r1 c s k with Some x => Some x | None => run r2 c s k end
  | Opt r1 =>
      match run r1 c s k with Some x => Some x | None => k c s end
  | Rep greedy p lo hi => rep greedy p lo hi c s k
  | Cap n r1 => run r1 c s (fun c' s' => k (closeGroup n (cur_pos c) c') s')
  | WordBoundary =>
      if xorb (wordBefore c) (wordAfter s) then k c s else None
  end.
End Matcher.

(** The continuation at the end of a pattern. *)
Definition accept : cursor -> list token -> option (cursor * list token) :=
  fun c s => Some (c, s).

(** The first rune of the input is in the class. *)
Definition leading (p : rune -> bool) (s : list token) : bool :=
  match s with t :: _ => p (t_rune t) | [] => false end.

(** Every rune of [X] is in the class. *)
Definition allRunes (p : rune -> bool) (X : list token) : bool :=
  forallb (fun t => p (t_rune t)) X.

(** One match: the runes skipped before it, its text, the cursor at its
    end and the input left after it. *)
Record found : Type := Found {
  f_skipped : list token;
  f_text : list token;
  f_end : cursor;
  f_rest : list token
}.

Definition skip1 (t : token) (m : found) : found :=
  Found (t :: f_skipped m) (f_text m) (f_end m) (f_rest m).

Fixpoint skipAll (pre : list token) (m : found) : found :=
  match pre with
  | [] => m
  | t :: pre' => skip1 t (skipAll pre' m)
  end.

(** The leftmost match at or after the cursor. *)
Fixpoint search (r : regex) (c : cursor) (s : list token) : option found :=
  match run r c s accept with
  | Some (c', s') => Some (Found [] (take (length s - length s') s) c' s')
  | None =>
      match s with
      | t :: s' => skip1 t <$> search r (advance c t) s'
      | [] => None
      end
  end.

Definition start : cursor := Cursor None 0 [].

Definition restart (c : cursor) : cursor := Cursor (cur_prev c) (cur_pos c) [].

Fixpoint lookupGroup (n : nat) (caps : list (nat * (nat * nat))) : option (nat * nat) :=
  match caps with
  | [] => None
  | (m, span) :: caps' => if Nat.eqb n m then Some span else lookupGroup n caps'
  end.

Fixpoint groups (r : regex) : nat :=
  match r with
  | Cat r1 r2 | Alt r1 r2 => Nat.max (groups r1) (groups r2)
  | Opt r1 => groups r1
  | Cap n r1 => Nat.max n (groups r1)
  | _ => 0%nat
  end.

(** [text[from:to]] for the span of group [n], [""] for a group that took
    no part in the match. *)
Definition groupText (text : string) (caps : list (nat * (nat * nat))) (n : nat) : string :=
  match lookupGroup n caps with
  | Some (from, to) => takeBytes (to - from) (dropBytes from text)
  | None => EmptyString
  end.

(** [re.FindString]: the text of the leftmost match, [""] when none. *)
Definition FindString (r : regex) (text : string) : string :=
  match search r start (runes text) with
  | Some m => bytes (f_text m)
  | None => EmptyString
  end.

(** [re.FindStringSubmatch]: the match and its groups, [nil] when none. *)
Definition FindStringSubmatch (r : regex) (text : string) : list string :=
  match search r start (runes text) with
  | Some m =>
      bytes (f_text m) :: map (groupText text (cur_caps (f_end m))) (seq 1 (groups r))
  | None => []
  end.

(** The loop of [re.allMatches]: successive matches, each search starting
    where the last match ended; an empty match moves the search one rune on
    and is dropped when it touches the match before it.  [fuel] bounds the
    number of searches; more than the number of runes is never used up
    ([allMatches_fuel] below). *)
Fixpoint allMatches (fuel : nat) (r : regex) (c : cursor) (s : list token)
    (prevEnd : option nat) : list string :=
  match fuel with
  | O => []
  | S fuel' =>
      match search r (restart c) s with
      | None => []
      | Some m =>
          let e := f_end m in
          if Nat.eqb (cur_pos e) (cur_pos c) then
            let deliver :=
              negb (bool_decide (prevEnd = Some (cur_pos e))) in
            let later :=
              match s with
              | t :: s' => allMatches fuel' r (advance c t) s' (Some (cur_pos e))
              | [] => []
              end in
            if deliver then bytes (f_text m) :: later else later
          else bytes (f_text m) :: allMatches fuel' r e (f_rest m) (Some (cur_pos e))
      end
  end.

(** [re.FindAllString(text, -1)] *)
Definition FindAllString (r : regex) (text : string) : list string :=
  allMatches (String.length text + 2) r start (runes text) None.

(** The loop of [re.replaceAll] for a replacement without [$]: the bytes
    between matches are copied, each match is replaced, except an empty
    match right after another match.  For [fuel] see [replaceAll_fuel]. *)
Fixpoint replaceAll (fuel : nat) (r : regex) (repl : string) (c : cursor)
    (s : list token) (lastEnd : nat) (pending : string) : string :=
  match fuel with
  | O => pending +:+ bytes s
  | S fuel' =>
      match search r (restart c) s with
      | None => pending +:+ bytes s
      | Some m =>
          let e := f_end m in
          let first := Nat.eqb (cur_pos e - String.length (bytes (f_text m))) 0 in
          let out :=
            pending +:+ bytes (f_skipped m) +:+
            (if (lastEnd <? cur_pos e)%nat || first then repl else EmptyString) in
          if Nat.eqb (cur_pos e) (cur_pos c) then
            match s with
            | t :: s' =>
                out +:+ replaceAll fuel' r repl (advance c t) s' (cur_pos e) (t_bytes t)
            | [] => out
            end
          else out +:+ replaceAll fuel' r repl e (f_rest m) (cur_pos e) EmptyString
      end
  end.

(** [re.ReplaceAllString(src, repl)] *)
Definition ReplaceAllString (r : regex) (src repl : string) : string :=
  replaceAll (String.length src + 2) r repl start (runes src) 0 EmptyString.

(** *** Pattern syntax *)

(** A literal character of a pattern (all of them are ASCII). *)
Definition byte (a : ascii) : regex := Chr (N.eqb (code a)).

(** A literal. *)
Fixpoint lit (s : string) : regex :=
  match s with
  | EmptyString => Eps
  | String a EmptyString => byte a
  | String a s' => Cat (byte a) (lit s')
  end.

(** A literal character under [(?i)]: the runes that fold to it, which for
    an ASCII letter are its two cases and, for [k] and [s], U+212A and
    U+017F. *)
Definition foldsTo (a : ascii) (r : rune) : bool :=
  let lower (x : N) := if unicode.between 65 90 x then (x + 32)%N else x in
  (lower r =? lower (code a))%N
  || ((lower (code a) =? 107) && (r =? 8490))%N
  || ((lower (code a) =? 115) && (r =? 383))%N.

(** A literal under [(?i)]. *)
Fixpoint litFold (s : string) : regex :=
  match s with
  | EmptyString => Eps
  | String a s' => Cat (Chr (foldsTo a)) (litFold s')
  end.

Fixpoint cat (rs : list regex) : regex :=
  match rs with
  | [] => Eps
  | [r] => r
  | r :: rs' => Cat r (cat rs')
  end.

Fixpoint alt (rs : list regex) : regex :=
  match rs with
  | [] => Eps
  | [r] => r
  | r :: rs' => Alt r (alt rs')
  end.

Definition many (p : rune -> bool) : regex := Rep true p 0 None.
Definition many1 (p : rune -> bool) : regex := Rep true p 1 None.
Definition manyLazy (p : rune -> bool) : regex := Rep false p 0 None.
Definition between (p : rune -> bool) (lo hi : nat) : regex := Rep true p lo (Some hi).

(** Character classes.  [\d] and [\s] are Go's Perl classes, ASCII only. *)
Definition cDigit : rune -> bool := unicode.between 48 57.           (* \d, [0-9] *)
Definition cUpper : rune -> bool := unicode.between 65 90.           (* [A-Z] *)
Definition cLower : rune -> bool := unicode.between 97 122.          (* [a-z] *)
Definition cLetter (r : rune) : bool := cUpper r || cLower r.        (* [A-Za-z] *)
Definition cIs (a : ascii) (r : rune) : bool := (r =? code a)%N.
Definition cSpace (r : rune) : bool :=                               (* \s *)
  cIs "009" r || cIs "010" r || cIs "012" r || cIs "013" r || cIs " " r.
Definition cAny (r : rune) : bool := negb (cIs "010" r).             (* . *)
Definition cDigitComma (r : rune) : bool := cDigit r || cIs "," r.   (* [0-9,] *)
Definition cDigitDot (r : rune) : bool := cDigit r || cIs "." r.     (* [0-9.] *)
Definition cDigitCommaDot (r : rune) : bool :=                       (* [0-9,.] *)
  cDigit r || cIs "," r || cIs "." r.
Definition cLetterSpace (r : rune) : bool := cLetter r || cSpace r.  (* [A-Za-z\s] *)
Definition cLowerDigit (r : rune) : bool := cLower r || cDigit r.    (* [a-z0-9] *)
Definition cNot (p : rune -> bool) (r : rune) : bool := negb (p r).
Definition cNotCommaNewline (r : rune) : bool :=                     (* [^,\n] *)
  negb (cIs "," r || cIs "010" r).
Definition cColonSpace (r : rune) : bool := cIs ":" r || cSpace r.   (* [:\s] *)
Definition cNotDot (r : rune) : bool := negb (cIs "." r).            (* [^.] *)

(** A class of runes read on a byte. *)
Definition onByte (p : rune -> bool) (c : ascii) : bool := p (code c).

End Regexp.
Export Regexp.

(** ** The patterns of the scraper, each next to its source text *)

Module pagePatterns.

(** [(\d+\s+[A-Za-z\s]+(?:St|Ave|Rd|Dr|Pl|Place|Street|Avenue|Road|Drive).*?Honolulu,\s*HI\s*96822)] *)
Definition addressRegex : regex :=
  Cap 1 (cat [many1 cDigit; many1 cSpace; many1 cLetterSpace;
              alt [lit "St"; lit "Ave"; lit "Rd"; lit "Dr"; lit "Pl"; lit "Place";
                   lit "Street"; lit "Avenue"; lit "Road"; lit "Drive"];
              manyLazy cAny; lit "Honolulu,"; many cSpace; lit "HI"; many cSpace;
              lit "96822"]).

(** [\$([0-9,]+)] *)
Definition priceRegex : regex := Cat (byte "$") (Cap 1 (many1 cDigitComma)).

(** [([0-9,]+)\s*Sq\s*Ft] *)
Definition sqftRegex : regex :=
  cat [Cap 1 (many1 cDigitComma); many cSpace; lit "Sq"; many cSpace; lit "Ft"].

(** [(\d+)\s*Bed] *)
Definition bedroomRegex : regex := cat [Cap 1 (many1 cDigit); many cSpace; lit "Bed"].

(** [([0-9.]+)\s*Bath] *)
Definition bathroomRegex : regex := cat [Cap 1 (many1 cDigitDot); many cSpace; lit "Bath"].

(** [SOLD\s+([A-Z]{3}\s+\d{1,2},\s+\d{4})] *)
Definition soldRegex : regex :=
  cat [lit "SOLD"; many1 cSpace;
       Cap 1 (cat [between cUpper 3 3; many1 cSpace; between cDigit 1 2; byte ",";
                   many1 cSpace; between cDigit 4 4])].

(** [(\d+)\s*Days\s*On\s*Market] *)
Definition daysRegex : regex :=
  cat [Cap 1 (many1 cDigit); many cSpace; lit "Days"; many cSpace; lit "On";
       many cSpace; lit "Market"].

(** [Built\s+(\d{4})] *)
Definition yearRegex : regex := cat [lit "Built"; many1 cSpace; Cap 1 (between cDigit 4 4)].

End pagePatterns.

Module statsPatterns.

(** [Median Sale Price \$([0-9,]+)] *)
Definition medianRegex : regex :=
  Cat (lit "Median Sale Price $") (Cap 1 (many1 cDigitComma)).

(** [Average Price Per Sq Ft \$([0-9,]+)] *)
Definition averageRegex : regex :=
  Cat (lit "Average Price Per Sq Ft $") (Cap 1 (many1 cDigitComma)).

(** [([0-9]+) days on the market] *)
Definition daysRegex : regex := Cat (Cap 1 (many1 cDigit)) (lit " days on the market").

(** [down ([0-9]+)%] *)
Definition downRegex : regex := cat [lit "down "; Cap 1 (many1 cDigit); byte "%"].

(** [([0-9]+) homes for sale in] *)
Definition forSaleRegex : regex := Cat (Cap 1 (many1 cDigit)) (lit " homes for sale in").

(** [([0-9]+) homes in Manoa] *)
Definition manoaRegex : regex := Cat (Cap 1 (many1 cDigit)) (lit " homes in Manoa").

(** [([0-9]+) home sales] *)
Definition salesRegex : regex := Cat (Cap 1 (many1 cDigit)) (lit " home sales").

End statsPatterns.

Module detailPatterns.

(** [([0-9,]+)\s*(?:sq|square)\s*(?:ft|feet)] *)
Definition sqftRegex : regex :=
  cat [Cap 1 (many1 cDigitComma); many cSpace; Alt (lit "sq") (lit "square");
       many cSpace; Alt (lit "ft") (lit "feet")].

(** [(\d+)\s*(?:bed|bedroom)] *)
Definition bedroomRegex : regex :=
  cat [Cap 1 (many1 cDigit); many cSpace; Alt (lit "bed") (lit "bedroom")].

(** [([0-9.]+)\s*(?:bath|bathroom)] *)
Definition bathroomRegex : regex :=
  cat [Cap 1 (many1 cDigitDot); many cSpace; Alt (lit "bath") (lit "bathroom")].

(** [(?:built|year)\s*:?\s*(\d{4})] *)
Definition yearRegex : regex :=
  cat [Alt (lit "built") (lit "year"); many cSpace; Opt (byte ":"); many cSpace;
       Cap 1 (between cDigit 4 4)].

End detailPatterns.

Module redfinPatterns.

(** [\$([0-9,]+(?:\.[0-9]{2})?)] *)
Definition priceRegex : regex :=
  Cat (byte "$")
      (Cap 1 (Cat (many1 cDigitComma) (Opt (Cat (byte ".") (between cDigit 2 2))))).

(** [([0-9,]+)\s*(?:sq\.?\s*ft\.?|square\s+feet)] *)
Definition sqftRegex : regex :=
  cat [Cap 1 (many1 cDigitComma); many cSpace;
       Alt (cat [lit "sq"; Opt (byte "."); many cSpace; lit "ft"; Opt (byte ".")])
           (cat [lit "square"; many1 cSpace; lit "feet"])].

(** [([0-9,.]+)\s*(?:acres?|ac\b)] *)
Definition lotSizeRegex : regex :=
  cat [Cap 1 (many1 cDigitCommaDot); many cSpace;
       Alt (Cat (lit "acre") (Opt (byte "s"))) (Cat (lit "ac") WordBoundary)].

(** [(\d+)\s*days?\s*on\s*market] *)
Definition daysOnMarketRegex : regex :=
  cat [Cap 1 (many1 cDigit); many cSpace; lit "day"; Opt (byte "s"); many cSpace;
       lit "on"; many cSpace; lit "market"].

(** [(?i)description[:\s]*([^.]{50,500}\.?)] *)
Definition descRegex : regex :=
  cat [litFold "description"; many cColonSpace;
       Cap 1 (Cat (between cNotDot 50 500) (Opt (byte ".")))].

(** [Label:\s*([^,\n]+)] *)
Definition labelled (label : string) : regex :=
  cat [lit label; byte ":"; many cSpace; Cap 1 (many1 cNotCommaNewline)].

(** [(?:district|District):\s*([^,\n]+)] *)
Definition schoolDistrictRegex : regex :=
  cat [Alt (lit "district") (lit "District"); byte ":"; many cSpace;
       Cap 1 (many1 cNotCommaNewline)].

(** [Elementary:\s*([^,\n]+)], [Middle:\s*([^,\n]+)], [High:\s*([^,\n]+)],
    [Condition:\s*([^,\n]+)] *)
Definition elementaryRegex : regex := labelled "Elementary".
Definition middleRegex : regex := labelled "Middle".
Definition highRegex : regex := labelled "High".
Definition conditionRegex : regex := labelled "Condition".

(** [Property\s+Tax:\s*\$([0-9,]+)] *)
Definition propertyTaxRegex : regex :=
  cat [lit "Property"; many1 cSpace; lit "Tax:"; many cSpace; byte "$";
       Cap 1 (many1 cDigitComma)].

(** [HOA:\s*\$([0-9,]+)] *)
Definition hoaRegex : regex :=
  cat [lit "HOA:"; many cSpace; byte "$"; Cap 1 (many1 cDigitComma)].

(** [(\d+)\s*car\s*garage|(\d+)\s*parking\s*space] *)
Definition parkingRegex : regex :=
  Alt (cat [Cap 1 (many1 cDigit); many cSpace; lit "car"; many cSpace; lit "garage"])
      (cat [Cap 2 (many1 cDigit); many cSpace; lit "parking"; many cSpace; lit "space"]).

Definition featurePatterns : list regex :=
  labelled <$> ["Heating"; "Cooling"; "Flooring"; "Appliances"; "Roof"; "Foundation";
                "View"; "Fireplace"].

End redfinPatterns.

(** ** The data model (homes.go, lines 21-83) *)

Record Property : Type := mkProperty {
  ID : string;
  Address : string;
  City : string;
  State : string;
  ZipCode : string;
  Price : Z;
  Bedrooms : Z;
  Bathrooms : float64;
  SquareFeet : Z;
  LotSize : float64;
  PricePerSqFt : Z;
  YearBuilt : Z;
  PropertyType : string;
  Status : string;
  SoldDate : string;
  DaysOnMarket : Z;
  Description : string;
  Features : list string;
  Agent : string;
  Brokerage : string;
  (* Enhanced fields for pricing analysis *)
  PropertyCondition : string;
  SchoolDistrict : string;
  ElementarySchool : string;
  MiddleSchool : string;
  HighSchool : string;
  SchoolRatings : list string;
  Neighborhood : string;
  PropertyTax : string;
  HOAFees : string;
  ParkingSpaces : Z;
  Garage : string;
  Heating : string;
  Cooling : string;
  Flooring : list string;
  Appliances : list string;
  LastRenovated : string;
  PriceHistory : list string;
  NearbyComparables : list string;
  WalkScore : string;
  TransitScore : string;
  DistanceToBeach : string;
  DistanceToDowntown : string;
  FloodZone : string;
  HomeInsurance : string
}.

(** The zero value [Property{}]. *)
Definition zeroProperty : Property :=
  mkProperty "" "" "" "" "" 0 0 FZero 0 FZero 0 0 "" "" "" 0 "" [] "" "" "" "" "" "" ""
    [] "" "" "" 0 "" "" "" [] [] "" [] [] "" "" "" "" "" "".

(** Field assignments [property.F = v], for the fields the scraper assigns. *)

Definition setID (v : string) (p : Property) : Property :=
  mkProperty v (Address p) (City p) (State p) (ZipCode p) (Price p) (Bedrooms p)
    (Bathrooms p) (SquareFeet p) (LotSize p) (PricePerSqFt p) (YearBuilt p)
    (PropertyType p) (Status p) (SoldDate p) (DaysOnMarket p) (Description p)
    (Features p) (Agent p) (Brokerage p) (PropertyCondition p) (SchoolDistrict p)
    (ElementarySchool p) (MiddleSchool p) (HighSchool p) (SchoolRatings p)
    (Neighborhood p) (PropertyTax p) (HOAFees p) (ParkingSpaces p) (Garage p)
    (Heating p) (Cooling p) (Flooring p) (Appliances p) (LastRenovated p)
    (PriceHistory p) (NearbyComparables p) (WalkScore p) (TransitScore p)
    (DistanceToBeach p) (DistanceToDowntown p) (FloodZone p) (HomeInsurance p).

Definition setAddress (v : string) (p : Property) : Property :=
  mkProperty (ID p) v (City p) (State p) (ZipCode p) (Price p) (Bedrooms p)
    (Bathrooms p) (SquareFeet p) (LotSize p) (PricePerSqFt p) (YearBuilt p)
    (PropertyType p) (Status p) (SoldDate p) (DaysOnMarket p) (Description p)
    (Features p) (Agent p) (Brokerage p) (PropertyCondition p) (SchoolDistrict p)
    (ElementarySchool p) (MiddleSchool p) (HighSchool p) (SchoolRatings p)
    (Neighborhood p) (PropertyTax p) (HOAFees p) (ParkingSpaces p) (Garage p)
    (Heating p) (Cooling p) (Flooring p) (Appliances p) (LastRenovated p)
    (PriceHistory p) (NearbyComparables p) (WalkScore p) (TransitScore p)
    (DistanceToBeach p) (DistanceToDowntown p) (FloodZone p) (HomeInsurance p).

Definition setCity (v : string) (p : Property) : Property :=
  mkProperty (ID p) (Address p) v (State p) (ZipCode p) (Price p) (Bedrooms p)
    (Bathrooms p) (SquareFeet p) (LotSize p) (PricePerSqFt p) (YearBuilt p)
    (PropertyType p) (Status p) (SoldDate p) (DaysOnMarket p) (Description p)
    (Features p) (Agent p) (Brokerage p) (PropertyCondition p) (SchoolDistrict p)
    (ElementarySchool p) (MiddleSchool p) (HighSchool p) (SchoolRatings p)
    (Neighborhood p) (PropertyTax p) (HOAFees p) (ParkingSpaces p) (Garage p)
    (Heating p) (Cooling p) (Flooring p) (Appliances p) (LastRenovated p)
    (PriceHistory p) (NearbyComparables p) (WalkScore p) (TransitScore p)
    (DistanceToBeach p) (DistanceToDowntown p) (FloodZone p) (HomeInsurance p).

Definition setState (v : string) (p : Property) : Property :=
  mkProperty (ID p) (Address p) (City p) v (ZipCode p) (Price p) (Bedrooms p)
    (Bathrooms p) (SquareFeet p) (LotSize p) (PricePerSqFt p) (YearBuilt p)
    (PropertyType p) (Status p) (SoldDate p) (DaysOnMarket p) (Description p)
    (Features p) (Agent p) (Brokerage p) (PropertyCondition p) (SchoolDistrict p)
    (ElementarySchool p) (MiddleSchool p) (HighSchool p) (SchoolRatings p)
    (Neighborhood p) (PropertyTax p) (HOAFees p) (ParkingSpaces p) (Garage p)
    (Heating p) (Cooling p) (Flooring p) (Appliances p) (LastRenovated p)
    (PriceHistory p) (NearbyComparables p) (WalkScore p) (TransitScore p)
    (DistanceToBeach p) (DistanceToDowntown p) (FloodZone p) (HomeInsurance p).

Definition setZipCode (v : string) (p : Property) : Property :=
  mkProperty (ID p) (Address p) (City p) (State p) v (Price p) (Bedrooms p)
    (Bathrooms p) (SquareFeet p) (LotSize p) (PricePerSqFt p) (YearBuilt p)
    (PropertyType p) (Status p) (SoldDate p) (DaysOnMarket p) (Description p)
    (Features p) (Agent p) (Brokerage p) (PropertyCondition p) (SchoolDistrict p)
    (ElementarySchool p) (MiddleSchool p) (HighSchool p) (SchoolRatings p)
    (Neighborhood p) (PropertyTax p) (HOAFees p) (ParkingSpaces p) (Garage p)
    (Heating p) (Cooling p) (Flooring p) (Appliances p) (LastRenovated p)
    (PriceHistory p) (NearbyComparables p) (WalkScore p) (TransitScore p)
    (DistanceToBeach p) (DistanceToDowntown p) (FloodZone p) (HomeInsurance p).

Definition setPrice (v : Z) (p : Property) : Property :=
  mkProperty (ID p) (Address p) (City p) (State p) (ZipCode p) v (Bedrooms p)
    (Bathrooms p) (SquareFeet p) (LotSize p) (PricePerSqFt p) (YearBuilt p)
    (PropertyType p) (Status p) (SoldDate p) (DaysOnMarket p) (Description p)
    (Features p) (Agent p) (Brokerage p) (PropertyCondition p) (SchoolDistrict p)
    (ElementarySchool p) (MiddleSchool p) (HighSchool p) (SchoolRatings p)
    (Neighborhood p) (PropertyTax p) (HOAFees p) (ParkingSpaces p) (Garage p)
    (Heating p) (Cooling p) (Flooring p) (Appliances p) (LastRenovated p)
    (PriceHistory p) (NearbyComparables p) (WalkScore p) (TransitScore p)
    (DistanceToBeach p) (DistanceToDowntown p) (FloodZone p) (HomeInsurance p).

Definition setBedrooms (v : Z) (p : Property) : Property :=
  mkProperty (ID p) (Address p) (City p) (State p) (ZipCode p) (Price p) v (Bathrooms p)
    (SquareFeet p) (LotSize p) (PricePerSqFt p) (YearBuilt p) (PropertyType p)
    (Status p) (SoldDate p) (DaysOnMarket p) (Description p) (Features p) (Agent p)
    (Brokerage p) (PropertyCondition p) (SchoolDistrict p) (ElementarySchool p)
    (MiddleSchool p) (HighSchool p) (SchoolRatings p) (Neighborhood p) (PropertyTax p)
    (HOAFees p) (ParkingSpaces p) (Garage p) (Heating p) (Cooling p) (Flooring p)
    (Appliances p) (LastRenovated p) (PriceHistory p) (NearbyComparables p)
    (WalkScore p) (TransitScore p) (DistanceToBeach p) (DistanceToDowntown p)
    (FloodZone p) (HomeInsurance p).

Definition setBathrooms (v : float64) (p : Property) : Property :=
  mkProperty (ID p) (Address p) (City p) (State p) (ZipCode p) (Price p) (Bedrooms p) v
    (SquareFeet p) (LotSize p) (PricePerSqFt p) (YearBuilt p) (PropertyType p)
    (Status p) (SoldDate p) (DaysOnMarket p) (Description p) (Features p) (Agent p)
    (Brokerage p) (PropertyCondition p) (SchoolDistrict p) (ElementarySchool p)
    (MiddleSchool p) (HighSchool p) (SchoolRatings p) (Neighborhood p) (PropertyTax p)
    (HOAFees p) (ParkingSpaces p) (Garage p) (Heating p) (Cooling p) (Flooring p)
    (Appliances p) (LastRenovated p) (PriceHistory p) (NearbyComparables p)
    (WalkScore p) (TransitScore p) (DistanceToBeach p) (DistanceToDowntown p)
    (FloodZone p) (HomeInsurance p).

Definition setSquareFeet (v : Z) (p : Property) : Property :=
  mkProperty (ID p) (Address p) (City p) (State p) (ZipCode p) (Price p) (Bedrooms p)
    (Bathrooms p) v (LotSize p) (PricePerSqFt p) (YearBuilt p) (PropertyType p)
    (Status p) (SoldDate p) (DaysOnMarket p) (Description p) (Features p) (Agent p)
    (Brokerage p) (PropertyCondition p) (SchoolDistrict p) (ElementarySchool p)
    (MiddleSchool p) (HighSchool p) (SchoolRatings p) (Neighborhood p) (PropertyTax p)
    (HOAFees p) (ParkingSpaces p) (Garage p) (Heating p) (Cooling p) (Flooring p)
    (Appliances p) (LastRenovated p) (PriceHistory p) (NearbyComparables p)
    (WalkScore p) (TransitScore p) (DistanceToBeach p) (DistanceToDowntown p)
    (FloodZone p) (HomeInsurance p).

Definition setLotSize (v : float64) (p : Property) : Property :=
  mkProperty (ID p) (Address p) (City p) (State p) (ZipCode p) (Price p) (Bedrooms p)
    (Bathrooms p) (SquareFeet p) v (PricePerSqFt p) (YearBuilt p) (PropertyType p)
    (Status p) (SoldDate p) (DaysOnMarket p) (Description p) (Features p) (Agent p)
    (Brokerage p) (PropertyCondition p) (SchoolDistrict p) (ElementarySchool p)
    (MiddleSchool p) (HighSchool p) (SchoolRatings p) (Neighborhood p) (PropertyTax p)
    (HOAFees p) (ParkingSpaces p) (Garage p) (Heating p) (Cooling p) (Flooring p)
    (Appliances p) (LastRenovated p) (PriceHistory p) (NearbyComparables p)
    (WalkScore p) (TransitScore p) (DistanceToBeach p) (DistanceToDowntown p)
    (FloodZone p) (HomeInsurance p).

Definition setPricePerSqFt (v : Z) (p : Property) : Property :=
  mkProperty (ID p) (Address p) (City p) (State p) (ZipCode p) (Price p) (Bedrooms p)
    (Bathrooms p) (SquareFeet p) (LotSize p) v (YearBuilt p) (PropertyType p) (Status p)
    (SoldDate p) (DaysOnMarket p) (Description p) (Features p) (Agent p) (Brokerage p)
    (PropertyCondition p) (SchoolDistrict p) (ElementarySchool p) (MiddleSchool p)
    (HighSchool p) (SchoolRatings p) (Neighborhood p) (PropertyTax p) (HOAFees p)
    (ParkingSpaces p) (Garage p) (Heating p) (Cooling p) (Flooring p) (Appliances p)
    (LastRenovated p) (PriceHistory p) (NearbyComparables p) (WalkScore p)
    (TransitScore p) (DistanceToBeach p) (DistanceToDowntown p) (FloodZone p)
    (HomeInsurance p).

Definition setYearBuilt (v : Z) (p : Property) : Property :=
  mkProperty (ID p) (Address p) (City p) (State p) (ZipCode p) (Price p) (Bedrooms p)
    (Bathrooms p) (SquareFeet p) (LotSize p) (PricePerSqFt p) v (PropertyType p)
    (Status p) (SoldDate p) (DaysOnMarket p) (Description p) (Features p) (Agent p)
    (Brokerage p) (PropertyCondition p) (SchoolDistrict p) (ElementarySchool p)
    (MiddleSchool p) (HighSchool p) (SchoolRatings p) (Neighborhood p) (PropertyTax p)
    (HOAFees p) (ParkingSpaces p) (Garage p) (Heating p) (Cooling p) (Flooring p)
    (Appliances p) (LastRenovated p) (PriceHistory p) (NearbyComparables p)
    (WalkScore p) (TransitScore p) (DistanceToBeach p) (DistanceToDowntown p)
    (FloodZone p) (HomeInsurance p).

Definition setPropertyType (v : string) (p : Property) : Property :=
  mkProperty (ID p) (Address p) (City p) (State p) (ZipCode p) (Price p) (Bedrooms p)
    (Bathrooms p) (SquareFeet p) (LotSize p) (PricePerSqFt p) (YearBuilt p) v (Status p)
    (SoldDate p) (DaysOnMarket p) (Description p) (Features p) (Agent p) (Brokerage p)
    (PropertyCondition p) (SchoolDistrict p) (ElementarySchool p) (MiddleSchool p)
    (HighSchool p) (SchoolRatings p) (Neighborhood p) (PropertyTax p) (HOAFees p)
    (ParkingSpaces p) (Garage p) (Heating p) (Cooling p) (Flooring p) (Appliances p)
    (LastRenovated p) (PriceHistory p) (NearbyComparables p) (WalkScore p)
    (TransitScore p) (DistanceToBeach p) (DistanceToDowntown p) (FloodZone p)
    (HomeInsurance p).

Definition setStatus (v : string) (p : Property) : Property :=
  mkProperty (ID p) (Address p) (City p) (State p) (ZipCode p) (Price p) (Bedrooms p)
    (Bathrooms p) (SquareFeet p) (LotSize p) (PricePerSqFt p) (YearBuilt p)
    (PropertyType p) v (SoldDate p) (DaysOnMarket p) (Description p) (Features p)
    (Agent p) (Brokerage p) (PropertyCondition p) (SchoolDistrict p)
    (ElementarySchool p) (MiddleSchool p) (HighSchool p) (SchoolRatings p)
    (Neighborhood p) (PropertyTax p) (HOAFees p) (ParkingSpaces p) (Garage p)
    (Heating p) (Cooling p) (Flooring p) (Appliances p) (LastRenovated p)
    (PriceHistory p) (NearbyComparables p) (WalkScore p) (TransitScore p)
    (DistanceToBeach p) (DistanceToDowntown p) (FloodZone p) (HomeInsurance p).

Definition setSoldDate (v : string) (p : Property) : Property :=
  mkProperty (ID p) (Address p) (City p) (State p) (ZipCode p) (Price p) (Bedrooms p)
    (Bathrooms p) (SquareFeet p) (LotSize p) (PricePerSqFt p) (YearBuilt p)
    (PropertyType p) (Status p) v (DaysOnMarket p) (Description p) (Features p)
    (Agent p) (Brokerage p) (PropertyCondition p) (SchoolDistrict p)
    (ElementarySchool p) (MiddleSchool p) (HighSchool p) (SchoolRatings p)
    (Neighborhood p) (PropertyTax p) (HOAFees p) (ParkingSpaces p) (Garage p)
    (Heating p) (Cooling p) (Flooring p) (Appliances p) (LastRenovated p)
    (PriceHistory p) (NearbyComparables p) (WalkScore p) (TransitScore p)
    (DistanceToBeach p) (DistanceToDowntown p) (FloodZone p) (HomeInsurance p).

Definition setDaysOnMarket (v : Z) (p : Property) : Property :=
  mkProperty (ID p) (Address p) (City p) (State p) (ZipCode p) (Price p) (Bedrooms p)
    (Bathrooms p) (SquareFeet p) (LotSize p) (PricePerSqFt p) (YearBuilt p)
    (PropertyType p) (Status p) (SoldDate p) v (Description p) (Features p) (Agent p)
    (Brokerage p) (PropertyCondition p) (SchoolDistrict p) (ElementarySchool p)
    (MiddleSchool p) (HighSchool p) (SchoolRatings p) (Neighborhood p) (PropertyTax p)
    (HOAFees p) (ParkingSpaces p) (Garage p) (Heating p) (Cooling p) (Flooring p)
    (Appliances p) (LastRenovated p) (PriceHistory p) (NearbyComparables p)
    (WalkScore p) (TransitScore p) (DistanceToBeach p) (DistanceToDowntown p)
    (FloodZone p) (HomeInsurance p).

Definition setDescription (v : string) (p : Property) : Property :=
  mkProperty (ID p) (Address p) (City p) (State p) (ZipCode p) (Price p) (Bedrooms p)
    (Bathrooms p) (SquareFeet p) (LotSize p) (PricePerSqFt p) (YearBuilt p)
    (PropertyType p) (Status p) (SoldDate p) (DaysOnMarket p) v (Features p) (Agent p)
    (Brokerage p) (PropertyCondition p) (SchoolDistrict p) (ElementarySchool p)
    (MiddleSchool p) (HighSchool p) (SchoolRatings p) (Neighborhood p) (PropertyTax p)
    (HOAFees p) (ParkingSpaces p) (Garage p) (Heating p) (Cooling p) (Flooring p)
    (Appliances p) (LastRenovated p) (PriceHistory p) (NearbyComparables p)
    (WalkScore p) (TransitScore p) (DistanceToBeach p) (DistanceToDowntown p)
    (FloodZone p) (HomeInsurance p).

Definition setFeatures (v : list string) (p : Property) : Property :=
  mkProperty (ID p) (Address p) (City p) (State p) (ZipCode p) (Price p) (Bedrooms p)
    (Bathrooms p) (SquareFeet p) (LotSize p) (PricePerSqFt p) (YearBuilt p)
    (PropertyType p) (Status p) (SoldDate p) (DaysOnMarket p) (Description p) v
    (Agent p) (Brokerage p) (PropertyCondition p) (SchoolDistrict p)
    (ElementarySchool p) (MiddleSchool p) (HighSchool p) (SchoolRatings p)
    (Neighborhood p) (PropertyTax p) (HOAFees p) (ParkingSpaces p) (Garage p)
    (Heating p) (Cooling p) (Flooring p) (Appliances p) (LastRenovated p)
    (PriceHistory p) (NearbyComparables p) (WalkScore p) (TransitScore p)
    (DistanceToBeach p) (DistanceToDowntown p) (FloodZone p) (HomeInsurance p).

Definition setAgent (v : string) (p : Property) : Property :=
  mkProperty (ID p) (Address p) (City p) (State p) (ZipCode p) (Price p) (Bedrooms p)
    (Bathrooms p) (SquareFeet p) (LotSize p) (PricePerSqFt p) (YearBuilt p)
    (PropertyType p) (Status p) (SoldDate p) (DaysOnMarket p) (Description p)
    (Features p) v (Brokerage p) (PropertyCondition p) (SchoolDistrict p)
    (ElementarySchool p) (MiddleSchool p) (HighSchool p) (SchoolRatings p)
    (Neighborhood p) (PropertyTax p) (HOAFees p) (ParkingSpaces p) (Garage p)
    (Heating p) (Cooling p) (Flooring p) (Appliances p) (LastRenovated p)
    (PriceHistory p) (NearbyComparables p) (WalkScore p) (TransitScore p)
    (DistanceToBeach p) (DistanceToDowntown p) (FloodZone p) (HomeInsurance p).

Definition setBrokerage (v : string) (p : Property) : Property :=
  mkProperty (ID p) (Address p) (City p) (State p) (ZipCode p) (Price p) (Bedrooms p)
    (Bathrooms p) (SquareFeet p) (LotSize p) (PricePerSqFt p) (YearBuilt p)
    (PropertyType p) (Status p) (SoldDate p) (DaysOnMarket p) (Description p)
    (Features p) (Agent p) v (PropertyCondition p) (SchoolDistrict p)
    (ElementarySchool p) (MiddleSchool p) (HighSchool p) (SchoolRatings p)
    (Neighborhood p) (PropertyTax p) (HOAFees p) (ParkingSpaces p) (Garage p)
    (Heating p) (Cooling p) (Flooring p) (Appliances p) (LastRenovated p)
    (PriceHistory p) (NearbyComparables p) (WalkScore p) (TransitScore p)
    (DistanceToBeach p) (DistanceToDowntown p) (FloodZone p) (HomeInsurance p).

Definition setPropertyCondition (v : string) (p : Property) : Property :=
  mkProperty (ID p) (Address p) (City p) (State p) (ZipCode p) (Price p) (Bedrooms p)
    (Bathrooms p) (SquareFeet p) (LotSize p) (PricePerSqFt p) (YearBuilt p)
    (PropertyType p) (Status p) (SoldDate p) (DaysOnMarket p) (Description p)
    (Features p) (Agent p) (Brokerage p) v (SchoolDistrict p) (ElementarySchool p)
    (MiddleSchool p) (HighSchool p) (SchoolRatings p) (Neighborhood p) (PropertyTax p)
    (HOAFees p) (ParkingSpaces p) (Garage p) (Heating p) (Cooling p) (Flooring p)
    (Appliances p) (LastRenovated p) (PriceHistory p) (NearbyComparables p)
    (WalkScore p) (TransitScore p) (DistanceToBeach p) (DistanceToDowntown p)
    (FloodZone p) (HomeInsurance p).

Definition setSchoolDistrict (v : string) (p : Property) : Property :=
  mkProperty (ID p) (Address p) (City p) (State p) (ZipCode p) (Price p) (Bedrooms p)
    (Bathrooms p) (SquareFeet p) (LotSize p) (PricePerSqFt p) (YearBuilt p)
    (PropertyType p) (Status p) (SoldDate p) (DaysOnMarket p) (Description p)
    (Features p) (Agent p) (Brokerage p) (PropertyCondition p) v (ElementarySchool p)
    (MiddleSchool p) (HighSchool p) (SchoolRatings p) (Neighborhood p) (PropertyTax p)
    (HOAFees p) (ParkingSpaces p) (Garage p) (Heating p) (Cooling p) (Flooring p)
    (Appliances p) (LastRenovated p) (PriceHistory p) (NearbyComparables p)
    (WalkScore p) (TransitScore p) (DistanceToBeach p) (DistanceToDowntown p)
    (FloodZone p) (HomeInsurance p).

Definition setElementarySchool (v : string) (p : Property) : Property :=
  mkProperty (ID p) (Address p) (City p) (State p) (ZipCode p) (Price p) (Bedrooms p)
    (Bathrooms p) (SquareFeet p) (LotSize p) (PricePerSqFt p) (YearBuilt p)
    (PropertyType p) (Status p) (SoldDate p) (DaysOnMarket p) (Description p)
    (Features p) (Agent p) (Brokerage p) (PropertyCondition p) (SchoolDistrict p) v
    (MiddleSchool p) (HighSchool p) (SchoolRatings p) (Neighborhood p) (PropertyTax p)
    (HOAFees p) (ParkingSpaces p) (Garage p) (Heating p) (Cooling p) (Flooring p)
    (Appliances p) (LastRenovated p) (PriceHistory p) (NearbyComparables p)
    (WalkScore p) (TransitScore p) (DistanceToBeach p) (DistanceToDowntown p)
    (FloodZone p) (HomeInsurance p).

Definition setMiddleSchool (v : string) (p : Property) : Property :=
  mkProperty (ID p) (Address p) (City p) (State p) (ZipCode p) (Price p) (Bedrooms p)
    (Bathrooms p) (SquareFeet p) (LotSize p) (PricePerSqFt p) (YearBuilt p)
    (PropertyType p) (Status p) (SoldDate p) (DaysOnMarket p) (Description p)
    (Features p) (Agent p) (Brokerage p) (PropertyCondition p) (SchoolDistrict p)
    (ElementarySchool p) v (HighSchool p) (SchoolRatings p) (Neighborhood p)
    (PropertyTax p) (HOAFees p) (ParkingSpaces p) (Garage p) (Heating p) (Cooling p)
    (Flooring p) (Appliances p) (LastRenovated p) (PriceHistory p) (NearbyComparables p)
    (WalkScore p) (TransitScore p) (DistanceToBeach p) (DistanceToDowntown p)
    (FloodZone p) (HomeInsurance p).

Definition setHighSchool (v : string) (p : Property) : Property :=
  mkProperty (ID p) (Address p) (City p) (State p) (ZipCode p) (Price p) (Bedrooms p)
    (Bathrooms p) (SquareFeet p) (LotSize p) (PricePerSqFt p) (YearBuilt p)
    (PropertyType p) (Status p) (SoldDate p) (DaysOnMarket p) (Description p)
    (Features p) (Agent p) (Brokerage p) (PropertyCondition p) (SchoolDistrict p)
    (ElementarySchool p) (MiddleSchool p) v (SchoolRatings p) (Neighborhood p)
    (PropertyTax p) (HOAFees p) (ParkingSpaces p) (Garage p) (Heating p) (Cooling p)
    (Flooring p) (Appliances p) (LastRenovated p) (PriceHistory p) (NearbyComparables p)
    (WalkScore p) (TransitScore p) (DistanceToBeach p) (DistanceToDowntown p)
    (FloodZone p) (HomeInsurance p).

Definition setNeighborhood (v : string) (p : Property) : Property :=
  mkProperty (ID p) (Address p) (City p) (State p) (ZipCode p) (Price p) (Bedrooms p)
    (Bathrooms p) (SquareFeet p) (LotSize p) (PricePerSqFt p) (YearBuilt p)
    (PropertyType p) (Status p) (SoldDate p) (DaysOnMarket p) (Description p)
    (Features p) (Agent p) (Brokerage p) (PropertyCondition p) (SchoolDistrict p)
    (ElementarySchool p) (MiddleSchool p) (HighSchool p) (SchoolRatings p) v
    (PropertyTax p) (HOAFees p) (ParkingSpaces p) (Garage p) (Heating p) (Cooling p)
    (Flooring p) (Appliances p) (LastRenovated p) (PriceHistory p) (NearbyComparables p)
    (WalkScore p) (TransitScore p) (DistanceToBeach p) (DistanceToDowntown p)
    (FloodZone p) (HomeInsurance p).

Definition setPropertyTax (v : string) (p : Property) : Property :=
  mkProperty (ID p) (Address p) (City p) (State p) (ZipCode p) (Price p) (Bedrooms p)
    (Bathrooms p) (SquareFeet p) (LotSize p) (PricePerSqFt p) (YearBuilt p)
    (PropertyType p) (Status p) (SoldDate p) (DaysOnMarket p) (Description p)
    (Features p) (Agent p) (Brokerage p) (PropertyCondition p) (SchoolDistrict p)
    (ElementarySchool p) (MiddleSchool p) (HighSchool p) (SchoolRatings p)
    (Neighborhood p) v (HOAFees p) (ParkingSpaces p) (Garage p) (Heating p) (Cooling p)
    (Flooring p) (Appliances p) (LastRenovated p) (PriceHistory p) (NearbyComparables p)
    (WalkScore p) (TransitScore p) (DistanceToBeach p) (DistanceToDowntown p)
    (FloodZone p) (HomeInsurance p).

Definition setHOAFees (v : string) (p : Property) : Property :=
  mkProperty (ID p) (Address p) (City p) (State p) (ZipCode p) (Price p) (Bedrooms p)
    (Bathrooms p) (SquareFeet p) (LotSize p) (PricePerSqFt p) (YearBuilt p)
    (PropertyType p) (Status p) (SoldDate p) (DaysOnMarket p) (Description p)
    (Features p) (Agent p) (Brokerage p) (PropertyCondition p) (SchoolDistrict p)
    (ElementarySchool p) (MiddleSchool p) (HighSchool p) (SchoolRatings p)
    (Neighborhood p) (PropertyTax p) v (ParkingSpaces p) (Garage p) (Heating p)
    (Cooling p) (Flooring p) (Appliances p) (LastRenovated p) (PriceHistory p)
    (NearbyComparables p) (WalkScore p) (TransitScore p) (DistanceToBeach p)
    (DistanceToDowntown p) (FloodZone p) (HomeInsurance p).

Definition setParkingSpaces (v : Z) (p : Property) : Property :=
  mkProperty (ID p) (Address p) (City p) (State p) (ZipCode p) (Price p) (Bedrooms p)
    (Bathrooms p) (SquareFeet p) (LotSize p) (PricePerSqFt p) (YearBuilt p)
    (PropertyType p) (Status p) (SoldDate p) (DaysOnMarket p) (Description p)
    (Features p) (Agent p) (Brokerage p) (PropertyCondition p) (SchoolDistrict p)
    (ElementarySchool p) (MiddleSchool p) (HighSchool p) (SchoolRatings p)
    (Neighborhood p) (PropertyTax p) (HOAFees p) v (Garage p) (Heating p) (Cooling p)
    (Flooring p) (Appliances p) (LastRenovated p) (PriceHistory p) (NearbyComparables p)
    (WalkScore p) (TransitScore p) (DistanceToBeach p) (DistanceToDowntown p)
    (FloodZone p) (HomeInsurance p).

Definition setGarage (v : string) (p : Property) : Property :=
  mkProperty (ID p) (Address p) (City p) (State p) (ZipCode p) (Price p) (Bedrooms p)
    (Bathrooms p) (SquareFeet p) (LotSize p) (PricePerSqFt p) (YearBuilt p)
    (PropertyType p) (Status p) (SoldDate p) (DaysOnMarket p) (Description p)
    (Features p) (Agent p) (Brokerage p) (PropertyCondition p) (SchoolDistrict p)
    (ElementarySchool p) (MiddleSchool p) (HighSchool p) (SchoolRatings p)
    (Neighborhood p) (PropertyTax p) (HOAFees p) (ParkingSpaces p) v (Heating p)
    (Cooling p) (Flooring p) (Appliances p) (LastRenovated p) (PriceHistory p)
    (NearbyComparables p) (WalkScore p) (TransitScore p) (DistanceToBeach p)
    (DistanceToDowntown p) (FloodZone p) (HomeInsurance p).

Definition setHeating (v : string) (p : Property) : Property :=
  mkProperty (ID p) (Address p) (City p) (State p) (ZipCode p) (Price p) (Bedrooms p)
    (Bathrooms p) (SquareFeet p) (LotSize p) (PricePerSqFt p) (YearBuilt p)
    (PropertyType p) (Status p) (SoldDate p) (DaysOnMarket p) (Description p)
    (Features p) (Agent p) (Brokerage p) (PropertyCondition p) (SchoolDistrict p)
    (ElementarySchool p) (MiddleSchool p) (HighSchool p) (SchoolRatings p)
    (Neighborhood p) (PropertyTax p) (HOAFees p) (ParkingSpaces p) (Garage p) v
    (Cooling p) (Flooring p) (Appliances p) (LastRenovated p) (PriceHistory p)
    (NearbyComparables p) (WalkScore p) (TransitScore p) (DistanceToBeach p)
    (DistanceToDowntown p) (FloodZone p) (HomeInsurance p).

Definition setCooling (v : string) (p : Property) : Property :=
  mkProperty (ID p) (Address p) (City p) (State p) (ZipCode p) (Price p) (Bedrooms p)
    (Bathrooms p) (SquareFeet p) (LotSize p) (PricePerSqFt p) (YearBuilt p)
    (PropertyType p) (Status p) (SoldDate p) (DaysOnMarket p) (Description p)
    (Features p) (Agent p) (Brokerage p) (PropertyCondition p) (SchoolDistrict p)
    (ElementarySchool p) (MiddleSchool p) (HighSchool p) (SchoolRatings p)
    (Neighborhood p) (PropertyTax p) (HOAFees p) (ParkingSpaces p) (Garage p)
    (Heating p) v (Flooring p) (Appliances p) (LastRenovated p) (PriceHistory p)
    (NearbyComparables p) (WalkScore p) (TransitScore p) (DistanceToBeach p)
    (DistanceToDowntown p) (FloodZone p) (HomeInsurance p).

Definition setFlooring (v : list string) (p : Property) : Property :=
  mkProperty (ID p) (Address p) (City p) (State p) (ZipCode p) (Price p) (Bedrooms p)
    (Bathrooms p) (SquareFeet p) (LotSize p) (PricePerSqFt p) (YearBuilt p)
    (PropertyType p) (Status p) (SoldDate p) (DaysOnMarket p) (Description p)
    (Features p) (Agent p) (Brokerage p) (PropertyCondition p) (SchoolDistrict p)
    (ElementarySchool p) (MiddleSchool p) (HighSchool p) (SchoolRatings p)
    (Neighborhood p) (PropertyTax p) (HOAFees p) (ParkingSpaces p) (Garage p)
    (Heating p) (Cooling p) v (Appliances p) (LastRenovated p) (PriceHistory p)
    (NearbyComparables p) (WalkScore p) (TransitScore p) (DistanceToBeach p)
    (DistanceToDowntown p) (FloodZone p) (HomeInsurance p).

Definition setAppliances (v : list string) (p : Property) : Property :=
  mkProperty (ID p) (Address p) (City p) (State p) (ZipCode p) (Price p) (Bedrooms p)
    (Bathrooms p) (SquareFeet p) (LotSize p) (PricePerSqFt p) (YearBuilt p)
    (PropertyType p) (Status p) (SoldDate p) (DaysOnMarket p) (Description p)
    (Features p) (Agent p) (Brokerage p) (PropertyCondition p) (SchoolDistrict p)
    (ElementarySchool p) (MiddleSchool p) (HighSchool p) (SchoolRatings p)
    (Neighborhood p) (PropertyTax p) (HOAFees p) (ParkingSpaces p) (Garage p)
    (Heating p) (Cooling p) (Flooring p) v (LastRenovated p) (PriceHistory p)
    (NearbyComparables p) (WalkScore p) (TransitScore p) (DistanceToBeach p)
    (DistanceToDowntown p) (FloodZone p) (HomeInsurance p).

Record MarketStats : Type := mkMarketStats {
  Area : string;
  MedianSalePrice : Z;
  MedianSingleFamilyPrice : Z;
  MedianTownhousePrice : Z;
  AveragePricePerSqFt : Z;
  HomesForSale : Z;
  SalesLast12Months : Z;
  AverageDaysOnMarket : Z;
  MonthsOfSupply : float64;
  YearOverYearChange : float64;
  Timestamp : string
}.

Definition statMedianSalePrice (v : Z) (s : MarketStats) : MarketStats :=
  mkMarketStats (Area s) v (MedianSingleFamilyPrice s) (MedianTownhousePrice s)
    (AveragePricePerSqFt s) (HomesForSale s) (SalesLast12Months s)
    (AverageDaysOnMarket s) (MonthsOfSupply s) (YearOverYearChange s) (Timestamp s).

Definition statMedianSingleFamilyPrice (v : Z) (s : MarketStats) : MarketStats :=
  mkMarketStats (Area s) (MedianSalePrice s) v (MedianTownhousePrice s)
    (AveragePricePerSqFt s) (HomesForSale s) (SalesLast12Months s)
    (AverageDaysOnMarket s) (MonthsOfSupply s) (YearOverYearChange s) (Timestamp s).

Definition statMedianTownhousePrice (v : Z) (s : MarketStats) : MarketStats :=
  mkMarketStats (Area s) (MedianSalePrice s) (MedianSingleFamilyPrice s) v
    (AveragePricePerSqFt s) (HomesForSale s) (SalesLast12Months s)
    (AverageDaysOnMarket s) (MonthsOfSupply s) (YearOverYearChange s) (Timestamp s).

Definition statAveragePricePerSqFt (v : Z) (s : MarketStats) : MarketStats :=
  mkMarketStats (Area s) (MedianSalePrice s) (MedianSingleFamilyPrice s)
    (MedianTownhousePrice s) v (HomesForSale s) (SalesLast12Months s)
    (AverageDaysOnMarket s) (MonthsOfSupply s) (YearOverYearChange s) (Timestamp s).

Definition statHomesForSale (v : Z) (s : MarketStats) : MarketStats :=
  mkMarketStats (Area s) (MedianSalePrice s) (MedianSingleFamilyPrice s)
    (MedianTownhousePrice s) (AveragePricePerSqFt s) v (SalesLast12Months s)
    (AverageDaysOnMarket s) (MonthsOfSupply s) (YearOverYearChange s) (Timestamp s).

Definition statSalesLast12Months (v : Z) (s : MarketStats) : MarketStats :=
  mkMarketStats (Area s) (MedianSalePrice s) (MedianSingleFamilyPrice s)
    (MedianTownhousePrice s) (AveragePricePerSqFt s) (HomesForSale s) v
    (AverageDaysOnMarket s) (MonthsOfSupply s) (YearOverYearChange s) (Timestamp s).

Definition statAverageDaysOnMarket (v : Z) (s : MarketStats) : MarketStats :=
  mkMarketStats (Area s) (MedianSalePrice s) (MedianSingleFamilyPrice s)
    (MedianTownhousePrice s) (AveragePricePerSqFt s) (HomesForSale s)
    (SalesLast12Months s) v (MonthsOfSupply s) (YearOverYearChange s) (Timestamp s).

Definition statYearOverYearChange (v : float64) (s : MarketStats) : MarketStats :=
  mkMarketStats (Area s) (MedianSalePrice s) (MedianSingleFamilyPrice s)
    (MedianTownhousePrice s) (AveragePricePerSqFt s) (HomesForSale s)
    (SalesLast12Months s) (AverageDaysOnMarket s) (MonthsOfSupply s) v (Timestamp s).

(** ** The environment: [net/http], [goquery], the clock, map iteration *)

Definition error : Type := string.

Module goquery.

(** What the scraper reads off a parsed document. *)
Record Document : Type := mkDocument {
  Text : string;                          (* doc.Text() *)
  housingTrends : list (string * string);
    (* per [tr] under [.housing-trends]: the texts of [td:first-child]
       and [td:last-child] *)
  metaDescription : list (option string);
    (* per [meta[name='description']]: its [content] attribute *)
  listItems : list string;                (* li, .feature, .amenity *)
  remarks : list string;
    (* .remarks, .property-description, .listing-description, .public-remarks *)
  featureItems : list string;
    (* .amenity-group li, .feature-list li, .amenities li, .features li *)
  agentBlocks : list string               (* .agent-name, .listing-agent, .brokerage-name *)
}.

(** A response body: reading it fails, or it parses to a document
    (HTML parsing itself accepts every input). *)
Inductive Reader : Type :=
| Broken (err : error)
| Html (doc : Document).

Definition NewDocumentFromReader (r : Reader) : option Document * option error :=
  match r with
  | Broken err => (None, Some err)
  | Html doc => (Some doc, None)
  end.

End goquery.

Module http.

Record Request : Type := mkRequest {
  Method : string;
  URL : string;
  Header : list (string * string)
}.

Record Response : Type := mkResponse {
  StatusCode : Z;
  Status : string;
  Body : goquery.Reader
}.

(** The outcome of [client.Do]: a transport error or a response. *)
Inductive Outcome : Type :=
| Failed (err : error)
| Responded (resp : Response).

End http.

(** Go leaves the order of [range] over a map open: any enumeration of the
    entries. *)
Record MapOrder : Type := mkMapOrder {
  rangeOver :> gmap string Property -> list (string * Property);
  rangeOver_perm : forall m, rangeOver m ≡ₚ map_to_list m
}.

(** The scraper value [h]: its HTTP client, with the rest of the run-time
    environment its methods consult ([http.NewRequest]'s verdict on a URL,
    the order of map iteration, [time.Now()] in RFC 3339). *)
Record HomesScraper : Type := mkHomesScraper {
  newRequestError : string -> option error;
  client : http.Request -> http.Outcome;
  mapOrder : MapOrder;
  now : string
}.

(** Computations that fetch: the URLs requested so far are threaded
    through, oldest first. *)
Definition Net (A : Type) : Type := list string -> A * list string.

Definition ret {A : Type} (a : A) : Net A := fun tr => (a, tr).

Definition bind {A B : Type} (m : Net A) (f : A -> Net B) : Net B :=
  fun tr => let '(a, tr') := m tr in f a tr'.

#[global] Instance Net_ret : MRet Net := @ret.
#[global] Instance Net_bind : MBind Net := fun A B f m => bind m f.

(** [h.client.Do(req)] *)
Definition Do (h : HomesScraper) (req : http.Request) : Net http.Outcome :=
  fun tr => (client h req, (tr ++ [http.URL req])%list).

(** What a computation returns and requests when started afresh. *)
Definition result {A : Type} (m : Net A) : A := fst (m []).
Definition requested {A : Type} (m : Net A) : list string := snd (m []).

Definition userAgent : string :=
  "Mozilla/5.0 (Macintosh; Intel Mac OS X 10_15_7) AppleWebKit/537.36 (KHTML, like Gecko) Chrome/120.0.0.0 Safari/537.36".

Definition acceptHTML : string :=
  "text/html,application/xhtml+xml,application/xml;q=0.9,image/webp,*/*;q=0.8".

(** [http.NewRequest("GET", url, nil)] followed by the two [Header.Set]
    calls every homes.com fetch makes. *)
Definition simpleRequest (url : string) : http.Request :=
  http.mkRequest "GET" url [("User-Agent", userAgent); ("Accept", acceptHTML)].

Definition redfinRequest (url : string) : http.Request :=
  http.mkRequest "GET" url
    [("User-Agent", userAgent); ("Accept", acceptHTML);
     ("Accept-Language", "en-US,en;q=0.9"); ("Accept-Encoding", "gzip, deflate, br")].

(** [fmt.Errorf("HTTP %d: %s", resp.StatusCode, resp.Status)] *)
Definition httpError (resp : http.Response) : error :=
  "HTTP " +:+ pretty (http.StatusCode resp) +:+ ": " +:+ http.Status resp.

Section Scraper.
Context {tables : unicode.Tables}.

(** ** Field parsers and the identifier (homes.go, lines 535-594) *)

(** [if m := re.FindStringSubmatch(text); len(m) > 1 { ... m[1] ... }] *)
Definition onSubmatch {A : Type} (re : regex) (text : string)
    (f : string -> A -> A) (a : A) : A :=
  match FindStringSubmatch re text with
  | _ :: g :: _ => f g a
  | _ => a
  end.

Definition parsePrice (s : string) : Z :=
  let re := many1 cDigitComma in                       (* [0-9,]+ *)
  let match_ := FindString re s in
  if bool_decide (match_ = "") then 0
  else
    let cleaned := filterBytes (fun c => negb (Ascii.eqb c ",")) match_ in
    Atoi cleaned.

Definition parseInt (s : string) : Z :=
  let re := many1 cDigit in                            (* [0-9]+ *)
  let match_ := FindString re s in
  if bool_decide (match_ = "") then 0 else Atoi match_.

Definition parseFloat (s : string) : float64 :=
  let re := cat [many1 cDigit; Opt (byte "."); many cDigit] in    (* [0-9]+\.?[0-9]* *)
  let match_ := FindString re s in
  if bool_decide (match_ = "") then FZero else FParse match_.

Definition parsePercent (s : string) : float64 :=
  let re := cat [Opt (byte "-"); many1 cDigit; Opt (byte "."); many cDigit] in
                                                       (* -?[0-9]+\.?[0-9]* *)
  let match_ := FindString re s in
  if bool_decide (match_ = "") then FZero else FParse match_.

Definition generatePropertyID (address city : string) : string :=
  let combined := ToLower (address +:+ city) in
  let cleaned := ReplaceAllString (many1 (cNot cLowerDigit)) combined "" in   (* [^a-z0-9]+ *)
  let cleaned := if 25 <? len cleaned then slice cleaned 0 25 else cleaned in
  let cleaned := if bool_decide (cleaned = "") then "unknown" else cleaned in
  "prop_" +:+ cleaned.

(** ** The text-proximity extractor: [scrapePage] (homes.go, lines 329-466) *)

(** [if property.Price > 0 && property.SquareFeet > 0 { property.PricePerSqFt = ... }] *)
Definition pricePerSqFtStep (property : Property) : Property :=
  if (0 <? Price property) && (0 <? SquareFeet property)
  then setPricePerSqFt (Price property / SquareFeet property) property
  else property.

(** Lines 381-392: the fresh record and the split of the anchor on commas. *)
Definition anchorRecord (address : string) : Property :=
  let property := setStatus "sold" zeroProperty in
  let parts := Split address "," in
  if (3 <=? length parts)%nat
  then setZipCode "96822" (setState "HI" (setCity "Honolulu"
         (setAddress (TrimSpace (hd "" parts)) property)))
  else property.

(** Lines 400-409: the window of 500 bytes before and 1000 bytes after the
    anchor's offset, clamped to the text. *)
Definition window (pageText : string) (addressIndex : Z) : string :=
  let start := if addressIndex - 500 <? 0 then 0 else addressIndex - 500 in
  let end_ :=
    if len pageText <? addressIndex + 1000 then len pageText
    else addressIndex + 1000 in
  slice pageText start end_.

(** Lines 411-444: one pattern per field, each on its own. *)
Definition windowFields (chunk : string) (property : Property) : Property :=
  let property :=
    onSubmatch pagePatterns.priceRegex chunk (fun g => setPrice (parsePrice g)) property in
  let property :=
    onSubmatch pagePatterns.sqftRegex chunk (fun g => setSquareFeet (parseInt g)) property in
  let property :=
    onSubmatch pagePatterns.bedroomRegex chunk (fun g => setBedrooms (parseInt g)) property in
  let property :=
    onSubmatch pagePatterns.bathroomRegex chunk (fun g => setBathrooms (parseFloat g)) property in
  let property :=
    onSubmatch pagePatterns.soldRegex chunk (fun g => setSoldDate g) property in
  let property :=
    onSubmatch pagePatterns.daysRegex chunk (fun g => setDaysOnMarket (parseInt g)) property in
  onSubmatch pagePatterns.yearRegex chunk (fun g => setYearBuilt (parseInt g)) property.

(** Lines 446-457: price per area, category, identifier. *)
Definition derivedFields (property : Property) : Property :=
  let property := pricePerSqFtStep property in
  let property := setPropertyType "house" property in
  if bool_decide (Address property <> "")
  then setID (generatePropertyID (Address property) (City property)) property
  else property.

(** The body of the loop over the address anchors: the record built for one
    anchor, [None] where the source [continue]s or does not append. *)
Definition listingAt (pageText address : string) : option Property :=
  if bool_decide (address = "") then None
  else
    let property := anchorRecord address in
    let addressIndex := Index pageText address in
    if addressIndex =? -1 then None
    else
      let chunk := window pageText addressIndex in
      let property := derivedFields (windowFields chunk property) in
      if bool_decide (Address property <> "") && (0 <? Price property)
      then Some property
      else None.

(** The records of one page text, in the order of their anchors. *)
Definition pageListings (pageText : string) : list Property :=
  omap (listingAt pageText) (FindAllString pagePatterns.addressRegex pageText).

Definition scrapePage (h : HomesScraper) (url : string)
    : Net (list Property * option error) :=
  match newRequestError h url with
  | Some err => mret ([], Some err)
  | None =>
      out ← Do h (simpleRequest url);
      match out with
      | http.Failed err => mret ([], Some err)
      | http.Responded resp =>
          if negb (http.StatusCode resp =? 200) then mret ([], Some (httpError resp))
          else
            match goquery.NewDocumentFromReader (http.Body resp) with
            | (Some doc, None) => mret (pageListings (goquery.Text doc), None)
            | (_, Some err) => mret ([], Some err)
            | (None, None) => mret ([], None)
            end
      end
  end.

(** ** Pagination and deduplication: [ScrapeNeighborhood] (lines 111-161) *)

Definition neighborhoodURL (city state neighborhood status : string) (page : Z) : string :=
  let cityState := ToLower city +:+ "-" +:+ ToLower state in
  let neighborhoodSlug := ToLower (ReplaceAll neighborhood " " "-") in
  if page =? 1
  then "https://www.homes.com/" +:+ cityState +:+ "/" +:+ neighborhoodSlug
         +:+ "-neighborhood/" +:+ status +:+ "/"
  else "https://www.homes.com/" +:+ cityState +:+ "/" +:+ neighborhoodSlug
         +:+ "-neighborhood/" +:+ status +:+ "/p" +:+ pretty page +:+ "/".

(** [for _, prop := range pageProperties { if prop.ID != "" { propertyMap[prop.ID] = prop } }] *)
Definition addToMap (propertyMap : gmap string Property) (pageProperties : list Property)
    : gmap string Property :=
  foldl (fun m prop => if bool_decide (ID prop <> "") then <[ID prop := prop]> m else m)
        propertyMap pageProperties.

(** [fmt.Errorf("failed to scrape page %d: %v", page, err)] *)
Definition pageError (page : Z) (err : error) : error :=
  "failed to scrape page " +:+ pretty page +:+ ": " +:+ err.

(** The loop [for page := 1; page <= 3; page++], from [page] on with
    [remaining] iterations left: the map when the loop is left, or the
    error the function returns from inside it. *)
Fixpoint crawl (h : HomesScraper) (city state neighborhood status : string)
    (remaining : nat) (page : Z) (propertyMap : gmap string Property)
    : Net (gmap string Property * option error) :=
  match remaining with
  | O => mret (propertyMap, None)
  | S remaining' =>
      let url := neighborhoodURL city state neighborhood status page in
      '(pageProperties, err) ← scrapePage h url;
      match err with
      | Some e => mret (propertyMap, Some (pageError page e))
      | None =>
          let propertyMap := addToMap propertyMap pageProperties in
          if (length pageProperties <? 20)%nat then mret (propertyMap, None)
          else crawl h city state neighborhood status remaining' (page + 1) propertyMap
      end
  end.

Definition ScrapeNeighborhood (h : HomesScraper) (city state neighborhood status : string)
    : Net (list Property * option error) :=
  '(propertyMap, err) ← crawl h city state neighborhood status 3 1 ∅;
  match err with
  | Some e => mret ([], Some e)
  | None => mret (snd <$> mapOrder h propertyMap, None)
  end.

Definition ScrapeManoa (h : HomesScraper) (status : string)
    : Net (list Property * option error) :=
  ScrapeNeighborhood h "Honolulu" "HI" "manoa" status.

(** ** The statistics extractor (homes.go, lines 163-327) *)

(** The [switch] on a table row's label: the first matching case runs. *)
Definition statsRow (stats : MarketStats) (row : string * string) : MarketStats :=
  let label := TrimSpace (fst row) in
  let value := TrimSpace (snd row) in
  if Contains label "Median Sale Price"
  then statMedianSalePrice (parsePrice value) stats
  else if Contains label "Median Single Family Sale Price"
  then statMedianSingleFamilyPrice (parsePrice value) stats
  else if Contains label "Median Townhouse Sale Price"
  then statMedianTownhousePrice (parsePrice value) stats
  else if Contains label "Average Price Per Sq Ft"
  then statAveragePricePerSqFt (parsePrice value) stats
  else if Contains label "Number of Homes for Sale"
  then statHomesForSale (parseInt value) stats
  else if Contains label "Last 12 months Home Sales"
  then statSalesLast12Months (parseInt value) stats
  else if Contains label "YoY Change"
  then statYearOverYearChange (parsePercent value) stats
  else stats.

(** [doc.Find(".housing-trends").Each(... s.Find("tr").Each(...))] *)
Definition statsFromTable (doc : goquery.Document) (stats : MarketStats) : MarketStats :=
  foldl statsRow stats (goquery.housingTrends doc).

(** The six [if match := ...; len(match) > 1] statements of the fallback,
    in source order; [homesRegex] is the one pattern in which the two
    extractors differ. *)
Definition statsFromText (homesRegex : regex) (text : string) (stats : MarketStats)
    : MarketStats :=
  let stats :=
    onSubmatch statsPatterns.medianRegex text
      (fun g => statMedianSalePrice (parsePrice g)) stats in
  let stats :=
    onSubmatch statsPatterns.averageRegex text
      (fun g => statAveragePricePerSqFt (parsePrice g)) stats in
  let stats :=
    onSubmatch statsPatterns.daysRegex text
      (fun g => statAverageDaysOnMarket (parseInt g)) stats in
  let stats :=
    onSubmatch statsPatterns.downRegex text
      (fun g => statYearOverYearChange (FNeg (parsePercent (g +:+ "%")))) stats in
  let stats :=
    onSubmatch homesRegex text (fun g => statHomesForSale (parseInt g)) stats in
  let stats :=
    onSubmatch statsPatterns.salesRegex text
      (fun g => statSalesLast12Months (parseInt g)) stats in
  stats.

(** [&MarketStats{Area: area, Timestamp: timestamp}] *)
Definition blankStats (area timestamp : string) : MarketStats :=
  mkMarketStats area 0 0 0 0 0 0 0 FZero FZero timestamp.

(** From [stats := &MarketStats{...}] to [return stats, nil]. *)
Definition extractStats (homesRegex : regex) (area timestamp : string)
    (doc : goquery.Document) : MarketStats :=
  let stats := blankStats area timestamp in
  let stats := statsFromTable doc stats in
  if MedianSalePrice stats =? 0
  then statsFromText homesRegex (goquery.Text doc) stats
  else stats.

(** The fetch the two extractors share: no look at [resp.StatusCode]. *)
Definition fetchStats (h : HomesScraper) (url : string) (homesRegex : regex)
    (area : string) : Net (option MarketStats * option error) :=
  match newRequestError h url with
  | Some err => mret (None, Some err)
  | None =>
      out ← Do h (simpleRequest url);
      match out with
      | http.Failed err => mret (None, Some err)
      | http.Responded resp =>
          match goquery.NewDocumentFromReader (http.Body resp) with
          | (Some doc, None) => mret (Some (extractStats homesRegex area (now h) doc), None)
          | (_, Some err) => mret (None, Some err)
          | (None, None) => mret (None, None)
          end
      end
  end.

Definition ScrapeNeighborhoodStats (h : HomesScraper) (city state neighborhood : string)
    : Net (option MarketStats * option error) :=
  let cityState := ToLower city +:+ "-" +:+ ToLower state in
  let neighborhoodSlug := ToLower (ReplaceAll neighborhood " " "-") in
  let url := "https://www.homes.com/" +:+ cityState +:+ "/" +:+ neighborhoodSlug
               +:+ "-neighborhood/sold/" in
  fetchStats h url statsPatterns.forSaleRegex
    (neighborhood +:+ ", " +:+ city +:+ ", " +:+ state).

Definition ScrapeMarketStats (h : HomesScraper) (city state : string)
    : Net (option MarketStats * option error) :=
  let url := "https://www.homes.com/" +:+ ToLower city +:+ "-" +:+ ToLower state
               +:+ "/manoa-neighborhood/sold/" in
  fetchStats h url statsPatterns.manoaRegex (city +:+ ", " +:+ state).

(** ** The detail-page extractor (homes.go, lines 612-1076) *)

(** The texts of a selection that pass [feature != "" && len(feature) < 100],
    trimmed. *)
Definition featureTexts (texts : list string) : list string :=
  filter (fun f => f <> "" /\ len f < 100) (TrimSpace <$> texts).

(** [len(part) == 2 && strings.ToUpper(part) == part] (line 812) *)
Definition stateSegment (part : string) : bool :=
  (len part =? 2) && bool_decide (ToUpper part = part).

(** The loop over the segments of a redfin URL (lines 810-838). *)
Fixpoint redfinAddress (urlParts : list string) (property : Property) : Property :=
  match urlParts with
  | [] => property
  | part :: rest =>
      if stateSegment part then
        let property := setState part property in
        let property :=
          match rest with
          | city :: _ => setCity city property
          | [] => property
          end in
        match rest with
        | _ :: addressPart :: _ =>
            let lastDashIndex := LastIndex addressPart "-" in
            if 0 <? lastDashIndex then
              let address := slice addressPart 0 lastDashIndex in
              let zipCode := slice addressPart (lastDashIndex + 1) (len addressPart) in
              let addressComponents := Title <$> Split address "-" in
              setZipCode zipCode (setAddress (Join addressComponents " ") property)
            else property
        | _ => property
        end
      else redfinAddress rest property
  end.

(** [property.ID = generatePropertyID(property.Address, property.City)] *)
Definition assignID (property : Property) : Property :=
  setID (generatePropertyID (Address property) (City property)) property.

(** Lines 1056-1065. *)
Definition redfinPropertyType (pageText : string) : string :=
  let lowerText := ToLower pageText in
  if Contains lowerText "condominium" || Contains lowerText "condo" then "condo"
  else if Contains lowerText "townhouse" || Contains lowerText "townhome" then "townhouse"
  else if Contains lowerText "apartment" then "apartment"
  else "house".

(** Lines 965-973: the parking pattern has two groups, one per alternative. *)
Definition parkingStep (pageText : string) (property : Property) : Property :=
  match FindStringSubmatch redfinPatterns.parkingRegex pageText with
  | _ :: g1 :: rest =>
      if bool_decide (g1 <> "")
      then setGarage (g1 +:+ " car garage") (setParkingSpaces (parseInt g1) property)
      else match rest with
           | g2 :: _ =>
               if bool_decide (g2 <> "") then setParkingSpaces (parseInt g2) property
               else property
           | [] => property
           end
  | _ => property
  end.

(** Lines 1022-1036: the fields fed from the feature list. *)
Definition featureStep (property : Property) (feature : string) : Property :=
  let lower := ToLower feature in
  let property :=
    if Contains lower "heating" then setHeating feature property else property in
  let property :=
    if Contains lower "cooling" || Contains lower "air"
    then setCooling feature property else property in
  let property :=
    if Contains lower "floor"
    then setFlooring (Flooring property ++ [feature])%list property else property in
  if Contains lower "appliance"
  then setAppliances (Appliances property ++ [feature])%list property else property.

(** The success path of [scrapeRedfinProperty], lines 875-1068: from the
    page text to the identifier. *)
Definition redfinFields (doc : goquery.Document) (property : Property) : Property :=
  let pageText := goquery.Text doc in
  let property :=
    onSubmatch redfinPatterns.priceRegex pageText (fun g => setPrice (parsePrice g)) property in
  let property :=
    onSubmatch redfinPatterns.sqftRegex pageText (fun g => setSquareFeet (parseInt g)) property in
  let property :=
    onSubmatch detailPatterns.bedroomRegex pageText (fun g => setBedrooms (parseInt g)) property in
  let property :=
    onSubmatch detailPatterns.bathroomRegex pageText
      (fun g => setBathrooms (parseFloat g)) property in
  let property :=
    onSubmatch detailPatterns.yearRegex pageText (fun g => setYearBuilt (parseInt g)) property in
  let property :=
    onSubmatch pagePatterns.soldRegex pageText (fun g => setSoldDate g) property in
  let property :=
    onSubmatch redfinPatterns.lotSizeRegex pageText
      (fun g => setLotSize (parseFloat g)) property in
  let property :=
    onSubmatch redfinPatterns.daysOnMarketRegex pageText
      (fun g => setDaysOnMarket (parseInt g)) property in
  let property :=
    onSubmatch redfinPatterns.schoolDistrictRegex pageText
      (fun g => setSchoolDistrict (TrimSpace g)) property in
  let property :=
    onSubmatch redfinPatterns.elementaryRegex pageText
      (fun g => setElementarySchool (TrimSpace g)) property in
  let property :=
    onSubmatch redfinPatterns.middleRegex pageText
      (fun g => setMiddleSchool (TrimSpace g)) property in
  let property :=
    onSubmatch redfinPatterns.highRegex pageText
      (fun g => setHighSchool (TrimSpace g)) property in
  let property :=
    onSubmatch redfinPatterns.conditionRegex pageText
      (fun g => setPropertyCondition (TrimSpace g)) property in
  let property :=
    onSubmatch redfinPatterns.propertyTaxRegex pageText
      (fun g => setPropertyTax ("$" +:+ g)) property in
  let property :=
    onSubmatch redfinPatterns.hoaRegex pageText (fun g => setHOAFees ("$" +:+ g)) property in
  let property := parkingStep pageText property in
  let property :=
    foldl (fun p text =>
             let desc := TrimSpace text in
             if bool_decide (desc <> "") && (len (Description p) <? len desc)
             then setDescription desc p else p)
          property (goquery.remarks doc) in
  let property :=
    if bool_decide (Description property = "")
    then onSubmatch redfinPatterns.descRegex pageText
           (fun g => setDescription (TrimSpace g)) property
    else property in
  let features := featureTexts (goquery.featureItems doc) in
  let features :=
    foldl (fun fs re => onSubmatch re pageText (fun g fs' => (fs' ++ [TrimSpace g])%list) fs)
          features redfinPatterns.featurePatterns in
  let property := foldl featureStep property features in
  let property := setFeatures features property in
  let property :=
    if bool_decide (City property = "Honolulu") && bool_decide (ZipCode property = "96822")
    then setNeighborhood "Manoa" property else property in
  let property :=
    foldl (fun p block =>
             let text := TrimSpace block in
             let p :=
               if Contains (ToLower text) "agent" && bool_decide (Agent p = "")
               then setAgent text p else p in
             if Contains (ToLower text) "broker" && bool_decide (Brokerage p = "")
             then setBrokerage text p else p)
          property (goquery.agentBlocks doc) in
  let property := setPropertyType (redfinPropertyType pageText) property in
  assignID property.

(** Lines 875-1075. *)
Definition redfinDetails (doc : goquery.Document) (property : Property) : Property :=
  pricePerSqFtStep (redfinFields doc property).

Definition scrapeRedfinProperty (h : HomesScraper) (url : string)
    : Net (option Property * option error) :=
  let property := setStatus "sold" zeroProperty in
  let urlParts := Split url "/" in
  let property := redfinAddress urlParts property in
  match newRequestError h url with
  | Some _ => mret (Some (assignID property), None)
  | None =>
      out ← Do h (redfinRequest url);
      match out with
      | http.Failed _ => mret (Some (assignID property), None)
      | http.Responded resp =>
          if negb (http.StatusCode resp =? 200) then mret (Some (assignID property), None)
          else
            match goquery.NewDocumentFromReader (http.Body resp) with
            | (Some doc, None) => mret (Some (redfinDetails doc property), None)
            | _ => mret (Some (assignID property), None)
            end
      end
  end.

(** The loop over the words of a homes.com address slug (lines 638-654):
    at the first two-byte word, the state, the city before it and the
    address words before that; [before] holds the words passed so far. *)
Fixpoint slugScan (before addressParts : list string)
    : list string * string * string :=
  match addressParts with
  | [] => ([], "", "")
  | part :: rest =>
      if len part =? 2 then
        let state := ToUpper part in
        let city := match last before with Some c => Title c | None => "" end in
        let addressComponents :=
          Title <$> filter (fun w => w <> "") (take (length before - 1) before) in
        (addressComponents, city, state)
      else slugScan (before ++ [part])%list rest
  end.

(** Lines 627-666. *)
Definition slugAddress (url : string) (property : Property) : Property :=
  let urlParts := Split url "/" in
  if (5 <=? length urlParts)%nat then
    let addressSlug := nth 4 urlParts "" in
    let addressParts := Split addressSlug "-" in
    if (3 <=? length addressParts)%nat then
      let '(addressComponents, city, state) := slugScan [] addressParts in
      let property :=
        if (0 <? length addressComponents)%nat
        then setAddress (Join addressComponents " ") property else property in
      let property :=
        if bool_decide (city <> "") then setCity city property else property in
      if bool_decide (state <> "") then setState state property else property
    else property
  else property.

(** Lines 774-780. *)
Definition detailPropertyType (pageText : string) : string :=
  let lowerText := ToLower pageText in
  if Contains lowerText "condo" || Contains lowerText "condominium" then "condo"
  else if Contains lowerText "townhouse" || Contains lowerText "townhome" then "townhouse"
  else "house".

(** The success path of the homes.com branch: lines 716-790, up to the
    default postal code. *)
Definition homesFields (doc : goquery.Document) (property : Property) : Property :=
  let pageText := goquery.Text doc in
  let property :=
    onSubmatch pagePatterns.priceRegex pageText (fun g => setPrice (parsePrice g)) property in
  let property :=
    onSubmatch detailPatterns.sqftRegex pageText (fun g => setSquareFeet (parseInt g)) property in
  let property :=
    onSubmatch detailPatterns.bedroomRegex pageText (fun g => setBedrooms (parseInt g)) property in
  let property :=
    onSubmatch detailPatterns.bathroomRegex pageText
      (fun g => setBathrooms (parseFloat g)) property in
  let property :=
    onSubmatch detailPatterns.yearRegex pageText (fun g => setYearBuilt (parseInt g)) property in
  let property :=
    onSubmatch pagePatterns.soldRegex pageText (fun g => setSoldDate g) property in
  let property :=
    foldl (fun p attr => match attr with Some content => setDescription content p | None => p end)
          property (goquery.metaDescription doc) in
  let property := setFeatures (featureTexts (goquery.listItems doc)) property in
  let property := setPropertyType (detailPropertyType pageText) property in
  let property :=
    if bool_decide (Address property <> "") then assignID property else property in
  if bool_decide (City property = "Honolulu") && bool_decide (State property = "HI")
  then setZipCode "96822" property else property.

(** Lines 716-797. *)
Definition homesDetails (doc : goquery.Document) (property : Property) : Property :=
  pricePerSqFtStep (homesFields doc property).

Definition ScrapePropertyDetail (h : HomesScraper) (url : string)
    : Net (option Property * option error) :=
  if Contains url "redfin.com" then scrapeRedfinProperty h url
  else
    let property := slugAddress url (setStatus "sold" zeroProperty) in
    cached ←
      (if bool_decide (ToLower (City property) = "honolulu")
          && bool_decide (ToLower (State property) = "hi")
       then
         '(soldProperties, err) ← ScrapeManoa h "sold";
         match err with
         | None =>
             mret (find (fun soldProp =>
                           Contains (ToLower (Address soldProp)) (ToLower (Address property)))
                        soldProperties)
         | Some _ => mret None
         end
       else mret None);
    match cached with
    | Some soldProp => mret (Some soldProp, None)
    | None =>
        match newRequestError h url with
        | Some err => mret (None, Some err)
        | None =>
            out ← Do h (simpleRequest url);
            match out with
            | http.Failed _ => mret (Some (assignID property), None)
            | http.Responded resp =>
                if negb (http.StatusCode resp =? 200)
                then mret (Some (assignID property), None)
                else
                  match goquery.NewDocumentFromReader (http.Body resp) with
                  | (Some doc, None) => mret (Some (homesDetails doc property), None)
                  | (_, Some err) => mret (None, Some err)
                  | (None, None) => mret (None, None)
                  end
            end
        end
    end.

(** ** The notions the specification states its properties with *)

(** The identifier in the specification's words: lower-case the
    concatenation, keep the lowercase letters and digits, cut at 25 bytes;
    the sentinel when nothing is left; the constant tag in front. *)
Definition cleanedText (address city : string) : string :=
  takeBytes 25 (filterBytes (onByte cLowerDigit) (ToLower (address +:+ city))).

Definition sentinel : string := "unknown".

Definition identifierSpec (address city : string) : string :=
  "prop_" +:+
  (if bool_decide (cleanedText address city = "") then sentinel
   else cleanedText address city).

(** The admission rule. *)
Definition admitted (p : Property) : Prop := Address p <> "" /\ 0 < Price p.

(** The location and status every admitted record of a search page carries. *)
Definition manoaSold (p : Property) : Prop :=
  Status p = "sold" /\ City p = "Honolulu" /\ State p = "HI" /\ ZipCode p = "96822".

(** Price per area: the quotient when both are positive, unset otherwise. *)
Definition pricePerAreaRule (p : Property) : Prop :=
  PricePerSqFt p =
  if (0 <? Price p) && (0 <? SquareFeet p) then Price p / SquareFeet p else 0.

(** What one page yields: the outcome of [scrapePage] on its URL. *)
Definition pageYield (h : HomesScraper) (city state neighborhood status : string)
    (page : Z) : list Property * option error :=
  result (scrapePage h (neighborhoodURL city state neighborhood status page)).

(** [n] consecutive page numbers from [first] on. *)
Fixpoint pageNumbers (first : Z) (n : nat) : list Z :=
  match n with
  | O => []
  | S n' => first :: pageNumbers (first + 1) n'
  end.

(** The pages a crawl merges, in page order: page [page] and, as long as a
    page yields 20 records or more and pages remain, the next one. *)
Fixpoint pagesMerged (h : HomesScraper) (city state neighborhood status : string)
    (remaining : nat) (page : Z) : list (list Property) :=
  match remaining with
  | O => []
  | S remaining' =>
      let yielded := fst (pageYield h city state neighborhood status page) in
      yielded ::
      (if (length yielded <? 20)%nat then []
       else pagesMerged h city state neighborhood status remaining' (page + 1))
  end.

(** The version of identifier [id] that comes last in a sequence of records. *)
Definition lastVersion (id : string) (records : list Property) : option Property :=
  last (filter (fun p => ID p = id) records).

(** The ways the fetch of a search page fails, with the error [scrapePage]
    reports: the request cannot be built, a transport error, a status other
    than 200, an unreadable body. *)
Inductive fetchFailure (h : HomesScraper) (url : string) : error -> Prop :=
| badRequest (err : error) :
    newRequestError h url = Some err ->
    fetchFailure h url err
| transportFailure (err : error) :
    newRequestError h url = None ->
    client h (simpleRequest url) = http.Failed err ->
    fetchFailure h url err
| unexpectedStatus (resp : http.Response) :
    newRequestError h url = None ->
    client h (simpleRequest url) = http.Responded resp ->
    http.StatusCode resp <> 200 ->
    fetchFailure h url (httpError resp)
| parseFailure (resp : http.Response) (err : error) :
    newRequestError h url = None ->
    client h (simpleRequest url) = http.Responded resp ->
    http.StatusCode resp = 200 ->
    http.Body resp = goquery.Broken err ->
    fetchFailure h url err.

(** ["down X%"] occurs in [text] at offset [i], for a decimal number [X]. *)
Definition decimal (X : string) : Prop := X <> "" /\ allBytes isDigit X = true.

Definition downAt (text : string) (i : nat) (X : string) : Prop :=
  exists pre post,
    text = pre +:+ "down " +:+ X +:+ "%" +:+ post /\ String.length pre = i /\ decimal X.

(** The first such occurrence in the page. *)
Definition firstDown (text : string) (X : string) : Prop :=
  exists i, downAt text i X /\ forall j X', downAt text j X' -> (i <= j)%nat.

End Scraper.

(** ** Notions for the properties beyond the specification *)

(** The first byte of [s] is in the class. *)
Definition startsIn (p : utf8.rune -> bool) (s : string) : bool :=
  match s with String a _ => onByte p a | EmptyString => false end.

(** The value of a run of decimal digits as [strconv.Atoi] returns it: cut
    at the largest [int]. *)
Definition decimalValue (D : string) : Z := Z.min maxInt64 (digitsValue 0 D).

(** The fields the detail extractors fill from the URL alone. *)
Definition urlFields (p : Property) : string * string * string * string * string :=
  (Status p, Address p, City p, State p, ZipCode p).

(** The fields no step of the listing search assigns. *)
Definition listingBlanks (p : Property) : Prop :=
  LotSize p = FZero /\ Description p = "" /\ Features p = [] /\ Agent p = ""
  /\ Brokerage p = "" /\ Neighborhood p = "" /\ ParkingSpaces p = 0.


(** ** Sample environments *)

(** One admissible order: the one in which [map_to_list] lists the entries. *)
Definition listedOrder : MapOrder :=
  mkMapOrder map_to_list (fun m => Permutation_refl (map_to_list m)).

Definition textDoc (text : string) : goquery.Document :=
  goquery.mkDocument text [] [] [] [] [] [].

Fixpoint copies (n : nat) (s : string) : string :=
  match n with
  | O => ""
  | S n' => s +:+ copies n' s
  end.

Definition ok (doc : goquery.Document) : http.Outcome :=
  http.Responded (http.mkResponse 200 "200 OK" (goquery.Html doc)).

Definition forbidden : http.Outcome :=
  http.Responded (http.mkResponse 403 "403 Forbidden" (goquery.Html (textDoc "Access denied"))).

Definition manoaPage (page : Z) : string :=
  neighborhoodURL (tables := unicode.sample) "Honolulu" "HI" "manoa" "sold" page.

(** A site with three result pages of 20, 20 and 5 listings.  The listing
    of page 1 comes back on page 3 at another price. *)
Definition threePages : HomesScraper :=
  mkHomesScraper (fun _ => None)
    (fun req =>
       if bool_decide (http.URL req = manoaPage 1)
       then ok (textDoc (copies 20 "1 A St, Honolulu, HI 96822 $5 "))
       else if bool_decide (http.URL req = manoaPage 2)
       then ok (textDoc (copies 20 "2 B Ave, Honolulu, HI 96822 $7 "))
       else if bool_decide (http.URL req = manoaPage 3)
       then ok (textDoc ("1 A St, Honolulu, HI 96822 $6 "
                         +:+ copies 4 "3 C Rd, Honolulu, HI 96822 $8 "))
       else forbidden)
    listedOrder "2024-01-01T00:00:00Z".

(** A site whose second page is refused. *)
Definition secondPageBlocked : HomesScraper :=
  mkHomesScraper (fun _ => None)
    (fun req =>
       if bool_decide (http.URL req = manoaPage 1)
       then ok (textDoc (copies 20 "1 A St, Honolulu, HI 96822 $5 "))
       else forbidden)
    listedOrder "2024-01-01T00:00:00Z".

(** A site that refuses every request with 403 and an HTML error page. *)
Definition blocked : HomesScraper :=
  mkHomesScraper (fun _ => None) (fun _ => forbidden) listedOrder "2024-01-01T00:00:00Z".

Definition poeluaURL : string :=
  "https://www.redfin.com/HI/Honolulu/2819-Poelua-St-96822/home/88513618".

(** A statistics page without a table whose text opens with "down 12%". *)
Definition statsPage : goquery.Document :=
  textDoc "down 12% on last year, 45 days on the market".

Definition statsSite : HomesScraper :=
  mkHomesScraper (fun _ => None) (fun _ => ok statsPage) listedOrder "2024-01-01T00:00:00Z".

(** The URL of the scenario with a path segment of two digits before the
    state, and with the address segment in lower case. *)
Definition digitsURL : string :=
  "https://www.redfin.com/12/HI/Honolulu/2819-Poelua-St-96822/home/88513618".

Definition lowerCaseURL : string :=
  "https://www.redfin.com/HI/Honolulu/2819-poelua-st-96822/home/88513618".

(** A statistics page without a table that gives the change with a
    fraction. *)
Definition fractionPage : goquery.Document :=
  textDoc "Prices are down 3.5% on last year".

Definition fractionSite : HomesScraper :=
  mkHomesScraper (fun _ => None) (fun _ => ok fractionPage) listedOrder "2024-01-01T00:00:00Z".

(** Texts past ASCII, byte by byte: U+212A KELVIN SIGN, U+00A0 NO-BREAK
    SPACE, U+00E9 (e with acute), U+017F (long s). *)
Definition kelvin : string := String "226" (String "132" (String "170" "")).
Definition nbsp : string := String "194" (String "160" "").
Definition eAcute : string := String "195" (String "169" "").
Definition longS : string := String "197" (String "191" "").

(** * The embedding on concrete inputs *)

Section Examples.
Context {tables : unicode.Tables}.

Example Split_redfin_url :
  Split poeluaURL "/"
  = ["https:"; ""; "www.redfin.com"; "HI"; "Honolulu"; "2819-Poelua-St-96822"; "home";
     "88513618"].
Proof. reflexivity. Qed.

Example Title_words : Title "poelua st" = "Poelua St" /\ Title "2819" = "2819".
Proof. split; reflexivity. Qed.

Example Atoi_saturates :
  Atoi "12345678901234567890" = maxInt64 /\ Atoi "" = 0 /\ Atoi "0042" = 42.
Proof. repeat split; reflexivity. Qed.

Example parsePrice_commas : parsePrice "$1,200,000 in cash" = 1200000.
Proof. reflexivity. Qed.

(** The integer parser stops at the thousands separator. *)
Example parseInt_first_run : parseInt "2,000" = 2.
Proof. reflexivity. Qed.

Example parseFloat_literal : parseFloat "2.5 Baths" = FParse "2.5".
Proof. reflexivity. Qed.

(** An empty match right after a match is dropped, as in Go. *)
Example FindAllString_empty_matches :
  FindAllString (many cDigit) "a12b" = [""; "12"; ""].
Proof. reflexivity. Qed.

Example ReplaceAllString_empty_matches :
  ReplaceAllString (many (cNot cLowerDigit)) "ab--c" "X" = "XaXbXcX".
Proof. reflexivity. Qed.

Example addressRegex_anchors :
  FindAllString pagePatterns.addressRegex
    "Homes 12 Main Street, Honolulu, HI 96822 $1,200,000 2819 Poelua St Honolulu, HI  96822"
  = ["12 Main Street, Honolulu, HI 96822"; "2819 Poelua St Honolulu, HI  96822"].
Proof. vm_compute. reflexivity. Qed.

(** An anchor with a single comma has fewer than three parts: its record
    has no address and is not appended. *)
Example pageListings_sample :
  (fun p => (Address p, Price p, Bedrooms p, SoldDate p, ID p)) <$>
    pageListings
      "12 Main Street, Honolulu, HI 96822 $1,200,000 3 Beds SOLD JAN 5, 2024 2819 Poelua St Honolulu, HI 96822"
  = [("12 Main Street", 1200000, 3, "JAN 5, 2024", "prop_12mainstreethonolulu")].
Proof. vm_compute. reflexivity. Qed.

Example generatePropertyID_samples :
  generatePropertyID "2819 Poelua St" "Honolulu" = "prop_2819poeluasthonolulu"
  /\ generatePropertyID "1234 Very Long Street Name Avenue" "Honolulu"
     = "prop_1234verylongstreetnameave"
  /\ generatePropertyID "#" "!" = "prop_unknown".
Proof. repeat split; reflexivity. Qed.

(** The listing of page 1 survives in the version of page 3; the
    listings of page 3 behind it take the first price of their window. *)
Example threePages_merged :
  (fun p => (ID p, Price p)) <$>
    fst (result (ScrapeNeighborhood threePages "Honolulu" "HI" "manoa" "sold"))
  = [("prop_3crdhonolulu", 6); ("prop_1asthonolulu", 6); ("prop_2bavehonolulu", 7)].
Proof. vm_compute. reflexivity. Qed.

Example statsRow_first_case :
  MedianSalePrice
    (statsFromTable
       (goquery.mkDocument "" [(" Median Sale Price ", " $1,050,000 ")] [] [] [] [] [])
       (blankStats "a" "t"))
  = 1050000.
Proof. reflexivity. Qed.

(** The test of line 812 holds of two digits as of two capitals. *)
Example stateSegment_samples :
  stateSegment "HI" = true /\ stateSegment "hi" = false /\ stateSegment "12" = true.
Proof. repeat split; reflexivity. Qed.

(** A byte that is no encoding is read as U+FFFD of width 1. *)
Example runes_samples :
  utf8.t_rune <$> utf8.runes (eAcute +:+ "x" +:+ String "226" (String "132" "a"))
  = [233; 120; 65533; 65533; 97]%N.
Proof. reflexivity. Qed.

(** [strings.TrimSpace] cuts the no-break space off. *)
Example TrimSpace_samples :
  TrimSpace "  12 Main St  " = "12 Main St"
  /\ TrimSpace (nbsp +:+ "12 Main St" +:+ nbsp) = "12 Main St".
Proof. split; reflexivity. Qed.

(** [[^.]{50,500}] counts runes: 49 letters of two bytes are too few. *)
Example descRegex_counts_runes :
  FindStringSubmatch redfinPatterns.descRegex ("Description" +:+ copies 49 eAcute) = []
  /\ FindStringSubmatch redfinPatterns.descRegex ("Description" +:+ copies 50 eAcute)
     = ["Description" +:+ copies 50 eAcute; copies 50 eAcute].
Proof. split; vm_compute; reflexivity. Qed.

(** Under [(?i)] the long s folds to [s]. *)
Example litFold_long_s :
  FindString (litFold "description") ("DE" +:+ longS +:+ "CRIPTION")
  = "DE" +:+ longS +:+ "CRIPTION".
Proof. reflexivity. Qed.

End Examples.

(** On the sample of the tables: the Kelvin sign lower-cases to [k], and
    a Latin-1 letter goes to title case. *)
Example ToLower_kelvin :
  ToLower (tables := unicode.sample) kelvin = "k"
  /\ generatePropertyID (tables := unicode.sample) kelvin "" = "prop_k"
  /\ Title (tables := unicode.sample) (eAcute +:+ "cole") = String "195" (String "137" "cole").
Proof. repeat split; reflexivity. Qed.
(** * Proofs *)

(** ** Byte strings *)

#[local] Arguments String.append !_ _ / : simpl nomatch.

Lemma app_assoc_s (a b c : string) : (a +:+ b) +:+ c = a +:+ (b +:+ c).
Proof. induction a as [|x a IH]; simpl; congruence. Qed.

Lemma app_nil_r_s (a : string) : a +:+ "" = a.
Proof. induction a as [|x a IH]; simpl; congruence. Qed.

Lemma length_app_s (a b : string) :
  String.length (a +:+ b) = (String.length a + String.length b)%nat.
Proof. induction a as [|x a IH]; simpl; congruence. Qed.

Lemma takeBytes_app (a b : string) : takeBytes (String.length a) (a +:+ b) = a.
Proof. induction a as [|x a IH]; simpl; [by destruct b | congruence]. Qed.

Lemma dropBytes_app (a b : string) : dropBytes (String.length a) (a +:+ b) = b.
Proof. induction a as [|x a IH]; simpl; [reflexivity | exact IH]. Qed.

Lemma takeBytes_length (n : nat) (s : string) :
  (String.length (takeBytes n s) <= n)%nat.
Proof.
  revert s; induction n as [|n IH]; intros [|c s]; simpl; try lia.
  specialize (IH s); lia.
Qed.

Lemma takeBytes_all (n : nat) (s : string) :
  (String.length s <= n)%nat -> takeBytes n s = s.
Proof.
  revert s; induction n as [|n IH]; intros [|c s]; simpl; intros H; try reflexivity; try lia.
  rewrite IH; [reflexivity | lia].
Qed.

Lemma allBytes_takeBytes (p : ascii -> bool) (n : nat) (s : string) :
  allBytes p s = true -> allBytes p (takeBytes n s) = true.
Proof.
  revert s; induction n as [|n IH]; intros [|c s]; simpl; try reflexivity.
  intros [Hc Hs]%andb_true_iff. rewrite Hc; simpl; auto.
Qed.

Lemma allBytes_filterBytes (p : ascii -> bool) (s : string) :
  allBytes p (filterBytes p s) = true.
Proof.
  induction s as [|c s IH]; simpl; [reflexivity|].
  destruct (p c) eqn:E; simpl; [rewrite E|]; exact IH.
Qed.

Lemma allBytes_app (p : ascii -> bool) (a b : string) :
  allBytes p (a +:+ b) = allBytes p a && allBytes p b.
Proof. induction a as [|x a IH]; simpl; [reflexivity | by rewrite IH, andb_assoc]. Qed.

Lemma filterBytes_id (p : ascii -> bool) (s : string) :
  allBytes p s = true -> filterBytes p s = s.
Proof.
  induction s as [|c s IH]; simpl; [reflexivity|].
  intros [Hc Hs]%andb_true_iff. rewrite Hc, IH; auto.
Qed.

Lemma filterBytes_app (p : ascii -> bool) (a b : string) :
  filterBytes p (a +:+ b) = filterBytes p a +:+ filterBytes p b.
Proof.
  induction a as [|x a IH]; simpl; [reflexivity|].
  destruct (p x); simpl; by rewrite IH.
Qed.

Lemma hasPrefix_app (w s : string) : hasPrefix w (w +:+ s) = true.
Proof.
  induction w as [|c w IH]; simpl; [reflexivity|].
  by rewrite Ascii.eqb_refl, IH.
Qed.

Lemma hasPrefix_split (w s : string) :
  hasPrefix w s = true -> s = w +:+ dropBytes (String.length w) s.
Proof.
  revert s; induction w as [|c w IH]; intros s; simpl; [reflexivity|].
  destruct s as [|d s]; [discriminate|].
  intros [Hc Hw]%andb_true_iff. apply Ascii.eqb_eq in Hc as ->.
  f_equal. exact (IH s Hw).
Qed.

(** ** UTF-8 *)

Lemma dropBytes_length n s : String.length (dropBytes n s) = (String.length s - n)%nat.
Proof. revert s; induction n as [|n IH]; intros [|a s]; simpl; auto; lia. Qed.

Lemma takeBytes_dropBytes n s : takeBytes n s +:+ dropBytes n s = s.
Proof. revert s; induction n as [|n IH]; intros [|a s]; simpl; auto. by rewrite IH. Qed.

Lemma DecodeRuneInString_width s :
  s <> "" ->
  (1 <= snd (utf8.DecodeRuneInString s) <= String.length s)%nat.
Proof.
  destruct s as [|a0 t0]; [done|]. intros _. unfold utf8.DecodeRuneInString.
  destruct (code a0 <? utf8.RuneSelf)%N; [simpl; lia|].
  destruct (utf8.first (code a0)) as [[sz [lo hi]]|]; [|simpl; lia].
  destruct t0 as [|a1 t1]; [simpl; lia|].
  destruct ((code a1 <? lo) || (hi <? code a1))%N; [simpl; lia|].
  destruct (sz <=? 2)%nat; [simpl; lia|].
  destruct t1 as [|a2 t2]; [simpl; lia|].
  destruct (negb (utf8.continuation (code a2))); [simpl; lia|].
  destruct (sz <=? 3)%nat; [simpl; lia|].
  destruct t2 as [|a3 t3]; [simpl; lia|].
  destruct (negb (utf8.continuation (code a3))); simpl; lia.
Qed.

Lemma decodeFrom_skip n s :
  (n <= String.length s)%nat -> utf8.decodeFrom n s = utf8.runes (dropBytes n s).
Proof.
  revert s; induction n as [|n IH]; intros s Hn.
  - by destruct s.
  - destruct s as [|a s]; simpl in *; [lia|]. apply IH. lia.
Qed.

(** The runes of a string: its first rune, then the runes of what is left
    behind it. *)
Lemma runes_unfold s :
  s <> "" ->
  utf8.runes s =
  utf8.Token (fst (utf8.DecodeRuneInString s))
             (takeBytes (snd (utf8.DecodeRuneInString s)) s)
  :: utf8.runes (dropBytes (snd (utf8.DecodeRuneInString s)) s).
Proof.
  intros Hs. pose proof (DecodeRuneInString_width s Hs) as Hw.
  destruct s as [|a t]; [done|].
  unfold utf8.runes at 1. cbn [utf8.decodeFrom].
  destruct (utf8.DecodeRuneInString (String a t)) as [r w] eqn:E. cbn [fst snd] in *.
  f_equal. rewrite decodeFrom_skip by (simpl in Hw; lia).
  destruct w as [|w]; [lia|]. simpl. by rewrite Nat.sub_0_r.
Qed.

Lemma runes_ascii_cons a s :
  (code a < 128)%N ->
  utf8.runes (String a s) = utf8.Token (code a) (String a "") :: utf8.runes s.
Proof.
  intros Ha. rewrite runes_unfold by done.
  unfold utf8.DecodeRuneInString, utf8.RuneSelf.
  rewrite (proj2 (N.ltb_lt _ _) Ha). reflexivity.
Qed.

Lemma bytes_app l1 l2 : utf8.bytes (l1 ++ l2)%list = utf8.bytes l1 +:+ utf8.bytes l2.
Proof. induction l1 as [|t l1 IH]; simpl; [done|]. by rewrite IH, app_assoc_s. Qed.

(** Induction on the runes of a string. *)
Lemma runes_ind (P : string -> Prop) :
  P "" ->
  (forall s, s <> "" -> P (dropBytes (snd (utf8.DecodeRuneInString s)) s) -> P s) ->
  forall s, P s.
Proof.
  intros H0 Hstep s.
  remember (String.length s) as n eqn:Hn. revert s Hn.
  induction n as [n IH] using lt_wf_ind. intros s ->.
  destruct s as [|a t]; [exact H0|].
  apply Hstep; [done|].
  pose proof (DecodeRuneInString_width (String a t) ltac:(done)) as Hw.
  eapply IH; [|reflexivity]. rewrite dropBytes_length. simpl in *. lia.
Qed.

Lemma bytes_runes s : utf8.bytes (utf8.runes s) = s.
Proof.
  induction s as [|s Hs IH] using runes_ind; [done|].
  rewrite runes_unfold by done. cbn [utf8.bytes utf8.t_bytes].
  rewrite IH. apply takeBytes_dropBytes.
Qed.

Lemma length_runes s : (length (utf8.runes s) <= String.length s)%nat.
Proof.
  induction s as [|s Hs IH] using runes_ind; [simpl; lia|].
  rewrite runes_unfold by done. cbn [length].
  pose proof (DecodeRuneInString_width s Hs) as Hw.
  rewrite dropBytes_length in IH. lia.
Qed.

Lemma lor_ge_pow2 (a b : N) (n : N) : (2 ^ n <= a -> 2 ^ n <= N.lor a b)%N.
Proof.
  intros Ha.
  assert (Hpos : (0 < 2 ^ n)%N) by (apply N.neq_0_lt_0, N.pow_nonzero; lia).
  assert (Ha0 : (0 < a)%N) by lia.
  assert (Hl0 : (0 < N.lor a b)%N).
  { apply N.neq_0_lt_0. intros H0. apply N.lor_eq_0_l in H0. lia. }
  apply N.log2_le_pow2; [exact Hl0|].
  rewrite N.log2_lor. apply N.log2_le_pow2 in Ha; [|exact Ha0]. lia.
Qed.

Lemma lor_ge_128_l (a b : N) : (128 <= a -> 128 <= N.lor a b)%N.
Proof. apply (lor_ge_pow2 a b 7). Qed.

Lemma lor_ge_128_r (a b : N) : (128 <= b -> 128 <= N.lor a b)%N.
Proof. rewrite N.lor_comm. apply lor_ge_128_l. Qed.

Lemma land_low (s base : N) (k : N) :
  (base mod 2 ^ k = 0 -> base <= s < base + 2 ^ k -> N.land s (N.ones k) = s - base)%N.
Proof.
  intros Hb Hs. rewrite N.land_ones.
  assert (Hpos : (2 ^ k <> 0)%N) by (apply N.pow_nonzero; lia).
  symmetry. apply (N.mod_unique s (2 ^ k) (base / 2 ^ k)); [lia|].
  pose proof (N.div_mod base (2 ^ k) Hpos) as Hd. rewrite Hb in Hd. lia.
Qed.

Lemma shiftl_ge (x : N) (k : N) (m : N) : (m <= x * 2 ^ k -> m <= N.shiftl x k)%N.
Proof. by rewrite N.shiftl_mul_pow2. Qed.

Lemma first_range s0 sz lo hi :
  utf8.first s0 = Some (sz, (lo, hi)) ->
  (128 <= lo /\ hi <= 191)%N
  /\ ((sz = 2%nat /\ 194 <= s0 <= 223)
      \/ (sz = 3%nat /\ s0 = 224 /\ lo = 160)
      \/ (sz = 3%nat /\ 225 <= s0 <= 239)
      \/ (sz = 4%nat /\ s0 = 240 /\ lo = 144)
      \/ (sz = 4%nat /\ 241 <= s0 <= 244))%N.
Proof.
  unfold utf8.first.
  repeat match goal with
         | |- context [if ?b then _ else _] => destruct b eqn:?
         end; intros [= <- <- <-] || intros [=];
    repeat match goal with
           | H : (_ && _)%bool = true |- _ => apply andb_true_iff in H as [? ?]
           | H : (_ <=? _)%N = true |- _ => apply N.leb_le in H
           | H : (_ =? _)%N = true |- _ => apply N.eqb_eq in H
           end; split; try lia.
  all: try (left; lia).
  all: try (right; left; lia).
  all: try (right; right; left; lia).
  all: try (right; right; right; left; lia).
  all: try (right; right; right; right; lia).
Qed.

(** What [DecodeRuneInString] reads is one of the two shapes. *)
Lemma DecodeRuneInString_wellFormed s :
  s <> "" ->
  utf8.wellFormed
    (utf8.Token (fst (utf8.DecodeRuneInString s))
                (takeBytes (snd (utf8.DecodeRuneInString s)) s)).
Proof.
  destruct s as [|a0 t0]; [done|]. intros _.
  unfold utf8.DecodeRuneInString, utf8.RuneSelf.
  destruct (N.ltb_spec (code a0) 128) as [Hlt|Hge].
  { left. exists a0. split; [exact Hlt | reflexivity]. }
  right. unfold utf8.wellFormed, utf8.RuneSelf.
  assert (Hh0 : (128 <=? code a0)%N = true) by (apply N.leb_le; lia).
  assert (Herr : (128 <= utf8.t_rune (utf8.Token utf8.RuneError (takeBytes 1 (String a0 t0)))
                  /\ utf8.t_bytes (utf8.Token utf8.RuneError (takeBytes 1 (String a0 t0))) <> ""
                  /\ allBytes (fun b => (128 <=? code b)%N)
                       (utf8.t_bytes (utf8.Token utf8.RuneError (takeBytes 1 (String a0 t0))))
                     = true)%N).
  { cbn. rewrite Hh0. repeat split; [unfold utf8.RuneError; lia | done]. }
  destruct (utf8.first (code a0)) as [[sz [lo hi]]|] eqn:Hfirst; [|exact Herr].
  apply first_range in Hfirst as [[Hlo Hhi] Hcase].
  destruct t0 as [|a1 t1]; [exact Herr|].
  destruct (N.ltb_spec (code a1) lo) as [|Hlo1]; [exact Herr|].
  destruct (N.ltb_spec hi (code a1)) as [|Hhi1]; [exact Herr|]. cbn [orb].
  assert (Hh1 : (128 <=? code a1)%N = true) by (apply N.leb_le; lia).
  destruct (Nat.leb_spec sz 2) as [Hsz2|Hsz2].
  { cbn [fst snd takeBytes utf8.t_rune utf8.t_bytes allBytes]. rewrite Hh0, Hh1.
    repeat split; [|done].
    apply lor_ge_128_l, shiftl_ge.
    change 31%N with (N.ones 5). rewrite (land_low (code a0) 192 5); [|reflexivity|];
      change (2 ^ 5)%N with 32%N; change (2 ^ 6)%N with 64%N; lia. }
  destruct t1 as [|a2 t2]; [exact Herr|].
  destruct (utf8.continuation (code a2)) eqn:Hc2; cbn [negb]; [|exact Herr].
  unfold utf8.continuation in Hc2. apply andb_true_iff in Hc2 as [Hc2 Hc2'].
  apply N.leb_le in Hc2, Hc2'.
  assert (Hh2 : (128 <=? code a2)%N = true) by (apply N.leb_le; lia).
  destruct (Nat.leb_spec sz 3) as [Hsz3|Hsz3].
  { cbn [fst snd takeBytes utf8.t_rune utf8.t_bytes allBytes]. rewrite Hh0, Hh1, Hh2.
    repeat split; [|done].
    destruct (N.eq_dec (code a0) 224%N) as [He0|Hne0].
    - apply lor_ge_128_r, lor_ge_128_l, shiftl_ge.
      change 63%N with (N.ones 6). rewrite (land_low (code a1) 128 6); [|reflexivity|];
        change (2 ^ 6)%N with 64%N; lia.
    - apply lor_ge_128_l, shiftl_ge.
      change 15%N with (N.ones 4). rewrite (land_low (code a0) 224 4); [|reflexivity|];
        change (2 ^ 4)%N with 16%N; change (2 ^ 12)%N with 4096%N; lia. }
  destruct t2 as [|a3 t3]; [exact Herr|].
  destruct (utf8.continuation (code a3)) eqn:Hc3; cbn [negb]; [|exact Herr].
  unfold utf8.continuation in Hc3. apply andb_true_iff in Hc3 as [Hc3 Hc3'].
  apply N.leb_le in Hc3, Hc3'.
  assert (Hh3 : (128 <=? code a3)%N = true) by (apply N.leb_le; lia).
  cbn [fst snd takeBytes utf8.t_rune utf8.t_bytes allBytes]. rewrite Hh0, Hh1, Hh2, Hh3.
  repeat split; [|done].
  destruct (N.eq_dec (code a0) 240%N) as [He0|Hne0].
  - apply lor_ge_128_r, lor_ge_128_l, shiftl_ge.
    change 63%N with (N.ones 6). rewrite (land_low (code a1) 128 6); [|reflexivity|];
      change (2 ^ 6)%N with 64%N; change (2 ^ 12)%N with 4096%N; lia.
  - apply lor_ge_128_l, shiftl_ge.
    change 7%N with (N.ones 3). rewrite (land_low (code a0) 240 3); [|reflexivity|];
      change (2 ^ 3)%N with 8%N; change (2 ^ 18)%N with 262144%N; lia.
Qed.

Lemma runes_wellFormed s : Forall utf8.wellFormed (utf8.runes s).
Proof.
  induction s as [|s Hs IH] using runes_ind; [constructor|].
  rewrite runes_unfold by done. constructor; [|exact IH].
  by apply DecodeRuneInString_wellFormed.
Qed.

Lemma takeBytes_app_le n a b :
  (n <= String.length a)%nat -> takeBytes n (a +:+ b) = takeBytes n a.
Proof.
  revert a; induction n as [|n IH]; intros a Hn; [by destruct a|].
  destruct a as [|x a]; simpl in *; [lia|]. rewrite IH; [reflexivity | lia].
Qed.

Lemma dropBytes_app_le n a b :
  (n <= String.length a)%nat -> dropBytes n (a +:+ b) = dropBytes n a +:+ b.
Proof.
  revert a; induction n as [|n IH]; intros a Hn; [by destruct a|].
  destruct a as [|x a]; simpl in *; [lia|]. apply IH. lia.
Qed.

(** A rune is read from the bytes before a boundary alone. *)
Lemma DecodeRuneInString_app pre s :
  pre <> "" -> utf8.boundary s ->
  utf8.DecodeRuneInString (pre +:+ s) = utf8.DecodeRuneInString pre.
Proof.
  intros Hpre Hs. destruct s as [|b s]; [by rewrite app_nil_r_s|].
  simpl in Hs. unfold utf8.continuation in Hs.
  assert (Hout : forall lo hi, (128 <= lo)%N -> (hi <= 191)%N ->
                 ((code b <? lo) || (hi <? code b))%N = true).
  { intros lo hi Hlo Hhi. apply andb_false_iff in Hs as [Hs|Hs].
    - apply N.leb_gt in Hs. apply orb_true_iff. left. apply N.ltb_lt. lia.
    - apply N.leb_gt in Hs. apply orb_true_iff. right. apply N.ltb_lt. lia. }
  assert (Hnc : negb (utf8.continuation (code b)) = true).
  { unfold utf8.continuation. by rewrite Hs. }
  destruct pre as [|a0 t0]; [done|].
  unfold utf8.DecodeRuneInString. cbn [String.append].
  destruct (code a0 <? utf8.RuneSelf)%N; [reflexivity|].
  destruct (utf8.first (code a0)) as [[sz [lo hi]]|] eqn:Hfirst; [|reflexivity].
  apply first_range in Hfirst as [[Hlo Hhi] _].
  destruct t0 as [|a1 t1]; cbn [String.append].
  { by rewrite (Hout lo hi Hlo Hhi). }
  destruct ((code a1 <? lo) || (hi <? code a1))%N; [reflexivity|].
  destruct (sz <=? 2)%nat; [reflexivity|].
  destruct t1 as [|a2 t2]; cbn [String.append].
  { by rewrite Hnc. }
  destruct (negb (utf8.continuation (code a2))); [reflexivity|].
  destruct (sz <=? 3)%nat; [reflexivity|].
  destruct t2 as [|a3 t3]; cbn [String.append].
  { by rewrite Hnc. }
  reflexivity.
Qed.

(** The runes of a text cut at a boundary are those of its two parts. *)
Lemma runes_app pre s :
  utf8.boundary s -> utf8.runes (pre +:+ s) = (utf8.runes pre ++ utf8.runes s)%list.
Proof.
  intros Hs. induction pre as [|pre Hpre IH] using runes_ind; [reflexivity|].
  pose proof (DecodeRuneInString_width pre Hpre) as Hw.
  assert (Hne : pre +:+ s <> "") by (destruct pre; [done | discriminate]).
  rewrite (runes_unfold (pre +:+ s) Hne), (runes_unfold pre Hpre).
  rewrite (DecodeRuneInString_app pre s Hpre Hs).
  rewrite takeBytes_app_le, dropBytes_app_le by lia.
  by rewrite IH.
Qed.

Lemma boundary_ascii a s : (code a < 128)%N -> utf8.boundary (String a s).
Proof.
  intros Ha. simpl. unfold utf8.continuation.
  apply andb_false_iff. left. apply N.leb_gt. exact Ha.
Qed.

Lemma runes_ascii X s :
  isASCII X = true -> utf8.runes (X +:+ s) = (utf8.asciiTokens X ++ utf8.runes s)%list.
Proof.
  induction X as [|a X IH]; intros HX; [reflexivity|].
  simpl in HX. apply andb_true_iff in HX as [Ha HX]. apply N.ltb_lt in Ha.
  cbn [String.append utf8.asciiTokens]. rewrite runes_ascii_cons by exact Ha.
  by rewrite IH.
Qed.

Lemma runes_asciiTokens X : isASCII X = true -> utf8.runes X = utf8.asciiTokens X.
Proof.
  intros HX. rewrite <- (app_nil_r_s X) at 1. rewrite (runes_ascii X "" HX).
  apply app_nil_r.
Qed.

Lemma bytes_asciiTokens X : utf8.bytes (utf8.asciiTokens X) = X.
Proof. induction X as [|a X IH]; simpl; [done | by rewrite IH]. Qed.

Lemma length_asciiTokens X : length (utf8.asciiTokens X) = String.length X.
Proof. induction X as [|a X IH]; simpl; [done | by rewrite IH]. Qed.

(** A well-formed token whose rune is an ASCII character is that one
    byte. *)
Lemma wellFormed_ascii t a :
  utf8.wellFormed t -> (code a < 128)%N -> utf8.t_rune t = code a -> t = utf8.asciiToken a.
Proof.
  intros [(b & Hb & ->)|(Hr & _)] Ha Hrune.
  - simpl in Hrune. unfold code in Hrune.
    apply (f_equal ascii_of_N) in Hrune. rewrite !ascii_N_embedding in Hrune. by subst.
  - unfold utf8.RuneSelf in Hr. lia.
Qed.

(** ** The matcher *)

Lemma advanceOver_pos (c : cursor) (w : list utf8.token) :
  cur_pos (advanceOver c w) = (cur_pos c + String.length (utf8.bytes w))%nat.
Proof.
  revert c; induction w as [|t w IH]; intros c; cbn [advanceOver utf8.bytes].
  - simpl. lia.
  - rewrite IH, length_app_s. unfold advance, utf8.width. cbn [cur_pos]. lia.
Qed.

Lemma advanceOver_caps (c : cursor) (w : list utf8.token) :
  cur_caps (advanceOver c w) = cur_caps c.
Proof. revert c; induction w as [|t w IH]; intros c; simpl; [reflexivity | by rewrite IH]. Qed.

Lemma advanceOver_app (c : cursor) (a b : list utf8.token) :
  advanceOver c (a ++ b)%list = advanceOver (advanceOver c a) b.
Proof. revert c; induction a as [|x a IH]; intros c; simpl; [reflexivity | apply IH]. Qed.

Section MatcherFacts.
Context {R : Type}.
Implicit Types (k : cursor -> list utf8.token -> option R).

Lemma rep_unfold greedy p lo hi c s k :
  rep greedy p lo hi c s k =
  let stop := match lo with O => k c s | S _ => None end in
  let more :=
    match hi with
    | Some O => None
    | _ =>
        match s with
        | t :: s' =>
            if p (utf8.t_rune t)
            then rep greedy p (Nat.pred lo) (Nat.pred <$> hi) (advance c t) s' k
            else None
        | [] => None
        end
    end in
  if greedy
  then match more with Some x => Some x | None => stop end
  else match stop with Some x => Some x | None => more end.
Proof. destruct s; reflexivity. Qed.

Lemma run_lit_cons a w c s k :
  run (lit (String a w)) c s k =
  match s with
  | t :: s' => if (code a =? utf8.t_rune t)%N then run (lit w) (advance c t) s' k else None
  | [] => None
  end.
Proof. destruct w; reflexivity. Qed.

(** A literal matches the tokens of its own bytes. *)
Lemma run_lit_hit w c s k :
  run (lit w) c (utf8.asciiTokens w ++ s)%list k = k (advanceOver c (utf8.asciiTokens w)) s.
Proof.
  revert c; induction w as [|a w IH]; intros c; [reflexivity|].
  rewrite run_lit_cons. cbn [utf8.asciiTokens app utf8.asciiToken utf8.t_rune].
  rewrite N.eqb_refl. apply IH.
Qed.

(** Where a literal matches well-formed input, the input begins with the
    tokens of its bytes. *)
Lemma run_lit_sound w c s k x :
  isASCII w = true -> Forall utf8.wellFormed s ->
  run (lit w) c s k = Some x ->
  exists s', s = (utf8.asciiTokens w ++ s')%list
             /\ k (advanceOver c (utf8.asciiTokens w)) s' = Some x.
Proof.
  revert c s; induction w as [|a w IH]; intros c s Hw Hwf; [simpl; eauto|].
  simpl in Hw. apply andb_true_iff in Hw as [Ha Hw]. apply N.ltb_lt in Ha.
  rewrite run_lit_cons. destruct s as [|t s']; [done|].
  destruct (N.eqb_spec (code a) (utf8.t_rune t)) as [He|]; [|done].
  apply Forall_cons in Hwf as [Ht Hwf'].
  assert (t = utf8.asciiToken a) as -> by (by apply wellFormed_ascii).
  intros Hk. destruct (IH _ _ Hw Hwf' Hk) as (s'' & -> & Hk''). exists s''. auto.
Qed.

(** A successful repetition consumed a run of the class, at least [lo]
    runes long, and its continuation succeeded behind it. *)
Lemma rep_sound greedy p lo hi c s k r :
  rep greedy p lo hi c s k = Some r ->
  exists X s', s = (X ++ s')%list /\ allRunes p X = true /\ (lo <= length X)%nat
               /\ k (advanceOver c X) s' = Some r.
Proof.
  revert lo hi c; induction s as [|a s IH]; intros lo hi c; rewrite rep_unfold; cbv zeta.
  - intros H. exists [], [].
    assert (Hk : lo = 0%nat /\ k c [] = Some r).
    { destruct greedy, hi as [[|n]|], lo; simpl in H; try discriminate; split; auto;
        destruct (k c []); congruence. }
    destruct Hk as [-> Hk]. repeat split; auto.
  - intros H.
    assert (Hstop : lo = 0%nat -> k c (a :: s) = Some r ->
                    exists X s', a :: s = (X ++ s')%list /\ allRunes p X = true
                      /\ (lo <= length X)%nat /\ k (advanceOver c X) s' = Some r).
    { intros -> Hk. exists [], (a :: s). repeat split; auto. }
    assert (Hmore : forall hi', p (utf8.t_rune a) = true ->
               rep greedy p (Nat.pred lo) hi' (advance c a) s k = Some r ->
               exists X s', a :: s = (X ++ s')%list /\ allRunes p X = true
                 /\ (lo <= length X)%nat /\ k (advanceOver c X) s' = Some r).
    { intros hi' Hpa Hr.
      destruct (IH _ _ _ Hr) as (X & s' & -> & HX & Hlen & Hk).
      exists (a :: X), s'. unfold allRunes in *. simpl. rewrite Hpa.
      repeat split; auto. lia. }
    destruct (p (utf8.t_rune a)) eqn:Hpa, lo as [|lo], greedy, hi as [[|n]|]; simpl in H;
      try discriminate;
      repeat match type of H with
             | context [rep ?g ?q ?l ?h ?c' ?s' ?k'] =>
                 destruct (rep g q l h c' s' k') eqn:E; simplify_eq
             | context [match k c (a :: s) with _ => _ end] =>
                 destruct (k c (a :: s)) eqn:E'; simplify_eq
             end;
      eauto.
Qed.

(** A greedy unbounded repetition tries the whole run of the class
    first. *)
Lemma rep_greedy_longest p lo c X s' k r :
  allRunes p X = true -> leading p s' = false -> (lo <= length X)%nat ->
  k (advanceOver c X) s' = Some r ->
  rep true p lo None c (X ++ s')%list k = Some r.
Proof.
  unfold allRunes.
  revert lo c; induction X as [|a X IH]; intros lo c HX Hs' Hlo Hk;
    simpl in HX, Hlo, Hk.
  - assert (lo = 0%nat) as -> by lia.
    change ([] ++ s')%list with s'.
    rewrite rep_unfold; cbv zeta. destruct s' as [|b s']; simpl in *.
    + by rewrite Hk.
    + by rewrite Hs', Hk.
  - apply andb_true_iff in HX as [Ha HX].
    change ((a :: X) ++ s')%list with (a :: (X ++ s')%list).
    rewrite rep_unfold; cbv zeta; cbv iota. rewrite Ha.
    change (Nat.pred <$> None) with (@None nat).
    rewrite (IH (Nat.pred lo) (advance c a)); auto. lia.
Qed.
End MatcherFacts.

Lemma search_unfold r c s :
  search r c s =
  match run r c s accept with
  | Some (c', s') => Some (Found [] (take (length s - length s') s) c' s')
  | None =>
      match s with
      | t :: s' => skip1 t <$> search r (advance c t) s'
      | [] => None
      end
  end.
Proof. destruct s; reflexivity. Qed.

(** The search passes over the offsets at which the pattern does not
    match. *)
Lemma search_skip r c pre s :
  (forall p1 p2, pre = (p1 ++ p2)%list -> p2 <> [] ->
     run r (advanceOver c p1) (p2 ++ s)%list accept = None) ->
  search r c (pre ++ s)%list = skipAll pre <$> search r (advanceOver c pre) s.
Proof.
  revert c; induction pre as [|a pre IH]; intros c Hnone;
    cbn [app advanceOver skipAll].
  - by destruct (search r c s).
  - rewrite search_unfold.
    pose proof (Hnone [] (a :: pre) eq_refl ltac:(discriminate)) as H0.
    cbn [advanceOver app] in H0. rewrite H0, IH.
    + by destruct (search r (advanceOver (advance c a) pre) s).
    + intros p1 p2 -> Hp2. apply (Hnone (a :: p1) p2); auto.
Qed.

Lemma search_here r c s c' s' :
  run r c s accept = Some (c', s') ->
  search r c s = Some (Found [] (take (length s - length s') s) c' s').
Proof. intros H. rewrite search_unfold, H. reflexivity. Qed.

Lemma skipAll_fields pre m :
  f_skipped (skipAll pre m) = (pre ++ f_skipped m)%list /\ f_text (skipAll pre m) = f_text m
  /\ f_end (skipAll pre m) = f_end m /\ f_rest (skipAll pre m) = f_rest m.
Proof. induction pre as [|a pre (H1 & H2 & H3 & H4)]; simpl; auto. by rewrite H1. Qed.

(** A successful run consumed a prefix of the input and called its
    continuation behind it. *)
Lemma run_consumes {R : Type} r c s (k : cursor -> list utf8.token -> option R) x :
  run r c s k = Some x ->
  exists w s' c', s = (w ++ s')%list
                  /\ cur_pos c' = (cur_pos c + String.length (utf8.bytes w))%nat
                  /\ k c' s' = Some x.
Proof.
  revert c s k; induction r as [|p|r1 IH1 r2 IH2|r1 IH1 r2 IH2|r1 IH1|g p lo hi|n r1 IH1|];
    intros c s k; cbn [run].
  - intros H. exists [], s, c. repeat split; auto; simpl; lia.
  - destruct s as [|a s]; [discriminate|]. destruct (p (utf8.t_rune a)); [|discriminate].
    intros H. exists [a], s, (advance c a). repeat split; auto.
    simpl. rewrite app_nil_r_s. reflexivity.
  - intros (w1 & s1 & c1 & -> & Hp1 & H1)%IH1.
    apply IH2 in H1 as (w2 & s2 & c2 & -> & Hp2 & H2).
    exists (w1 ++ w2)%list, s2, c2. rewrite app_assoc, bytes_app, length_app_s.
    repeat split; auto; lia.
  - destruct (run r1 c s k) eqn:E1.
    + intros [= <-]. by apply IH1.
    + apply IH2.
  - destruct (run r1 c s k) eqn:E1.
    + intros [= <-]. by apply IH1.
    + intros H. exists [], s, c. repeat split; auto; simpl; lia.
  - intros (X & s' & -> & _ & _ & H)%rep_sound.
    exists X, s', (advanceOver c X). repeat split; auto. apply advanceOver_pos.
  - intros (w & s' & c' & -> & Hp & H)%IH1.
    exists w, s', (closeGroup n (cur_pos c) c'). repeat split; auto.
  - destruct (xorb _ _); [|discriminate].
    intros H. exists [], s, c. repeat split; auto; simpl; lia.
Qed.

Lemma run_accept_consumes r c s c' s' :
  run r c s accept = Some (c', s') ->
  s = (take (length s - length s') s ++ s')%list
  /\ cur_pos c'
     = (cur_pos c + String.length (utf8.bytes (take (length s - length s') s)))%nat.
Proof.
  intros (w & s'' & c'' & Hs & Hp & Hacc)%run_consumes.
  unfold accept in Hacc. injection Hacc as Hc Hs'. subst c'' s''.
  assert (Ht : take (length s - length s') s = w).
  { subst s. rewrite length_app. replace (length w + length s' - length s')%nat
      with (length w) by lia. apply take_app_length. }
  rewrite Ht. auto.
Qed.

(** A match splits the input into the runes skipped, its text and the
    rest, and its end cursor stands behind its text. *)
Lemma search_consumes r c s m :
  search r c s = Some m ->
  s = (f_skipped m ++ f_text m ++ f_rest m)%list
  /\ cur_pos (f_end m)
     = (cur_pos c + String.length (utf8.bytes (f_skipped m))
        + String.length (utf8.bytes (f_text m)))%nat.
Proof.
  revert c m; induction s as [|a s IH]; intros c m; rewrite search_unfold.
  - destruct (run r c [] accept) as [[c' s']|] eqn:E; [|discriminate].
    intros [= <-]. destruct (run_accept_consumes _ _ _ _ _ E) as [Hs Hp].
    cbn [f_skipped f_text f_end f_rest]. split; [exact Hs |].
    simpl in Hp |- *. lia.
  - destruct (run r c (a :: s) accept) as [[c' s']|] eqn:E.
    + intros [= <-]. destruct (run_accept_consumes _ _ _ _ _ E) as [Hs Hp].
      cbn [f_skipped f_text f_end f_rest]. split; [exact Hs |].
      simpl in Hp |- *. lia.
    + destruct (search r (advance c a) s) as [m'|] eqn:E'; [|discriminate].
      intros [= <-]. destruct (IH _ _ E') as [Hs Hp]. simpl.
      split; [by rewrite <- Hs |].
      rewrite Hp, length_app_s. unfold advance, utf8.width. cbn [cur_pos]. lia.
Qed.

Lemma bytes_nonempty (l : list utf8.token) :
  Forall utf8.wellFormed l -> l <> [] -> utf8.bytes l <> "".
Proof.
  intros Hwf Hl. destruct l as [|t l]; [done|]. apply Forall_cons in Hwf as [Ht _].
  simpl. destruct Ht as [(a & _ & ->)|(_ & Hne & _)]; [discriminate|].
  destruct (utf8.t_bytes t); [done | discriminate].
Qed.

(** The loops of [FindAllString] and [ReplaceAllString] never use up a
    fuel above the number of runes of their input: every search but the
    last moves on by at least one rune. *)
Lemma allMatches_fuel r fuel fuel' c s prevEnd :
  (length s < fuel)%nat -> (length s < fuel')%nat ->
  allMatches fuel r c s prevEnd = allMatches fuel' r c s prevEnd.
Proof.
  revert fuel' c s prevEnd; induction fuel as [|fuel IH];
    intros [|fuel'] c s prevEnd H H'; try lia.
  cbn [allMatches].
  destruct (search r (restart c) s) as [m|] eqn:E; [|reflexivity].
  destruct (search_consumes _ _ _ _ E) as [Hs Hp]. cbn [restart cur_pos] in Hp.
  destruct (Nat.eqb_spec (cur_pos (f_end m)) (cur_pos c)) as [He|Hne]; cbv zeta.
  - destruct s as [|a s]; [reflexivity|]. simpl in H, H'.
    by rewrite (IH fuel') by lia.
  - assert (Hmoved : (f_skipped m ++ f_text m)%list <> []).
    { intros Hnil. apply app_eq_nil in Hnil as [H1 H2]. rewrite H1, H2 in Hp.
      simpl in Hp. lia. }
    assert (Hlen : (length (f_rest m) < length s)%nat).
    { rewrite Hs. rewrite app_assoc, (length_app (f_skipped m ++ f_text m)).
      destruct (f_skipped m ++ f_text m)%list; [done | simpl; lia]. }
    f_equal. apply IH; lia.
Qed.

Lemma replaceAll_fuel r repl fuel fuel' c s lastEnd pending :
  (length s < fuel)%nat -> (length s < fuel')%nat ->
  replaceAll fuel r repl c s lastEnd pending = replaceAll fuel' r repl c s lastEnd pending.
Proof.
  revert fuel' c s lastEnd pending; induction fuel as [|fuel IH];
    intros [|fuel'] c s lastEnd pending H H'; try lia.
  cbn [replaceAll].
  destruct (search r (restart c) s) as [m|] eqn:E; [|reflexivity].
  destruct (search_consumes _ _ _ _ E) as [Hs Hp]. cbn [restart cur_pos] in Hp.
  destruct (Nat.eqb_spec (cur_pos (f_end m)) (cur_pos c)) as [He|Hne]; cbv zeta.
  - destruct s as [|a s]; [reflexivity|]. simpl in H, H'.
    by rewrite (IH fuel') by lia.
  - assert (Hmoved : (f_skipped m ++ f_text m)%list <> []).
    { intros Hnil. apply app_eq_nil in Hnil as [H1 H2]. rewrite H1, H2 in Hp.
      simpl in Hp. lia. }
    assert (Hlen : (length (f_rest m) < length s)%nat).
    { rewrite Hs. rewrite app_assoc, (length_app (f_skipped m ++ f_text m)).
      destruct (f_skipped m ++ f_text m)%list; [done | simpl; lia]. }
    f_equal. apply IH; lia.
Qed.

(** A match is a run of the pattern at the place where the search
    stopped. *)
Lemma search_found r c s m :
  search r c s = Some m ->
  s = (f_skipped m ++ f_text m ++ f_rest m)%list
  /\ run r (advanceOver c (f_skipped m)) (f_text m ++ f_rest m)%list accept
     = Some (f_end m, f_rest m).
Proof.
  assert (Hhere : forall c s c' s',
            run r c s accept = Some (c', s') ->
            s = ([] ++ take (length s - length s') s ++ s')%list
            /\ run r c (take (length s - length s') s ++ s')%list accept = Some (c', s')).
  { intros c0 s0 c' s' E. destruct (run_accept_consumes _ _ _ _ _ E) as [Hs _].
    split; [exact Hs|]. rewrite <- Hs. exact E. }
  revert c m; induction s as [|a s IH]; intros c m; rewrite search_unfold.
  - destruct (run r c [] accept) as [[c' s']|] eqn:E; [|discriminate].
    intros [= <-]. exact (Hhere _ _ _ _ E).
  - destruct (run r c (a :: s) accept) as [[c' s']|] eqn:E.
    + intros [= <-]. exact (Hhere _ _ _ _ E).
    + destruct (search r (advance c a) s) as [m'|] eqn:E'; [|discriminate].
      intros [= <-]. destruct (IH _ _ E') as [Hs Hrun].
      cbn [skip1 f_skipped f_text f_end f_rest advanceOver app].
      split; [by rewrite <- Hs | exact Hrun].
Qed.

(** *** [x+] over a class *)

Lemma run_many1_miss p c s :
  leading p s = false -> run (many1 p) c s accept = None.
Proof.
  intros H. unfold many1; cbn [run]. rewrite rep_unfold; cbv zeta.
  destruct s as [|a s]; simpl in *; [reflexivity | by rewrite H].
Qed.

Lemma rep_accept_total greedy p hi c s :
  exists r, rep greedy p 0 hi c s accept = Some r.
Proof.
  revert hi c; induction s as [|a s IH]; intros hi c; rewrite rep_unfold; cbv zeta.
  - destruct greedy, hi as [[|n]|]; simpl; eauto.
  - destruct greedy; [|simpl; eauto].
    destruct hi as [[|n]|]; simpl; eauto.
    + destruct (p (utf8.t_rune a)); eauto.
      destruct (IH (Some n) (advance c a)) as [r ->]. eauto.
    + destruct (p (utf8.t_rune a)); eauto.
      destruct (IH None (advance c a)) as [r ->]. eauto.
Qed.

Lemma run_many1_hit p c s :
  leading p s = true ->
  exists X s', s = (X ++ s')%list /\ X <> [] /\ allRunes p X = true
               /\ run (many1 p) c s accept = Some (advanceOver c X, s').
Proof.
  intros H. destruct s as [|a s]; [discriminate|]. simpl in H.
  destruct (rep_accept_total true p None (advance c a) s) as [[c' s'] Hr].
  assert (Hrun : run (many1 p) c (a :: s) accept = Some (c', s')).
  { unfold many1; cbn [run]. rewrite rep_unfold; cbv zeta. rewrite H.
    change (Nat.pred <$> None) with (@None nat). simpl. by rewrite Hr. }
  unfold many1 in Hrun; cbn [run] in Hrun.
  destruct (rep_sound _ _ _ _ _ _ _ _ Hrun) as (X & s'' & HX & Hall & Hlen & Hacc).
  unfold accept in Hacc. injection Hacc as Hc Hs. subst c' s'.
  exists X, s''. repeat split; auto.
  intros ->. simpl in Hlen. lia.
Qed.

(** What the search for [x+] finds: nothing when no rune is in the class;
    otherwise runes outside the class are skipped and a non-empty run of
    the class is matched. *)
Lemma search_many1 p c s :
  match search (many1 p) c s with
  | None => allRunes (cNot p) s = true
  | Some m =>
      s = (f_skipped m ++ f_text m ++ f_rest m)%list
      /\ f_text m <> [] /\ allRunes p (f_text m) = true
      /\ allRunes (cNot p) (f_skipped m) = true
      /\ cur_pos (f_end m)
         = (cur_pos c + String.length (utf8.bytes (f_skipped m))
            + String.length (utf8.bytes (f_text m)))%nat
  end.
Proof.
  revert c; induction s as [|a s IH]; intros c.
  - rewrite search_unfold, run_many1_miss by reflexivity. reflexivity.
  - destruct (p (utf8.t_rune a)) eqn:Hpa.
    + destruct (run_many1_hit p c (a :: s) Hpa) as (X & s' & HX & Hne & Hall & Hrun).
      rewrite (search_here _ _ _ _ _ Hrun). cbn [f_skipped f_text f_end f_rest].
      rewrite advanceOver_pos.
      assert (Ht : take (length (a :: s) - length s') (a :: s) = X).
      { rewrite HX, length_app.
        replace (length X + length s' - length s')%nat with (length X) by lia.
        apply take_app_length. }
      rewrite Ht. repeat split; auto.
    + rewrite search_unfold, run_many1_miss by (simpl; exact Hpa).
      specialize (IH (advance c a)).
      destruct (search (many1 p) (advance c a) s) as [m|]; simpl.
      * destruct IH as (Hs & Hne & Hall & Hskip & Hpos). repeat split; auto.
        -- by rewrite <- Hs.
        -- unfold cNot at 1. by rewrite Hpa.
        -- rewrite Hpos, length_app_s. unfold advance, utf8.width. cbn [cur_pos]. lia.
      * unfold cNot at 1. by rewrite Hpa.
Qed.

Lemma filter_all (p : utf8.rune -> bool) (l : list utf8.token) :
  allRunes p l = true -> List.filter (fun t => p (utf8.t_rune t)) l = l.
Proof.
  unfold allRunes. induction l as [|t l IH]; simpl; [done|].
  intros [Ht Hl]%andb_true_iff. rewrite Ht. by rewrite IH.
Qed.

Lemma filter_none (p : utf8.rune -> bool) (l : list utf8.token) :
  allRunes p l = true -> List.filter (fun t => cNot p (utf8.t_rune t)) l = [].
Proof.
  unfold allRunes. induction l as [|t l IH]; simpl; [done|].
  intros [Ht Hl]%andb_true_iff. unfold cNot at 1. rewrite Ht. simpl. auto.
Qed.

(** Replacing every match of [x+] by nothing deletes the runes of the
    class. *)
Lemma replaceAll_strip p fuel c s lastEnd :
  Forall utf8.wellFormed s ->
  (length s < fuel)%nat ->
  replaceAll fuel (many1 p) "" c s lastEnd ""
  = utf8.bytes (List.filter (fun t => cNot p (utf8.t_rune t)) s).
Proof.
  revert c s lastEnd; induction fuel as [|fuel IH]; intros c s lastEnd Hwf Hfuel; [lia|].
  cbn [replaceAll].
  pose proof (search_many1 p (restart c) s) as Hm.
  destruct (search (many1 p) (restart c) s) as [m|].
  - destruct Hm as (Hs & Hne & Hall & Hskip & Hpos). cbn [restart cur_pos] in Hpos.
    assert (Hwf' : Forall utf8.wellFormed (f_text m) /\ Forall utf8.wellFormed (f_rest m)).
    { rewrite Hs in Hwf. apply Forall_app in Hwf as [_ Hwf].
      by apply Forall_app in Hwf. }
    destruct Hwf' as [Hwft Hwfr].
    assert (Hlen : (0 < String.length (utf8.bytes (f_text m)))%nat).
    { pose proof (bytes_nonempty _ Hwft Hne) as Hb.
      destruct (utf8.bytes (f_text m)); [done | simpl; lia]. }
    replace (cur_pos (f_end m) =? cur_pos c)%nat with false
      by (symmetry; apply Nat.eqb_neq; lia).
    rewrite IH.
    + rewrite Hs at 1. rewrite !List.filter_app.
      rewrite (filter_all _ _ Hskip), (filter_none _ _ Hall).
      simpl. rewrite bytes_app. destruct (_ || _); by rewrite app_nil_r_s.
    + exact Hwfr.
    + rewrite Hs in Hfuel. rewrite !length_app in Hfuel.
      destruct (f_text m); [done | simpl in Hfuel; lia].
  - simpl. symmetry. f_equal. by apply filter_all.
Qed.

(** The bytes of the runes of an ASCII class are the bytes in the
    class. *)
Lemma bytes_filter_ascii (p : utf8.rune -> bool) (l : list utf8.token) :
  (forall r, p r = true -> (r < 128)%N) ->
  Forall utf8.wellFormed l ->
  utf8.bytes (List.filter (fun t => p (utf8.t_rune t)) l)
  = filterBytes (onByte p) (utf8.bytes l).
Proof.
  intros Hp. induction 1 as [|t l Ht Hl IH]; [done|].
  cbn [List.filter utf8.bytes]. rewrite filterBytes_app, <- IH.
  destruct Ht as [(a & Ha & ->)|(Hr & _ & Hhigh)].
  - cbn. unfold onByte. destruct (p (code a)); reflexivity.
  - assert (Hpr : p (utf8.t_rune t) = false).
    { destruct (p (utf8.t_rune t)) eqn:E; [|done].
      apply Hp in E. unfold utf8.RuneSelf in Hr. lia. }
    rewrite Hpr.
    assert (Hnone : filterBytes (onByte p) (utf8.t_bytes t) = "").
    { revert Hhigh. generalize (utf8.t_bytes t). intros b.
      induction b as [|x b IHb]; [done|]. simpl.
      intros [Hx Hb]%andb_true_iff. unfold onByte at 1.
      destruct (p (code x)) eqn:E; [|auto].
      apply Hp in E. apply N.leb_le in Hx. unfold utf8.RuneSelf in Hx. lia. }
    by rewrite Hnone.
Qed.

Lemma ReplaceAllString_strip p s :
  (forall r, p r = true -> (r < 128)%N) ->
  ReplaceAllString (many1 (cNot p)) s "" = filterBytes (onByte p) s.
Proof.
  intros Hp. unfold ReplaceAllString.
  rewrite replaceAll_strip.
  - rewrite <- (bytes_runes s) at 2.
    rewrite <- (bytes_filter_ascii p _ Hp (runes_wellFormed s)).
    f_equal. apply List.filter_ext. intros t. unfold cNot. apply negb_involutive.
  - apply runes_wellFormed.
  - pose proof (length_runes s). lia.
Qed.

Section Proofs.
Context {tables : unicode.Tables}.

(** ** The identifier *)

Lemma cLowerDigit_ascii r : cLowerDigit r = true -> (r < 128)%N.
Proof.
  unfold cLowerDigit, cLower, cDigit, unicode.between.
  intros [H|H]%orb_true_iff; apply andb_true_iff in H as [_ H]; apply N.leb_le in H; lia.
Qed.

Lemma generatePropertyID_spec address city :
  generatePropertyID address city = identifierSpec address city.
Proof.
  unfold generatePropertyID, identifierSpec, cleanedText, sentinel.
  rewrite ReplaceAllString_strip by exact cLowerDigit_ascii.
  set (cleaned := filterBytes (onByte cLowerDigit) (ToLower (address +:+ city))).
  assert (Hcut : (if 25 <? len cleaned then slice cleaned 0 25 else cleaned)
                 = takeBytes 25 cleaned).
  { destruct (Z.ltb_spec 25 (len cleaned)) as [Hlt|Hle].
    - reflexivity.
    - symmetry. apply takeBytes_all. unfold len in Hle. lia. }
  by rewrite Hcut.
Qed.

Lemma cleanedText_short address city :
  (String.length (cleanedText address city) <= 25)%nat.
Proof. apply takeBytes_length. Qed.

Lemma cleanedText_alphabet address city :
  allBytes (onByte cLowerDigit) (cleanedText address city) = true.
Proof. apply allBytes_takeBytes, allBytes_filterBytes. Qed.

Lemma generatePropertyID_nonempty address city :
  generatePropertyID address city <> "".
Proof. rewrite generatePropertyID_spec. discriminate. Qed.

(** C2 (amended): [generatePropertyID] is the function of (address, city)
    that lower-cases the concatenation, keeps the lowercase letters and
    digits, cuts at 25 bytes and puts the tag "prop_" in front, with the
    sentinel "unknown" in place of an empty cleaned text; the result is
    never empty, and it equals the sentinel-based identifier exactly when
    the cleaned text is empty or is the sentinel itself. *)
Theorem C2_identifier (address city : string) :
  generatePropertyID address city = identifierSpec address city
  /\ (String.length (cleanedText address city) <= 25)%nat
  /\ allBytes (onByte cLowerDigit) (cleanedText address city) = true
  /\ generatePropertyID address city <> ""
  /\ generatePropertyID "" "" = "prop_" +:+ sentinel
  /\ (generatePropertyID address city = generatePropertyID "" ""
      <-> cleanedText address city = "" \/ cleanedText address city = sentinel).
Proof.
  split; [apply generatePropertyID_spec|].
  split; [apply cleanedText_short|].
  split; [apply cleanedText_alphabet|].
  split; [apply generatePropertyID_nonempty|].
  split; [reflexivity|].
  rewrite generatePropertyID_spec.
  change (generatePropertyID "" "") with ("prop_" +:+ sentinel).
  unfold identifierSpec. case_bool_decide as Hc.
  - split; auto.
  - split.
    + intros H. right. by simplify_eq.
    + intros [H| ->]; [contradiction | reflexivity].
Qed.

(** ** One listing *)

Lemma onSubmatch_keeps {A B : Type} (proj : A -> B) re text (f : string -> A -> A) a :
  (forall g x, proj (f g x) = proj x) ->
  proj (onSubmatch re text f a) = proj a.
Proof.
  intros H. unfold onSubmatch.
  destruct (FindStringSubmatch re text) as [|m [|g l]]; auto.
Qed.

Ltac keeps proj :=
  cbv zeta; repeat (rewrite (onSubmatch_keeps proj) by reflexivity); try reflexivity.

Lemma foldl_keeps {A B C : Type} (proj : A -> B) (f : A -> C -> A) (l : list C) a :
  (forall x y, proj (f x y) = proj x) -> proj (foldl f a l) = proj a.
Proof.
  intros H. revert a; induction l as [|y l IH]; intros a; simpl; [reflexivity|].
  by rewrite IH, H.
Qed.

(** The pattern steps on a window touch none of the identity fields and
    not the price per area. *)
Lemma windowFields_keeps chunk p :
  Status (windowFields chunk p) = Status p
  /\ Address (windowFields chunk p) = Address p
  /\ City (windowFields chunk p) = City p
  /\ State (windowFields chunk p) = State p
  /\ ZipCode (windowFields chunk p) = ZipCode p
  /\ PricePerSqFt (windowFields chunk p) = PricePerSqFt p.
Proof.
  unfold windowFields.
  repeat split;
    [keeps Status | keeps Address | keeps City | keeps State | keeps ZipCode
    | keeps PricePerSqFt].
Qed.

Lemma anchorRecord_fields address :
  Status (anchorRecord address) = "sold"
  /\ PricePerSqFt (anchorRecord address) = 0
  /\ (Address (anchorRecord address) <> "" ->
      City (anchorRecord address) = "Honolulu"
      /\ State (anchorRecord address) = "HI"
      /\ ZipCode (anchorRecord address) = "96822").
Proof.
  unfold anchorRecord; cbv zeta.
  destruct (3 <=? length (Split address ","))%nat; simpl; auto.
  repeat split; auto; contradiction.
Qed.

Lemma pricePerSqFtStep_keeps p :
  Status (pricePerSqFtStep p) = Status p
  /\ Address (pricePerSqFtStep p) = Address p
  /\ City (pricePerSqFtStep p) = City p
  /\ State (pricePerSqFtStep p) = State p
  /\ ZipCode (pricePerSqFtStep p) = ZipCode p
  /\ Price (pricePerSqFtStep p) = Price p
  /\ SquareFeet (pricePerSqFtStep p) = SquareFeet p
  /\ ID (pricePerSqFtStep p) = ID p.
Proof. unfold pricePerSqFtStep. destruct (_ && _); simpl; auto 10. Qed.

(** The step establishes the rule on a record whose price per area is
    still unset. *)
Lemma pricePerSqFtStep_rule p :
  PricePerSqFt p = 0 -> pricePerAreaRule (pricePerSqFtStep p).
Proof.
  intros H0. unfold pricePerAreaRule, pricePerSqFtStep.
  destruct ((0 <? Price p) && (0 <? SquareFeet p)) eqn:E; simpl; rewrite E; auto.
Qed.

Lemma pricePerAreaRule_unpriced p :
  PricePerSqFt p = 0 -> Price p = 0 -> pricePerAreaRule p.
Proof. intros H0 H1. unfold pricePerAreaRule. by rewrite H0, H1. Qed.

Lemma derivedFields_fields p :
  PricePerSqFt p = 0 ->
  Status (derivedFields p) = Status p
  /\ Address (derivedFields p) = Address p
  /\ City (derivedFields p) = City p
  /\ State (derivedFields p) = State p
  /\ ZipCode (derivedFields p) = ZipCode p
  /\ pricePerAreaRule (derivedFields p)
  /\ (Address p <> "" -> ID (derivedFields p) = generatePropertyID (Address p) (City p)).
Proof.
  intros H0.
  pose proof (pricePerSqFtStep_rule p H0) as Hrule.
  destruct (pricePerSqFtStep_keeps p) as (HS & HA & HC & HSt & HZ & HP & HF & HI).
  unfold derivedFields; cbv zeta.
  unfold pricePerAreaRule in *.
  case_bool_decide as Haddr; simpl in *; rewrite ?HS, ?HA, ?HC, ?HSt, ?HZ;
    repeat split; auto; try (intros; congruence).
Qed.

(** What every record built for an anchor and appended satisfies. *)
Lemma listingAt_Some pageText address p :
  listingAt pageText address = Some p ->
  admitted p /\ manoaSold p /\ pricePerAreaRule p /\ ID p <> "".
Proof.
  unfold listingAt. case_bool_decide; [discriminate|]. cbv zeta.
  destruct (Index pageText address =? -1); [discriminate|].
  set (chunk := window pageText (Index pageText address)).
  destruct (windowFields_keeps chunk (anchorRecord address)) as (HS & HA & HC & HSt & HZ & HP).
  destruct (anchorRecord_fields address) as (HS0 & HP0 & Hloc).
  destruct (derivedFields_fields (windowFields chunk (anchorRecord address)))
    as (HS' & HA' & HC' & HSt' & HZ' & Hrule & Hid); [congruence|].
  set (q := derivedFields (windowFields chunk (anchorRecord address))) in *.
  case_bool_decide as Haddr; simpl; [|discriminate].
  destruct (Z.ltb_spec 0 (Price q)) as [Hprice|]; [|discriminate].
  intros [= <-].
  assert (Ha0 : Address (anchorRecord address) <> "") by congruence.
  destruct (Hloc Ha0) as (Hc & Hs & Hz).
  split; [split; auto|]. split; [unfold manoaSold; repeat split; congruence|].
  split; [exact Hrule|].
  rewrite Hid by congruence. apply generatePropertyID_nonempty.
Qed.

Lemma pageListings_each pageText p :
  p ∈ pageListings pageText ->
  admitted p /\ manoaSold p /\ pricePerAreaRule p /\ ID p <> "".
Proof.
  unfold pageListings. intros (address & _ & Hp)%list_elem_of_omap.
  exact (listingAt_Some _ _ _ Hp).
Qed.

(** ** Fetching a page *)

Lemma scrapePage_trace h url tr :
  scrapePage h url tr
  = (result (scrapePage h url), (tr ++ requested (scrapePage h url))%list).
Proof.
  unfold result, requested, scrapePage.
  destruct (newRequestError h url) as [err|].
  - unfold mret, Net_ret, ret. simpl. by rewrite app_nil_r.
  - unfold mbind, Net_bind, bind, Do, mret, Net_ret, ret. simpl.
    destruct (client h (simpleRequest url)) as [err|resp]; [reflexivity|].
    destruct (negb (http.StatusCode resp =? 200)); [reflexivity|].
    destruct (http.Body resp); reflexivity.
Qed.

Lemma scrapePage_failure h url err :
  fetchFailure h url err -> result (scrapePage h url) = ([], Some err).
Proof.
  unfold result, scrapePage, mbind, Net_bind, bind, Do, mret, Net_ret, ret.
  intros [e He | e He Hc | resp He Hc Hs | resp e He Hc Hs Hb]; rewrite He; simpl;
    try rewrite Hc; try reflexivity.
  - destruct (Z.eqb_spec (http.StatusCode resp) 200); [contradiction | reflexivity].
  - rewrite Hs, Hb. reflexivity.
Qed.

(** A page that is scraped without error was requested, answered with
    status 200, and yields the listings of its text. *)
Lemma scrapePage_success h url l :
  result (scrapePage h url) = (l, None) ->
  requested (scrapePage h url) = [url] /\ exists text, l = pageListings text.
Proof.
  unfold result, requested, scrapePage, mbind, Net_bind, bind, Do, mret, Net_ret, ret.
  destruct (newRequestError h url) as [err|]; simpl; [discriminate|].
  destruct (client h (simpleRequest url)) as [err|resp]; simpl; [discriminate|].
  destruct (negb (http.StatusCode resp =? 200)); simpl; [discriminate|].
  destruct (http.Body resp) as [err|doc]; simpl; [discriminate|].
  intros [= <-]. split; [reflexivity | eauto].
Qed.

Lemma scrapePage_requested h url :
  requested (scrapePage h url) = [] \/ requested (scrapePage h url) = [url].
Proof.
  unfold requested, scrapePage, mbind, Net_bind, bind, Do, mret, Net_ret, ret.
  destruct (newRequestError h url) as [err|]; simpl; [by left|]. right.
  destruct (client h (simpleRequest url)) as [err|resp]; simpl; [reflexivity|].
  destruct (negb (http.StatusCode resp =? 200)); simpl; [reflexivity|].
  destruct (http.Body resp) as [err|doc]; reflexivity.
Qed.

Lemma scrapePage_listings h url p :
  p ∈ fst (result (scrapePage h url)) -> exists text, p ∈ pageListings text.
Proof.
  destruct (result (scrapePage h url)) as [l [err|]] eqn:E; simpl.
  - unfold result, scrapePage, mbind, Net_bind, bind, Do, mret, Net_ret, ret in E.
    destruct (newRequestError h url); simpl in E;
      [injection E as <- _; by intros ?%elem_of_nil|].
    destruct (client h (simpleRequest url)) as [|resp]; simpl in E;
      [injection E as <- _; by intros ?%elem_of_nil|].
    destruct (negb (http.StatusCode resp =? 200)); simpl in E;
      [injection E as <- _; by intros ?%elem_of_nil|].
    destruct (http.Body resp); simpl in E; [|discriminate].
    injection E as <- _; by intros ?%elem_of_nil.
  - destruct (scrapePage_success _ _ _ E) as (_ & text & ->). eauto.
Qed.

(** ** The crawl *)

Section Crawl.
Variable h : HomesScraper.
Variables city state neighborhood status : string.

Local Abbreviation url := (neighborhoodURL city state neighborhood status).
Local Abbreviation yield := (pageYield h city state neighborhood status).
Local Abbreviation crawl_ := (crawl h city state neighborhood status).

Lemma crawl_step remaining page m tr :
  crawl_ (S remaining) page m tr =
  let tr' := (tr ++ requested (scrapePage h (url page)))%list in
  match yield page with
  | (_, Some err) => ((m, Some (pageError page err)), tr')
  | (l, None) =>
      if (length l <? 20)%nat then ((addToMap m l, None), tr')
      else crawl_ remaining (page + 1) (addToMap m l) tr'
  end.
Proof.
  unfold pageYield. cbn [crawl].
  unfold mbind, Net_bind, bind. rewrite scrapePage_trace.
  destruct (result (scrapePage h _)) as [l [err|]]; [reflexivity|].
  by destruct (length l <? 20)%nat.
Qed.

(** The requests of the crawl: consecutive pages from the first, at
    most as many as iterations remain, and none behind a page that
    yields fewer than 20 records. *)
Lemma crawl_requests remaining page m tr :
  exists n, (n <= remaining)%nat
    /\ snd (crawl_ remaining page m tr) = (tr ++ (url <$> pageNumbers page n))%list
    /\ forall i l, yield (page + Z.of_nat i) = (l, None) ->
                   (length l < 20)%nat -> (n <= S i)%nat.
Proof.
  revert page m tr; induction remaining as [|remaining IH]; intros page m tr.
  - exists 0%nat. simpl. rewrite app_nil_r. repeat split; auto. intros; lia.
  - rewrite crawl_step. cbv zeta.
    destruct (yield page) as [l [err|]] eqn:Hy.
    + destruct (scrapePage_requested h (url page)) as [-> | ->].
      * exists 0%nat. simpl. repeat split; auto; intros; lia.
      * exists 1%nat. simpl. repeat split; auto; intros; lia.
    + destruct (scrapePage_success _ _ _ Hy) as [-> _].
      destruct (Nat.ltb_spec (length l) 20) as [Hshort|Hlong].
      * exists 1%nat. simpl. repeat split; auto; intros; lia.
      * destruct (IH (page + 1) (addToMap m l) (tr ++ [url page])%list)
          as (n & Hn & Htr & Hstop).
        exists (S n). split; [lia|]. split.
        -- rewrite Htr. simpl. by rewrite <- app_assoc.
        -- intros [|i] l' Hl' Hshort.
           ++ replace (page + Z.of_nat 0) with page in Hl' by lia.
              rewrite Hy in Hl'. injection Hl' as <-. lia.
           ++ enough (n <= S i)%nat by lia. apply (Hstop i l'); auto.
              rewrite <- Hl'. f_equal. lia.
Qed.

(** The map of a crawl that ends without error holds the merged pages. *)
Lemma crawl_merged remaining page m tr m' :
  fst (crawl_ remaining page m tr) = (m', None) ->
  m' = addToMap m (concat (pagesMerged h city state neighborhood status remaining page)).
Proof.
  revert page m tr; induction remaining as [|remaining IH]; intros page m tr.
  - simpl. by intros [= <-].
  - rewrite crawl_step. cbv zeta. cbn [pagesMerged].
    destruct (yield page) as [l [err|]] eqn:Hy; simpl; [discriminate|].
    destruct (length l <? 20)%nat; simpl.
    + intros [= <-]. by rewrite app_nil_r.
    + intros H. rewrite (IH _ _ _ H). unfold addToMap. by rewrite foldl_app.
Qed.

(** A failure on a page that the crawl reaches ends the crawl with that
    page's error. *)
Lemma crawl_failure remaining page m tr (i : nat) err :
  (i < remaining)%nat ->
  (forall j, (j < i)%nat ->
     exists l, yield (page + Z.of_nat j) = (l, None) /\ (20 <= length l)%nat) ->
  snd (yield (page + Z.of_nat i)) = Some err ->
  snd (fst (crawl_ remaining page m tr)) = Some (pageError (page + Z.of_nat i) err).
Proof.
  revert page m tr i; induction remaining as [|remaining IH]; intros page m tr i Hi Hok Herr;
    [lia|].
  rewrite crawl_step. cbv zeta. destruct i as [|i].
  - replace (page + Z.of_nat 0) with page in * by lia.
    destruct (yield page) as [l [e|]]; simpl in *; [|discriminate].
    by injection Herr as ->.
  - destruct (Hok 0%nat ltac:(lia)) as (l & Hl & Hlong).
    replace (page + Z.of_nat 0) with page in Hl by lia. rewrite Hl.
    destruct (Nat.ltb_spec (length l) 20) as [|_]; [lia|].
    replace (page + Z.of_nat (S i)) with (page + 1 + Z.of_nat i) in * by lia.
    apply IH; auto; [lia|].
    intros j Hj. destruct (Hok (S j) ltac:(lia)) as (l' & Hl' & Hlong').
    exists l'. split; auto. rewrite <- Hl'. f_equal. lia.
Qed.

Lemma addToMap_Forall (P : Property -> Prop) m l :
  map_Forall (fun _ => P) m -> Forall P l -> map_Forall (fun _ => P) (addToMap m l).
Proof.
  unfold addToMap. revert m; induction l as [|p l IH]; intros m Hm Hl; simpl; [exact Hm|].
  apply Forall_cons in Hl as [Hp Hl]. apply IH; auto.
  case_bool_decide; auto. by apply map_Forall_insert_2.
Qed.

(** Whatever holds of every listing of every page text holds of the
    records in the map. *)
Lemma crawl_Forall (P : Property -> Prop) remaining page m tr :
  (forall text p, p ∈ pageListings text -> P p) ->
  map_Forall (fun _ => P) m ->
  map_Forall (fun _ => P) (fst (fst (crawl_ remaining page m tr))).
Proof.
  intros HP. revert page m tr; induction remaining as [|remaining IH]; intros page m tr Hm.
  - exact Hm.
  - rewrite crawl_step. cbv zeta.
    destruct (yield page) as [l [err|]] eqn:Hy; simpl; [exact Hm|].
    assert (Hl : Forall P l).
    { apply Forall_forall. intros p Hp.
      destruct (scrapePage_listings h (url page) p) as [text Ht]; [|eauto].
      unfold pageYield in Hy. by rewrite Hy. }
    destruct (length l <? 20)%nat; simpl.
    + by apply addToMap_Forall.
    + apply IH. by apply addToMap_Forall.
Qed.
End Crawl.

(** ** [ScrapeNeighborhood] *)

Lemma ScrapeNeighborhood_run h city state neighborhood status tr :
  ScrapeNeighborhood h city state neighborhood status tr =
  let run := crawl h city state neighborhood status 3 1 ∅ tr in
  (match snd (fst run) with
   | Some e => ([], Some e)
   | None => (snd <$> mapOrder h (fst (fst run)), None)
   end, snd run).
Proof.
  unfold ScrapeNeighborhood, mbind, Net_bind, bind. cbv zeta.
  destruct (crawl h city state neighborhood status 3 1 ∅ tr) as [[m [e|]] tr'];
    reflexivity.
Qed.

Lemma ScrapeNeighborhood_requested h city state neighborhood status :
  requested (ScrapeNeighborhood h city state neighborhood status)
  = snd (crawl h city state neighborhood status 3 1 ∅ []).
Proof. unfold requested. by rewrite ScrapeNeighborhood_run. Qed.

Lemma ScrapeNeighborhood_records h city state neighborhood status p :
  p ∈ fst (result (ScrapeNeighborhood h city state neighborhood status)) ->
  exists id, fst (fst (crawl h city state neighborhood status 3 1 ∅ [])) !! id = Some p.
Proof.
  unfold result. rewrite ScrapeNeighborhood_run. cbv zeta. cbn [fst].
  destruct (snd (fst (crawl h city state neighborhood status 3 1 ∅ []))); cbn [fst].
  - by intros ?%elem_of_nil.
  - intros ([id q] & -> & Hin)%list_elem_of_fmap.
    rewrite (rangeOver_perm (mapOrder h)) in Hin.
    apply elem_of_map_to_list in Hin. eauto.
Qed.

(** What holds of every listing of every page text holds of every record
    [ScrapeNeighborhood] returns. *)
Lemma ScrapeNeighborhood_Forall (P : Property -> Prop) h city state neighborhood status :
  (forall text p, p ∈ pageListings text -> P p) ->
  Forall P (fst (result (ScrapeNeighborhood h city state neighborhood status))).
Proof.
  intros HP. apply Forall_forall. intros p (id & Hid)%ScrapeNeighborhood_records.
  refine (crawl_Forall h city state neighborhood status P 3 1 ∅ [] HP _ id p Hid).
  apply map_Forall_empty.
Qed.

Lemma scrapePage_Forall (P : Property -> Prop) h url :
  (forall text p, p ∈ pageListings text -> P p) ->
  Forall P (fst (result (scrapePage h url))).
Proof.
  intros HP. apply Forall_forall. intros p (text & Hp)%scrapePage_listings. eauto.
Qed.

(** C3: every record of the text-proximity extractor, and so every
    record of the multi-page crawl, has a non-empty address and a strictly
    positive price. *)
Theorem C3_admission_rule :
  (forall pageText, Forall admitted (pageListings pageText))
  /\ (forall h url, Forall admitted (fst (result (scrapePage h url))))
  /\ (forall h city state neighborhood status,
        Forall admitted (fst (result (ScrapeNeighborhood h city state neighborhood status)))).
Proof.
  assert (H : forall text p, p ∈ pageListings text -> admitted p)
    by (intros text p Hp; apply (pageListings_each _ _ Hp)).
  split; [|split].
  - intros text. apply Forall_forall. eauto.
  - intros. by apply scrapePage_Forall.
  - intros. by apply ScrapeNeighborhood_Forall.
Qed.

(** C10: every record the text-proximity extractor admits, and so every
    record of the listing search, is a sold listing in Honolulu, HI 96822,
    whatever city, state, neighborhood and status were asked for. *)
Theorem C10_hardcoded_location :
  (forall pageText, Forall manoaSold (pageListings pageText))
  /\ (forall h url, Forall manoaSold (fst (result (scrapePage h url))))
  /\ (forall h city state neighborhood status,
        Forall manoaSold
          (fst (result (ScrapeNeighborhood h city state neighborhood status)))).
Proof.
  assert (H : forall text p, p ∈ pageListings text -> manoaSold p)
    by (intros text p Hp; apply (pageListings_each _ _ Hp)).
  split; [|split].
  - intros text. apply Forall_forall. eauto.
  - intros. by apply scrapePage_Forall.
  - intros. by apply ScrapeNeighborhood_Forall.
Qed.

(** C4: the crawl requests pages 1, 2, ... in this order, at most 3 of
    them, and none after the first page that yields fewer than 20 records;
    with 20, 20 and 5 records on pages 1 to 3 it requests exactly these
    three pages. *)
Theorem C4_pagination h city state neighborhood status :
  let url := neighborhoodURL city state neighborhood status in
  let yield := pageYield h city state neighborhood status in
  let fetched := requested (ScrapeNeighborhood h city state neighborhood status) in
  (exists n, (n <= 3)%nat /\ fetched = url <$> pageNumbers 1 n)
  /\ (forall (k : nat) l,
        (1 <= k)%nat -> yield (Z.of_nat k) = (l, None) -> (length l < 20)%nat ->
        (length fetched <= k)%nat)
  /\ (forall l1 l2 l3,
        yield 1 = (l1, None) -> yield 2 = (l2, None) -> yield 3 = (l3, None) ->
        length l1 = 20%nat -> length l2 = 20%nat -> length l3 = 5%nat ->
        fetched = [url 1; url 2; url 3]).
Proof.
  cbv zeta.
  destruct (crawl_requests h city state neighborhood status 3 1 ∅ [])
    as (n & Hn & Htr & Hstop).
  rewrite ScrapeNeighborhood_requested, Htr. cbn [app].
  assert (Hlen : forall first m, length (pageNumbers first m) = m).
  { intros first m; revert first; induction m; intros; simpl; auto. }
  split; [eauto|]. split.
  - intros k l Hk Hy Hshort. rewrite length_fmap, Hlen.
    destruct k as [|k]; [lia|]. apply (Hstop k l); auto.
    rewrite <- Hy. f_equal. lia.
  - intros l1 l2 l3 H1 H2 H3 L1 L2 L3.
    assert (n = 3)%nat as ->; [|reflexivity].
    destruct (scrapePage_success _ _ _ H1) as [R1 _].
    destruct (scrapePage_success _ _ _ H2) as [R2 _].
    destruct (scrapePage_success _ _ _ H3) as [R3 _].
    rewrite crawl_step in Htr. cbv zeta in Htr.
    rewrite H1, L1, R1 in Htr. change (20 <? 20)%nat with false in Htr. cbv iota in Htr.
    rewrite crawl_step in Htr. cbv zeta in Htr. change (1 + 1) with 2 in Htr.
    rewrite H2, L2, R2 in Htr. change (20 <? 20)%nat with false in Htr. cbv iota in Htr.
    rewrite crawl_step in Htr. cbv zeta in Htr. change (2 + 1) with 3 in Htr.
    rewrite H3, L3, R3 in Htr. change (5 <? 20)%nat with true in Htr. cbv iota in Htr.
    cbn [snd app] in Htr.
    apply (f_equal length) in Htr. rewrite length_fmap, Hlen in Htr. simpl in Htr. lia.
Qed.

(** ** Deduplication: last write wins *)

Lemma lastVersion_cons id p l :
  lastVersion id (p :: l) =
  match lastVersion id l with
  | Some q => Some q
  | None => if bool_decide (ID p = id) then Some p else None
  end.
Proof.
  unfold lastVersion. rewrite filter_cons.
  destruct (decide (ID p = id)) as [He|Hne].
  - rewrite bool_decide_eq_true_2 by done.
    destruct (filter (λ q, ID q = id) l) as [|q l'] eqn:E; [reflexivity|].
    change (last (p :: q :: l')) with (last (q :: l')).
    destruct (last (q :: l')) eqn:E'; [reflexivity|].
    by apply last_None in E'.
  - rewrite bool_decide_eq_false_2 by done. by destruct (last _).
Qed.

Lemma lastVersion_Some id l p :
  lastVersion id l = Some p -> p ∈ l /\ ID p = id.
Proof.
  unfold lastVersion. intros (l' & Hl)%last_Some.
  assert (Hin : p ∈ filter (λ q, ID q = id) l) by (rewrite Hl; set_solver).
  by apply list_elem_of_filter in Hin as [? ?].
Qed.

Lemma lastVersion_None id l :
  lastVersion id l = None <-> id ∉ ID <$> l.
Proof.
  induction l as [|p l IH].
  - split; [intros _ ?%elem_of_nil; done | reflexivity].
  - rewrite lastVersion_cons, fmap_cons, not_elem_of_cons.
    destruct (lastVersion id l) as [q|].
    + split; [discriminate|]. intros [_ Hl]. by apply IH in Hl.
    + case_bool_decide as He.
      * split; [discriminate|]. intros [Hne _]. by subst.
      * split; [|reflexivity]. intros _. split; [congruence | by apply IH].
Qed.

(** After the merge, an identifier maps to its last version among the
    merged records, or to what the map held before. *)
Lemma addToMap_lookup m l id :
  Forall (fun p => ID p <> "") l ->
  addToMap m l !! id =
  match lastVersion id l with Some p => Some p | None => m !! id end.
Proof.
  unfold addToMap. revert m; induction l as [|p l IH]; intros m Hl; [reflexivity|].
  apply Forall_cons in Hl as [Hp Hl]. cbn [foldl].
  rewrite bool_decide_eq_true_2 by done.
  rewrite IH, lastVersion_cons by done.
  destruct (lastVersion id l); [reflexivity|].
  case_bool_decide as He.
  - subst id. apply lookup_insert_eq.
  - by apply lookup_insert_ne.
Qed.

Lemma pagesMerged_identified h city state neighborhood status remaining page :
  Forall (fun p => ID p <> "")
    (concat (pagesMerged h city state neighborhood status remaining page)).
Proof.
  revert page; induction remaining as [|remaining IH]; intros page; simpl; [constructor|].
  apply Forall_app. split.
  - apply scrapePage_Forall. intros text p Hp. apply (pageListings_each _ _ Hp).
  - destruct (_ <? _)%nat; [constructor | apply IH].
Qed.

(** C5: after a crawl in which every page succeeds, the result holds one
    record per distinct identifier among the records the pages yielded,
    and each is the last version yielded for its identifier. *)
Theorem C5_last_write_wins h city state neighborhood status props :
  result (ScrapeNeighborhood h city state neighborhood status) = (props, None) ->
  let yielded := concat (pagesMerged h city state neighborhood status 3 1) in
  NoDup (ID <$> props)
  /\ ID <$> props ≡ₚ remove_dups (ID <$> yielded)
  /\ length props = length (remove_dups (ID <$> yielded))
  /\ (forall p, p ∈ props <-> lastVersion (ID p) yielded = Some p).
Proof.
  intros Hres yielded.
  unfold result in Hres. rewrite ScrapeNeighborhood_run in Hres. cbv zeta in Hres.
  cbn [fst] in Hres.
  destruct (crawl h city state neighborhood status 3 1 ∅ []) as [[m e] tr] eqn:Hc.
  cbn [fst snd] in Hres. destruct e as [e|]; [discriminate|].
  injection Hres as <-.
  assert (Hm : m = addToMap ∅ yielded).
  { apply (crawl_merged h city state neighborhood status 3 1 ∅ []). by rewrite Hc. }
  assert (Hlook : forall id, m !! id = lastVersion id yielded).
  { intros id. rewrite Hm, addToMap_lookup by apply pagesMerged_identified.
    destruct (lastVersion id yielded); [reflexivity | apply lookup_empty]. }
  assert (Hkey : forall id p, m !! id = Some p -> ID p = id).
  { intros id p. rewrite Hlook. by intros [_ ?]%lastVersion_Some. }
  assert (Hperm : snd <$> mapOrder h m ≡ₚ snd <$> map_to_list m)
    by (by rewrite (rangeOver_perm (mapOrder h))).
  assert (Hids : ID <$> (snd <$> map_to_list m) = fst <$> map_to_list m).
  { rewrite <- list_fmap_compose. apply list_fmap_ext.
    intros i [id p] Hi%list_elem_of_lookup_2%elem_of_map_to_list. simpl. eauto. }
  assert (Hnodup : NoDup (ID <$> (snd <$> mapOrder h m))).
  { rewrite Hperm, Hids. apply NoDup_fst_map_to_list. }
  assert (Hmem : forall p, p ∈ snd <$> mapOrder h m <-> lastVersion (ID p) yielded = Some p).
  { intros p. rewrite Hperm. split.
    - intros ([id q] & -> & Hin%elem_of_map_to_list)%list_elem_of_fmap.
      simpl. rewrite (Hkey _ _ Hin). by rewrite <- Hlook.
    - rewrite <- Hlook. intros Hin%elem_of_map_to_list.
      apply list_elem_of_fmap. by exists (ID p, p). }
  assert (Hsame : ID <$> (snd <$> mapOrder h m) ≡ₚ remove_dups (ID <$> yielded)).
  { apply NoDup_Permutation; [done | apply NoDup_remove_dups |].
    intros id. rewrite elem_of_remove_dups. split.
    - intros (p & -> & Hp%Hmem)%list_elem_of_fmap.
      apply lastVersion_Some in Hp as [Hp _]. apply list_elem_of_fmap. eauto.
    - intros Hin. destruct (lastVersion id yielded) as [p|] eqn:Hl.
      + destruct (lastVersion_Some _ _ _ Hl) as [_ <-].
        apply list_elem_of_fmap. exists p. split; [done|]. by apply Hmem.
      + by apply lastVersion_None in Hl. }
  split; [done|]. split; [done|]. split; [|done].
  rewrite <- (length_fmap ID). by rewrite Hsame.
Qed.

(** C6: when the fetch of a page the crawl reaches fails (the request
    cannot be built, transport error, status other than 200, unreadable
    body), [ScrapeNeighborhood] returns no record at all and an error that
    names the page. *)
Theorem C6_failure_aborts h city state neighborhood status (k : Z) err :
  1 <= k <= 3 ->
  (forall j, 1 <= j < k ->
     exists l, pageYield h city state neighborhood status j = (l, None)
               /\ (20 <= length l)%nat) ->
  fetchFailure h (neighborhoodURL city state neighborhood status k) err ->
  result (ScrapeNeighborhood h city state neighborhood status)
  = ([], Some ("failed to scrape page " +:+ pretty k +:+ ": " +:+ err)).
Proof.
  intros Hk Hok Hfail.
  unfold result. rewrite ScrapeNeighborhood_run. cbv zeta. cbn [fst].
  rewrite (crawl_failure h city state neighborhood status 3 1 ∅ [] (Z.to_nat (k - 1)) err).
  - replace (1 + Z.of_nat (Z.to_nat (k - 1))) with k by lia. reflexivity.
  - lia.
  - intros j Hj. apply Hok. lia.
  - replace (1 + Z.of_nat (Z.to_nat (k - 1))) with k by lia.
    unfold pageYield. by rewrite (scrapePage_failure _ _ _ Hfail).
Qed.

(** ** The detail page: the redfin grammar *)

Lemma Split_nonempty s sep : Split s sep <> [].
Proof.
  destruct s as [|c s]; simpl; [discriminate|].
  destruct (Ascii.eqb c sep); [discriminate|]. by destruct (Split s sep).
Qed.

Lemma Split_app s1 s2 sep :
  Split (s1 +:+ String sep s2) sep = (Split s1 sep ++ Split s2 sep)%list.
Proof.
  induction s1 as [|c s1 IH]; simpl.
  - by rewrite Ascii.eqb_refl.
  - destruct (Ascii.eqb c sep); [by rewrite IH|].
    rewrite IH. pose proof (Split_nonempty s1 sep).
    by destruct (Split s1 sep).
Qed.

(** The loop passes over the segments that do not pass the test, and at
    the first that does takes the state, the city after it, and from the
    segment after that the address and the postal code around its last
    hyphen. *)
Lemma redfinAddress_locates before st city segment after property i :
  Forall (fun part => stateSegment part = false) before ->
  stateSegment st = true ->
  LastIndex segment "-" = i -> 0 < i ->
  redfinAddress (before ++ st :: city :: segment :: after) property
  = setZipCode (slice segment (i + 1) (len segment))
      (setAddress (Join (Title <$> Split (slice segment 0 i) "-") " ")
         (setCity city (setState st property))).
Proof.
  intros Hb Hst Hi Hpos. induction Hb as [|part before Hpart _ IH]; simpl.
  - rewrite Hst, Hi. by destruct (Z.ltb_spec 0 i); [|lia].
  - by rewrite Hpart.
Qed.

Lemma redfinAddress_unpriced urlParts property :
  Price (redfinAddress urlParts property) = Price property
  /\ PricePerSqFt (redfinAddress urlParts property) = PricePerSqFt property.
Proof.
  induction urlParts as [|part rest IH]; simpl; [done|].
  destruct (stateSegment part); [|done].
  destruct rest as [|city [|segment after]]; simpl; try done.
  by destruct (0 <? _).
Qed.

(** On every failure of the fetch the redfin branch returns the record
    rebuilt from the URL, with its identifier. *)
Lemma scrapeRedfinProperty_blocked h url resp :
  client h (redfinRequest url) = http.Responded resp ->
  http.StatusCode resp <> 200 ->
  result (scrapeRedfinProperty h url)
  = (Some (assignID (redfinAddress (Split url "/") (setStatus "sold" zeroProperty))), None).
Proof.
  intros Hc Hs.
  unfold result, scrapeRedfinProperty, mbind, Net_bind, bind, Do, mret, Net_ret, ret.
  cbv zeta. destruct (newRequestError h url); [reflexivity|]. simpl. rewrite Hc.
  by destruct (Z.eqb_spec (http.StatusCode resp) 200).
Qed.

(** Where no segment before /HI/ passes the test of line 812 (two bytes
    that [strings.ToUpper] leaves as they are), a URL that ends in
    /HI/Honolulu/2819-Poelua-St-96822/home/88513618 and is answered with a
    status other than 200 gives the record of the scenario. *)
Lemma redfin_best_effort h pre resp :
  let url := pre +:+ "/HI/Honolulu/2819-Poelua-St-96822/home/88513618" in
  Contains url "redfin.com" = true ->
  Forall (fun part => stateSegment part = false) (Split pre "/") ->
  client h (redfinRequest url) = http.Responded resp ->
  http.StatusCode resp <> 200 ->
  exists p,
    result (ScrapePropertyDetail h url) = (Some p, None)
    /\ Address p = "2819 Poelua St" /\ City p = "Honolulu" /\ State p = "HI"
    /\ ZipCode p = "96822" /\ ID p = "prop_2819poeluasthonolulu" /\ ID p <> "".
Proof.
  intros url Hred Hpre Hresp Hcode.
  unfold ScrapePropertyDetail. rewrite Hred.
  rewrite (scrapeRedfinProperty_blocked h url resp Hresp Hcode).
  eexists. split; [reflexivity|].
  unfold url.
  change (pre +:+ "/HI/Honolulu/2819-Poelua-St-96822/home/88513618")
    with (pre +:+ String "/" "HI/Honolulu/2819-Poelua-St-96822/home/88513618").
  rewrite Split_app.
  change (Split "HI/Honolulu/2819-Poelua-St-96822/home/88513618" "/")
    with ["HI"; "Honolulu"; "2819-Poelua-St-96822"; "home"; "88513618"].
  rewrite (redfinAddress_locates _ "HI" "Honolulu" "2819-Poelua-St-96822" _ _ 14 Hpre);
    [|reflexivity|reflexivity|lia].
  repeat split; discriminate.
Qed.

(** C1: the test for the state segment (line 812) asks for two bytes that
    [strings.ToUpper] leaves unchanged, where the comment above it and the
    claim ask for two uppercase letters.  On the URL of the scenario with a
    segment "12" before /HI/, answered with 403, the code takes "12" as the
    state and "HI" as the city and finds no address: it returns, without
    error, a record with an empty address and the identifier "prop_hi",
    not the record the claim states.  On the URL of the scenario itself,
    and on it with the address segment in lower case, it returns the record
    of the claim, the address title-cased word by word. *)
Theorem C1_redfin_state_segment :
  stateSegment "12" = true
  /\ (exists p,
        result (ScrapePropertyDetail blocked digitsURL) = (Some p, None)
        /\ State p = "12" /\ City p = "HI" /\ Address p = "" /\ ZipCode p = ""
        /\ ID p = "prop_hi")
  /\ (exists p,
        result (ScrapePropertyDetail blocked poeluaURL) = (Some p, None)
        /\ Address p = "2819 Poelua St" /\ City p = "Honolulu" /\ State p = "HI"
        /\ ZipCode p = "96822" /\ ID p = "prop_2819poeluasthonolulu")
  /\ (exists p,
        result (ScrapePropertyDetail blocked lowerCaseURL) = (Some p, None)
        /\ Address p = "2819 Poelua St" /\ City p = "Honolulu" /\ State p = "HI"
        /\ ZipCode p = "96822" /\ ID p = "prop_2819poeluasthonolulu").
Proof.
  split; [reflexivity|].
  repeat split; eexists; (split; [vm_compute; reflexivity | repeat split]).
Qed.

(** ** Price per area *)

Lemma assignID_keeps p :
  Price (assignID p) = Price p /\ SquareFeet (assignID p) = SquareFeet p
  /\ PricePerSqFt (assignID p) = PricePerSqFt p.
Proof. done. Qed.

Lemma assignID_rule p : pricePerAreaRule p -> pricePerAreaRule (assignID p).
Proof. done. Qed.

Lemma parkingStep_unset pageText p :
  PricePerSqFt (parkingStep pageText p) = PricePerSqFt p.
Proof.
  unfold parkingStep.
  destruct (FindStringSubmatch _ _) as [|m [|g1 [|g2 rest]]]; try reflexivity;
    repeat case_bool_decide; reflexivity.
Qed.

Lemma featureStep_unset p feature :
  PricePerSqFt (featureStep p feature) = PricePerSqFt p.
Proof.
  unfold featureStep. cbv zeta.
  destruct (Contains _ "appliance"), (Contains _ "floor"),
    (Contains _ "cooling" || Contains _ "air"), (Contains _ "heating"); reflexivity.
Qed.

Lemma redfinFields_unset doc p :
  PricePerSqFt (redfinFields doc p) = PricePerSqFt p.
Proof.
  unfold redfinFields. cbv zeta. unfold assignID.
  cbn [PricePerSqFt setID setPropertyType].
  rewrite (foldl_keeps PricePerSqFt)
    by (intros x y; cbv zeta; repeat (destruct (_ && _)); reflexivity).
  assert (Hhood : forall q,
    PricePerSqFt
      (if bool_decide (City q = "Honolulu") && bool_decide (ZipCode q = "96822")
       then setNeighborhood "Manoa" q else q) = PricePerSqFt q)
    by (intros q; by destruct (_ && _)).
  rewrite Hhood. cbn [PricePerSqFt setFeatures].
  rewrite (foldl_keeps PricePerSqFt) by apply featureStep_unset.
  assert (Hdesc : forall q,
    PricePerSqFt
      (if bool_decide (Description q = "")
       then onSubmatch redfinPatterns.descRegex (goquery.Text doc)
              (fun g => setDescription (TrimSpace g)) q
       else q) = PricePerSqFt q).
  { intros q. case_bool_decide; [|reflexivity]. by keeps PricePerSqFt. }
  rewrite Hdesc.
  rewrite (foldl_keeps PricePerSqFt)
    by (intros x y; cbv zeta; destruct (_ && _); reflexivity).
  rewrite parkingStep_unset.
  by keeps PricePerSqFt.
Qed.

Lemma homesFields_unset doc p :
  PricePerSqFt (homesFields doc p) = PricePerSqFt p.
Proof.
  unfold homesFields. cbv zeta.
  assert (Hzip : forall q,
    PricePerSqFt
      (if bool_decide (City q = "Honolulu") && bool_decide (State q = "HI")
       then setZipCode "96822" q else q) = PricePerSqFt q)
    by (intros q; by destruct (_ && _)).
  rewrite Hzip.
  assert (Hid : forall q,
    PricePerSqFt (if bool_decide (Address q <> "") then assignID q else q)
    = PricePerSqFt q)
    by (intros q; by case_bool_decide).
  rewrite Hid. cbn [PricePerSqFt setPropertyType setFeatures].
  rewrite (foldl_keeps PricePerSqFt) by (intros x [y|]; reflexivity).
  by keeps PricePerSqFt.
Qed.

Lemma slugAddress_unpriced url p :
  Price (slugAddress url p) = Price p
  /\ PricePerSqFt (slugAddress url p) = PricePerSqFt p.
Proof.
  unfold slugAddress. cbv zeta.
  destruct (5 <=? _)%nat; [|done]. destruct (3 <=? _)%nat; [|done].
  destruct (slugScan _ _) as [[components city] state].
  destruct (0 <? _)%nat; repeat case_bool_decide; done.
Qed.

Lemma scrapeRedfinProperty_rule h url :
  from_option pricePerAreaRule True (fst (result (scrapeRedfinProperty h url))).
Proof.
  set (p := redfinAddress (Split url "/") (setStatus "sold" zeroProperty)).
  assert (Hfail : pricePerAreaRule (assignID p)).
  { apply assignID_rule.
    destruct (redfinAddress_unpriced (Split url "/") (setStatus "sold" zeroProperty))
      as [HP HPP].
    by apply pricePerAreaRule_unpriced. }
  unfold result, scrapeRedfinProperty, mbind, Net_bind, bind, Do, mret, Net_ret, ret.
  cbv zeta. fold p.
  destruct (newRequestError h url); [exact Hfail|]. simpl.
  destruct (client h (redfinRequest url)) as [|resp]; [exact Hfail|].
  destruct (negb (http.StatusCode resp =? 200)); [exact Hfail|].
  destruct (http.Body resp) as [|doc]; simpl; [exact Hfail|].
  apply pricePerSqFtStep_rule. rewrite redfinFields_unset.
  apply (redfinAddress_unpriced (Split url "/") (setStatus "sold" zeroProperty)).
Qed.

Lemma ScrapePropertyDetail_rule h url :
  from_option pricePerAreaRule True (fst (result (ScrapePropertyDetail h url))).
Proof.
  unfold ScrapePropertyDetail.
  destruct (Contains url "redfin.com"); [apply scrapeRedfinProperty_rule|].
  cbv zeta.
  set (p := slugAddress url (setStatus "sold" zeroProperty)).
  destruct (slugAddress_unpriced url (setStatus "sold" zeroProperty)) as [HP HPP].
  fold p in HP, HPP.
  assert (Hfail : pricePerAreaRule (assignID p))
    by (by apply assignID_rule, pricePerAreaRule_unpriced).
  assert (Hdirect : forall tr,
    from_option pricePerAreaRule True
      (fst (fst (match newRequestError h url with
                 | Some err => mret (None, Some err)
                 | None =>
                     out ← Do h (simpleRequest url);
                     match out with
                     | http.Failed _ => mret (Some (assignID p), None)
                     | http.Responded resp =>
                         if negb (http.StatusCode resp =? 200)
                         then mret (Some (assignID p), None)
                         else
                           match goquery.NewDocumentFromReader (http.Body resp) with
                           | (Some doc, None) => mret (Some (homesDetails doc p), None)
                           | (_, Some err) => mret (None, Some err)
                           | (None, None) => mret (None, None)
                           end
                     end
                 end tr)))).
  { intros tr. unfold mbind, Net_bind, bind, Do, mret, Net_ret, ret.
    destruct (newRequestError h url); [exact I|]. simpl.
    destruct (client h (simpleRequest url)) as [|resp]; [exact Hfail|].
    destruct (negb (http.StatusCode resp =? 200)); [exact Hfail|].
    destruct (http.Body resp) as [|doc]; simpl; [exact I|].
    apply pricePerSqFtStep_rule. by rewrite homesFields_unset. }
  unfold result. unfold mbind at 1. unfold Net_bind, bind.
  destruct (_ && _).
  - unfold ScrapeManoa, mbind, Net_bind, bind.
    destruct (ScrapeNeighborhood h "Honolulu" "HI" "manoa" "sold" []) as [[sold e] tr] eqn:Hs.
    assert (Hsold : Forall pricePerAreaRule sold).
    { replace sold with (fst (result (ScrapeNeighborhood h "Honolulu" "HI" "manoa" "sold")))
        by (unfold result; by rewrite Hs).
      apply ScrapeNeighborhood_Forall. intros text q Hq. apply (pageListings_each _ _ Hq). }
    destruct e as [e|]; unfold mret, Net_ret, ret; [apply Hdirect|].
    destruct (find _ sold) as [q|] eqn:Hfind; [|apply Hdirect].
    simpl. apply find_some in Hfind as [Hin _].
    rewrite Forall_forall in Hsold. apply Hsold. by apply list_elem_of_In.
  - unfold mret, Net_ret, ret. apply Hdirect.
Qed.

(** C7: on every extracted record the price per area is the integer
    quotient of price by area when both are strictly positive and is unset
    (zero) otherwise; 1,000,000 over 2,000 gives 500, and an area of 0
    leaves it unset. *)
Theorem C7_price_per_area :
  (forall pageText, Forall pricePerAreaRule (pageListings pageText))
  /\ (forall h url, Forall pricePerAreaRule (fst (result (scrapePage h url))))
  /\ (forall h city state neighborhood status,
        Forall pricePerAreaRule
          (fst (result (ScrapeNeighborhood h city state neighborhood status))))
  /\ (forall h url,
        from_option pricePerAreaRule True (fst (result (scrapeRedfinProperty h url))))
  /\ (forall h url,
        from_option pricePerAreaRule True (fst (result (ScrapePropertyDetail h url))))
  /\ PricePerSqFt (pricePerSqFtStep (setSquareFeet 2000 (setPrice 1000000 zeroProperty)))
     = 500
  /\ PricePerSqFt (pricePerSqFtStep (setSquareFeet 0 (setPrice 1000000 zeroProperty)))
     = 0.
Proof.
  assert (H : forall text p, p ∈ pageListings text -> pricePerAreaRule p)
    by (intros text p Hp; apply (pageListings_each _ _ Hp)).
  split; [intros text; apply Forall_forall; eauto|].
  split; [intros; by apply scrapePage_Forall|].
  split; [intros; by apply ScrapeNeighborhood_Forall|].
  split; [apply scrapeRedfinProperty_rule|].
  split; [apply ScrapePropertyDetail_rule|].
  split; reflexivity.
Qed.

(** ** The statistics fallback *)

Lemma asciiTokens_app a b :
  utf8.asciiTokens (a +:+ b) = (utf8.asciiTokens a ++ utf8.asciiTokens b)%list.
Proof. induction a as [|x a IH]; simpl; [done | by rewrite IH]. Qed.

Lemma allRunes_asciiTokens p X : allRunes p (utf8.asciiTokens X) = allBytes (onByte p) X.
Proof. unfold allRunes. induction X as [|a X IH]; simpl; [done | by rewrite IH]. Qed.

Lemma isASCII_digits X : allBytes isDigit X = true -> isASCII X = true.
Proof.
  unfold isASCII. induction X as [|a X IH]; simpl; [done|].
  intros [Ha HX]%andb_true_iff. rewrite (IH HX), andb_true_r.
  unfold isDigit, inRange in Ha. apply andb_true_iff in Ha as [_ Ha].
  apply N.leb_le in Ha. apply N.ltb_lt. unfold utf8.RuneSelf. lia.
Qed.

(** Well-formed runes of an ASCII class are the tokens of their bytes. *)
Lemma allRunes_ascii p (l : list utf8.token) :
  (forall r, p r = true -> (r < 128)%N) ->
  Forall utf8.wellFormed l -> allRunes p l = true ->
  l = utf8.asciiTokens (utf8.bytes l) /\ allBytes (onByte p) (utf8.bytes l) = true.
Proof.
  intros Hp Hwf. unfold allRunes. induction Hwf as [|t l Ht Hl IH]; [done|].
  simpl. intros [Hpt Hall]%andb_true_iff. destruct (IH Hall) as [IH1 IH2].
  destruct Ht as [(a & Ha & ->)|(Hr & _)].
  - cbn. split; [by rewrite <- IH1|]. unfold onByte at 1. simpl in Hpt. by rewrite Hpt.
  - apply Hp in Hpt. unfold utf8.RuneSelf in Hr. lia.
Qed.

Lemma cDigit_ascii r : cDigit r = true -> (r < 128)%N.
Proof.
  unfold cDigit, unicode.between. intros [_ H]%andb_true_iff. apply N.leb_le in H. lia.
Qed.

(** Where [down ([0-9]+)%] matches, the input reads "down X%" for a decimal
    number X. *)
Lemma down_sound c s c' s' :
  Forall utf8.wellFormed s ->
  run statsPatterns.downRegex c s accept = Some (c', s') ->
  exists X, s = (utf8.asciiTokens ("down " +:+ X +:+ "%") ++ s')%list /\ decimal X.
Proof.
  intros Hwf. unfold statsPatterns.downRegex. cbn [cat run].
  intros (s1 & -> & Hrun)%run_lit_sound; [|reflexivity|exact Hwf].
  apply Forall_app in Hwf as [_ Hwf1].
  unfold many1 in Hrun. cbn [run] in Hrun.
  apply rep_sound in Hrun as (Xt & rest & -> & HX & Hlen & Hk).
  apply Forall_app in Hwf1 as [HwfX Hwfr].
  cbn [run byte] in Hk. destruct rest as [|t rest]; [discriminate|].
  destruct (N.eqb_spec (code "%") (utf8.t_rune t)) as [He|]; [|discriminate].
  apply Forall_cons in Hwfr as [Ht _].
  assert (t = utf8.asciiToken "%") as -> by (apply wellFormed_ascii; [done | done | done]).
  unfold accept in Hk. injection Hk as <- <-.
  destruct (allRunes_ascii cDigit Xt cDigit_ascii HwfX HX) as [HXt HXb].
  exists (utf8.bytes Xt). split.
  - rewrite !asciiTokens_app, <- HXt. by rewrite <- !app_assoc.
  - split; [|exact HXb]. intros Hnil. rewrite HXt, Hnil in Hlen. simpl in Hlen. lia.
Qed.

Lemma down_complete c X rest :
  decimal X ->
  exists c',
    run statsPatterns.downRegex c (utf8.asciiTokens ("down " +:+ X +:+ "%") ++ rest)%list accept
    = Some (c', rest)
    /\ cur_pos c' = (cur_pos c + 6 + String.length X)%nat
    /\ cur_caps c'
       = (1%nat, ((cur_pos c + 5)%nat, (cur_pos c + 5 + String.length X)%nat)) :: cur_caps c.
Proof.
  intros [Hne HX].
  unfold statsPatterns.downRegex. cbn [cat run].
  rewrite !asciiTokens_app, <- !app_assoc. rewrite run_lit_hit.
  unfold many1. cbn [run].
  eexists. split; [|split].
  - apply rep_greedy_longest;
      [by rewrite allRunes_asciiTokens | reflexivity
      | rewrite length_asciiTokens; destruct X; [contradiction | simpl; lia] |].
    cbn [run byte utf8.asciiTokens app utf8.asciiToken utf8.t_rune].
    rewrite N.eqb_refl. reflexivity.
  - cbn [advance closeGroup cur_pos]. rewrite !advanceOver_pos, !bytes_asciiTokens.
    unfold utf8.width. simpl. lia.
  - cbn [advance closeGroup cur_pos cur_caps].
    rewrite !advanceOver_pos, !advanceOver_caps, !bytes_asciiTokens.
    simpl. repeat f_equal; lia.
Qed.

Lemma decimal_ascii X : decimal X -> isASCII X = true.
Proof. intros [_ HX]. by apply isASCII_digits. Qed.

Lemma isASCII_app a b : isASCII (a +:+ b) = isASCII a && isASCII b.
Proof. apply allBytes_app. Qed.

(** The runes of a text that reads "down X%" at some place. *)
Lemma runes_down pre X post :
  decimal X ->
  utf8.runes (pre +:+ "down " +:+ X +:+ "%" +:+ post)
  = (utf8.runes pre ++ utf8.asciiTokens ("down " +:+ X +:+ "%") ++ utf8.runes post)%list.
Proof.
  intros HX. rewrite runes_app by (by apply boundary_ascii).
  f_equal.
  replace ("down " +:+ X +:+ "%" +:+ post) with (("down " +:+ X +:+ "%") +:+ post)
    by (by rewrite !app_assoc_s).
  apply runes_ascii. rewrite !isASCII_app, (decimal_ascii X HX). reflexivity.
Qed.

(** The pattern finds the first "down X%" of the text and captures X. *)
Lemma FindStringSubmatch_down text X :
  firstDown text X ->
  FindStringSubmatch statsPatterns.downRegex text = ["down " +:+ X +:+ "%"; X].
Proof.
  intros (i & (pre & post & Htext & Hi & HX) & Hmin).
  unfold FindStringSubmatch. rewrite Htext at 1. rewrite (runes_down pre X post HX).
  set (D := "down " +:+ X +:+ "%").
  rewrite search_skip.
  - destruct (down_complete (advanceOver start (utf8.runes pre)) X (utf8.runes post) HX)
      as (c' & Hrun & Hpos & Hcaps).
    fold D in Hrun.
    rewrite (search_here _ _ _ _ _ Hrun).
    cbn [fmap option_fmap option_map].
    destruct (skipAll_fields (utf8.runes pre)
      (Found [] (take (length (utf8.asciiTokens D ++ utf8.runes post)
                       - length (utf8.runes post))
                   (utf8.asciiTokens D ++ utf8.runes post)%list) c' (utf8.runes post)))
      as (_ & -> & -> & _).
    cbn [f_text f_end]. rewrite Hcaps.
    rewrite !advanceOver_pos, advanceOver_caps, bytes_runes. cbn [start cur_pos cur_caps].
    f_equal.
    + rewrite length_app.
      replace (length (utf8.asciiTokens D) + length (utf8.runes post)
               - length (utf8.runes post))%nat
        with (length (utf8.asciiTokens D)) by lia.
      rewrite take_app_length. apply bytes_asciiTokens.
    + change (groups statsPatterns.downRegex) with 1%nat. cbn [seq map].
      unfold groupText. cbn [lookupGroup Nat.eqb].
      f_equal. rewrite Htext.
      replace (0 + String.length pre + 5)%nat with (String.length (pre +:+ "down "))
        by (rewrite length_app_s; simpl; lia).
      rewrite <- (app_assoc_s pre "down "), dropBytes_app.
      replace (String.length (pre +:+ "down ") + String.length X
               - String.length (pre +:+ "down "))%nat
        with (String.length X) by lia.
      apply takeBytes_app.
  - intros p1 p2 Hp Hp2.
    destruct (run statsPatterns.downRegex (advanceOver start p1)
                (p2 ++ utf8.asciiTokens D ++ utf8.runes post)%list accept)
      as [[c' s']|] eqn:Hrun; [|reflexivity].
    exfalso.
    pose proof (runes_wellFormed text) as Hwf.
    rewrite Htext, (runes_down pre X post HX), Hp, <- app_assoc in Hwf. fold D in Hwf.
    apply Forall_app in Hwf as [Hwf1 Hwf2].
    apply (down_sound _ _ _ _ Hwf2) in Hrun as (X' & Hs & HX').
    assert (Hbytes : text = utf8.bytes p1 +:+ "down " +:+ X' +:+ "%" +:+ utf8.bytes s').
    { rewrite <- (bytes_runes text), Htext, (runes_down pre X post HX), Hp, <- app_assoc.
      fold D. rewrite bytes_app, Hs, bytes_app, bytes_asciiTokens.
      by rewrite !app_assoc_s. }
    assert (Hle : (i <= String.length (utf8.bytes p1))%nat).
    { apply (Hmin _ X'). exists (utf8.bytes p1), (utf8.bytes s'). auto. }
    assert (Hpre : pre = utf8.bytes p1 +:+ utf8.bytes p2)
      by (by rewrite <- (bytes_runes pre), Hp, bytes_app).
    apply Forall_app in Hwf2 as [Hwfp2 _].
    pose proof (bytes_nonempty p2 Hwfp2 Hp2) as Hne2.
    rewrite <- Hi, Hpre, length_app_s in Hle.
    destruct (utf8.bytes p2); [contradiction | simpl in Hle; lia].
Qed.

(** On "X%" for a decimal X the percent parser returns
    [strconv.ParseFloat(X, 64)]. *)
Lemma parsePercent_decimal X : decimal X -> parsePercent (X +:+ "%") = FParse X.
Proof.
  intros HX. pose proof HX as [Hne HXd]. unfold parsePercent. cbv zeta.
  assert (Hfind : FindString (cat [Opt (byte "-"); many1 cDigit; Opt (byte "."); many cDigit])
                    (X +:+ "%") = X).
  { unfold FindString. rewrite (runes_ascii X "%" (decimal_ascii X HX)).
    change (utf8.runes "%") with [utf8.asciiToken "%"].
    assert (Hrun : run (cat [Opt (byte "-"); many1 cDigit; Opt (byte "."); many cDigit])
                     start (utf8.asciiTokens X ++ [utf8.asciiToken "%"])%list accept
                   = Some (advanceOver start (utf8.asciiTokens X), [utf8.asciiToken "%"])).
    { cbn [cat run]. destruct X as [|d X']; [contradiction|].
      simpl in HXd. apply andb_true_iff in HXd as [Hd HX'].
      unfold byte at 1. cbn [run utf8.asciiTokens app utf8.asciiToken utf8.t_rune].
      assert (Hminus : (code "-" =? code d)%N = false).
      { apply N.eqb_neq. intros He. unfold isDigit, inRange in Hd. rewrite <- He in Hd.
        discriminate. }
      rewrite Hminus.
      unfold many1. cbn [run].
      apply (rep_greedy_longest cDigit 1 start (utf8.asciiTokens (String d X'))
               [utf8.asciiToken "%"]).
      - rewrite allRunes_asciiTokens. change (isDigit d && allBytes isDigit X' = true).
        by rewrite Hd, HX'.
      - reflexivity.
      - simpl; lia.
      - reflexivity. }
    rewrite (search_here _ _ _ _ _ Hrun). cbn [f_text].
    rewrite length_app. cbn [length].
    replace (length (utf8.asciiTokens X) + 1 - 1)%nat with (length (utf8.asciiTokens X)) by lia.
    rewrite take_app_length. apply bytes_asciiTokens. }
  rewrite Hfind. by rewrite bool_decide_eq_false_2.
Qed.

(** Without a "down X%" for a decimal X the pattern finds nothing. *)
Lemma FindStringSubmatch_no_down text :
  (forall i X, ~ downAt text i X) ->
  FindStringSubmatch statsPatterns.downRegex text = [].
Proof.
  intros Hnone. unfold FindStringSubmatch.
  destruct (search statsPatterns.downRegex start (utf8.runes text)) as [m|] eqn:E;
    [|reflexivity].
  exfalso. destruct (search_found _ _ _ _ E) as [Hs Hrun].
  pose proof (runes_wellFormed text) as Hwf. rewrite Hs in Hwf.
  apply Forall_app in Hwf as [_ Hwf].
  apply (down_sound _ _ _ _ Hwf) in Hrun as (X & Hm & HX).
  apply (Hnone (String.length (utf8.bytes (f_skipped m))) X).
  exists (utf8.bytes (f_skipped m)), (utf8.bytes (f_rest m)). repeat split; try apply HX.
  rewrite <- (bytes_runes text), Hs, bytes_app, Hm, bytes_app, bytes_asciiTokens.
  by rewrite !app_assoc_s.
Qed.

Lemma onSubmatch_sets {A B : Type} (proj : A -> B) re text (f : string -> A -> A)
    (v : string -> B) a :
  (forall g x, proj (f g x) = v g) ->
  proj (onSubmatch re text f a) = onSubmatch re text (fun g _ => v g) (proj a).
Proof.
  intros H. unfold onSubmatch.
  destruct (FindStringSubmatch re text) as [|m [|g l]]; auto.
Qed.

Ltac sets proj :=
  cbv zeta; repeat (rewrite (onSubmatch_keeps proj) by reflexivity);
  erewrite (onSubmatch_sets proj) by (intros; cbn; reflexivity);
  repeat (rewrite (onSubmatch_keeps proj) by reflexivity); try reflexivity.

(** Each metric of the fallback depends on its own pattern alone: it is
    the parsed capture when the pattern matches the text and keeps its
    value otherwise. *)
Lemma statsFromText_independent homesRegex text stats :
  let final := statsFromText homesRegex text stats in
  MedianSalePrice final
  = onSubmatch statsPatterns.medianRegex text (fun g _ => parsePrice g)
      (MedianSalePrice stats)
  /\ AveragePricePerSqFt final
     = onSubmatch statsPatterns.averageRegex text (fun g _ => parsePrice g)
         (AveragePricePerSqFt stats)
  /\ AverageDaysOnMarket final
     = onSubmatch statsPatterns.daysRegex text (fun g _ => parseInt g)
         (AverageDaysOnMarket stats)
  /\ YearOverYearChange final
     = onSubmatch statsPatterns.downRegex text (fun g _ => FNeg (parsePercent (g +:+ "%")))
         (YearOverYearChange stats)
  /\ HomesForSale final
     = onSubmatch homesRegex text (fun g _ => parseInt g) (HomesForSale stats)
  /\ SalesLast12Months final
     = onSubmatch statsPatterns.salesRegex text (fun g _ => parseInt g)
         (SalesLast12Months stats)
  /\ MedianSingleFamilyPrice final = MedianSingleFamilyPrice stats
  /\ MedianTownhousePrice final = MedianTownhousePrice stats
  /\ Area final = Area stats /\ Timestamp final = Timestamp stats.
Proof.
  unfold statsFromText.
  repeat split;
    [sets MedianSalePrice | sets AveragePricePerSqFt | sets AverageDaysOnMarket
    | sets YearOverYearChange | sets HomesForSale | sets SalesLast12Months
    | keeps MedianSingleFamilyPrice | keeps MedianTownhousePrice | keeps Area
    | keeps Timestamp].
Qed.

Lemma statsFromText_down homesRegex text stats X :
  firstDown text X ->
  YearOverYearChange (statsFromText homesRegex text stats) = FNeg (FParse X).
Proof.
  intros Hdown.
  destruct (statsFromText_independent homesRegex text stats) as (_ & _ & _ & -> & _).
  unfold onSubmatch. rewrite (FindStringSubmatch_down text X Hdown).
  destruct Hdown as (i & (pre & post & _ & _ & HX) & _).
  by rewrite (parsePercent_decimal X HX).
Qed.

Lemma fetchStats_parsed h url homesRegex area resp doc :
  newRequestError h url = None ->
  client h (simpleRequest url) = http.Responded resp ->
  http.Body resp = goquery.Html doc ->
  result (fetchStats h url homesRegex area)
  = (Some (extractStats homesRegex area (now h) doc), None).
Proof.
  intros Hreq Hresp Hbody.
  unfold result, fetchStats, mbind, Net_bind, bind, Do, mret, Net_ret, ret.
  rewrite Hreq. simpl. by rewrite Hresp, Hbody.
Qed.

(** Without a "down X%" for a decimal X the fallback leaves the change as
    it was. *)
Lemma statsFromText_no_down homesRegex text stats :
  (forall i X, ~ downAt text i X) ->
  YearOverYearChange (statsFromText homesRegex text stats) = YearOverYearChange stats.
Proof.
  intros Hnone.
  destruct (statsFromText_independent homesRegex text stats) as (_ & _ & _ & -> & _).
  unfold onSubmatch. by rewrite (FindStringSubmatch_no_down text Hnone).
Qed.

(** C8 (amended): in the statistics extractor the free-text patterns are
    applied exactly when the labelled rows left the median sale price at
    zero; then each metric follows its own pattern alone.  The pattern of
    the year-over-year change reads the first "down X%" of the page in
    which X is a non-empty run of decimal digits and sets the change to
    -X; a page with no such place leaves the change as the rows left
    it. *)
Theorem C8_stats_fallback h city state neighborhood resp doc :
  let url := "https://www.homes.com/" +:+ (ToLower city +:+ "-" +:+ ToLower state)
             +:+ "/" +:+ ToLower (ReplaceAll neighborhood " " "-")
             +:+ "-neighborhood/sold/" in
  let text := goquery.Text doc in
  let table :=
    statsFromTable doc
      (blankStats (neighborhood +:+ ", " +:+ city +:+ ", " +:+ state) (now h)) in
  newRequestError h url = None ->
  client h (simpleRequest url) = http.Responded resp ->
  http.Body resp = goquery.Html doc ->
  exists final,
    result (ScrapeNeighborhoodStats h city state neighborhood) = (Some final, None)
    /\ (MedianSalePrice table <> 0 -> final = table)
    /\ (MedianSalePrice table = 0 ->
        final = statsFromText statsPatterns.forSaleRegex text table
        /\ MedianSalePrice final
           = onSubmatch statsPatterns.medianRegex text (fun g _ => parsePrice g) 0
        /\ AveragePricePerSqFt final
           = onSubmatch statsPatterns.averageRegex text (fun g _ => parsePrice g)
               (AveragePricePerSqFt table)
        /\ AverageDaysOnMarket final
           = onSubmatch statsPatterns.daysRegex text (fun g _ => parseInt g)
               (AverageDaysOnMarket table)
        /\ YearOverYearChange final
           = onSubmatch statsPatterns.downRegex text
               (fun g _ => FNeg (parsePercent (g +:+ "%"))) (YearOverYearChange table)
        /\ HomesForSale final
           = onSubmatch statsPatterns.forSaleRegex text (fun g _ => parseInt g)
               (HomesForSale table)
        /\ SalesLast12Months final
           = onSubmatch statsPatterns.salesRegex text (fun g _ => parseInt g)
               (SalesLast12Months table)
        /\ (forall X, firstDown text X -> YearOverYearChange final = FNeg (FParse X))
        /\ ((forall i X, ~ downAt text i X) ->
            YearOverYearChange final = YearOverYearChange table)).
Proof.
  intros url text table Hreq Hresp Hbody.
  exists (extractStats statsPatterns.forSaleRegex
            (neighborhood +:+ ", " +:+ city +:+ ", " +:+ state) (now h) doc).
  split.
  - unfold ScrapeNeighborhoodStats. cbv zeta.
    by apply (fetchStats_parsed h _ _ _ resp doc).
  - unfold extractStats. cbv zeta. fold table text.
    destruct (Z.eqb_spec (MedianSalePrice table) 0) as [Hzero|Hset].
    + split; [contradiction|]. intros _. split; [reflexivity|].
      destruct (statsFromText_independent statsPatterns.forSaleRegex text table)
        as (Hm & Ha & Hd & Hy & Hh & Hs & _).
      rewrite Hzero in Hm.
      repeat split; auto.
      * intros X HX. by apply statsFromText_down.
      * intros Hnone. by apply statsFromText_no_down.
    + split; [reflexivity | contradiction].
Qed.

(** C9: the statistics extractors do not look at the status of the
    response.  Against a site that answers every request with 403 and an
    HTML error page, both return a statistics record and no error, where
    [scrapePage] reports "HTTP 403". *)
Theorem C9_stats_status_unchecked :
  result (ScrapeNeighborhoodStats blocked "Honolulu" "HI" "manoa")
  = (Some (blankStats "manoa, Honolulu, HI" "2024-01-01T00:00:00Z"), None)
  /\ result (ScrapeMarketStats blocked "Honolulu" "HI")
     = (Some (blankStats "Honolulu, HI" "2024-01-01T00:00:00Z"), None)
  /\ result (scrapePage blocked (manoaPage 1)) = ([], Some "HTTP 403: 403 Forbidden").
Proof. repeat split; vm_compute; reflexivity. Qed.

End Proofs.

(** * Properties beyond the specification *)

Section Beyond.
Context {tables : unicode.Tables}.

(** ** The field parsers *)

Lemma digitsValue_nonneg acc s : 0 <= acc -> 0 <= digitsValue acc s.
Proof.
  revert acc; induction s as [|c s IH]; intros acc Hacc; simpl; [exact Hacc|].
  apply IH. lia.
Qed.

(** On a run of digits [strconv.Atoi] reads the decimal value, cut at the
    largest [int]. *)
Lemma Atoi_digits s :
  allBytes isDigit s = true ->
  Atoi s = if bool_decide (s = "") then 0 else decimalValue s.
Proof.
  intros Hs. destruct s as [|d s]; [reflexivity|].
  rewrite bool_decide_eq_false_2 by discriminate.
  unfold Atoi, decimalValue. pose proof Hs as Hs'. simpl in Hs'.
  apply andb_true_iff in Hs' as [Hd _].
  assert (Hminus : d <> "-"%char) by (intros ->; discriminate).
  assert (Hplus : d <> "+"%char) by (intros ->; discriminate).
  assert (Hcase :
    match String d s with
    | String "-"%char s' => (true, s')
    | String "+"%char s' => (false, s')
    | _ => (false, String d s)
    end = (false, String d s)).
  { destruct d as [[] [] [] [] [] [] [] []]; try reflexivity; congruence. }
  rewrite Hcase. by rewrite Hs.
Qed.

Lemma Atoi_digits_range s :
  allBytes isDigit s = true -> 0 <= Atoi s <= maxInt64.
Proof.
  intros Hs. rewrite (Atoi_digits s Hs). unfold decimalValue. case_bool_decide.
  - unfold maxInt64; lia.
  - pose proof (digitsValue_nonneg 0 s ltac:(lia)). unfold maxInt64 in *. lia.
Qed.

Lemma allBytes_impl (p q : ascii -> bool) s :
  (forall c, p c = true -> q c = true) -> allBytes p s = true -> allBytes q s = true.
Proof.
  intros H. induction s as [|c s IH]; simpl; [auto|].
  intros [Hc Hs]%andb_true_iff. rewrite (H c Hc). simpl. auto.
Qed.

Lemma code_inj a b : code a = code b -> a = b.
Proof.
  unfold code. intros H. apply (f_equal ascii_of_N) in H.
  by rewrite !ascii_N_embedding in H.
Qed.

Lemma uncomma_digits s :
  allBytes (onByte cDigitComma) s = true ->
  allBytes isDigit (filterBytes (fun c => negb (Ascii.eqb c ",")) s) = true.
Proof.
  induction s as [|c s IH]; simpl; [auto|].
  intros [Hc Hs]%andb_true_iff. unfold onByte, cDigitComma in Hc.
  destruct (Ascii.eqb_spec c ",") as [->|Hne]; simpl; [auto|].
  apply orb_true_iff in Hc as [Hc|Hc].
  - change (isDigit c = true) in Hc. rewrite Hc. simpl. auto.
  - exfalso. apply Hne. unfold cIs in Hc. apply N.eqb_eq in Hc. by apply code_inj.
Qed.

Lemma cDigitComma_ascii r : cDigitComma r = true -> (r < 128)%N.
Proof.
  unfold cDigitComma. intros [H|H]%orb_true_iff; [by apply cDigit_ascii|].
  unfold cIs in H. apply N.eqb_eq in H. subst r. reflexivity.
Qed.

(** What [re.FindString] returns for [x+] over a class of ASCII: bytes of
    the class. *)
Lemma FindString_many1 p s :
  (forall r, p r = true -> (r < 128)%N) ->
  allBytes (onByte p) (FindString (many1 p) s) = true.
Proof.
  intros Hp. unfold FindString. pose proof (search_many1 p start (utf8.runes s)) as H.
  destruct (search (many1 p) start (utf8.runes s)) as [m|]; [|reflexivity].
  destruct H as (Hs & _ & Hall & _).
  pose proof (runes_wellFormed s) as Hwf. rewrite Hs in Hwf.
  apply Forall_app in Hwf as [_ Hwf]. apply Forall_app in Hwf as [Hwf _].
  by destruct (allRunes_ascii p _ Hp Hwf Hall).
Qed.

Lemma parsePrice_range s : 0 <= parsePrice s <= maxInt64.
Proof.
  unfold parsePrice. cbv zeta. case_bool_decide; [unfold maxInt64; lia|].
  apply Atoi_digits_range, uncomma_digits, FindString_many1, cDigitComma_ascii.
Qed.

Lemma parseInt_range s : 0 <= parseInt s <= maxInt64.
Proof.
  unfold parseInt. cbv zeta. case_bool_decide; [unfold maxInt64; lia|].
  apply Atoi_digits_range. apply (FindString_many1 cDigit s cDigit_ascii).
Qed.

(** X1: the integer parsers never return a negative number nor one past
    the largest [int], whatever the text: a sign before the digits is
    passed over, and a run of digits too long for an [int] is cut at the
    largest one. *)
Theorem parsers_range (s : string) :
  0 <= parsePrice s <= maxInt64 /\ 0 <= parseInt s <= maxInt64.
Proof. split; [apply parsePrice_range | apply parseInt_range]. Qed.

(** The runes of bytes outside an ASCII class are outside the class. *)
Lemma allRunes_outside p (l : list utf8.token) :
  (forall r, p r = true -> (r < 128)%N) ->
  Forall utf8.wellFormed l ->
  allBytes (onByte (cNot p)) (utf8.bytes l) = true -> allRunes (cNot p) l = true.
Proof.
  intros Hp. unfold allRunes. induction 1 as [|t l Ht Hl IH]; [done|].
  cbn [utf8.bytes forallb]. rewrite allBytes_app. intros [Hb Hrest]%andb_true_iff.
  rewrite (IH Hrest), andb_true_r.
  destruct Ht as [(a & Ha & ->)|(Hr & _)].
  - cbn in Hb |- *. by rewrite andb_true_r in Hb.
  - unfold cNot. destruct (p (utf8.t_rune t)) eqn:E; [|done].
    apply Hp in E. unfold utf8.RuneSelf in Hr. lia.
Qed.

Lemma leading_runes p s :
  (forall r, p r = true -> (r < 128)%N) ->
  leading p (utf8.runes s) = startsIn p s.
Proof.
  intros Hp. destruct s as [|a s]; [reflexivity|].
  destruct (N.ltb_spec (code a) 128) as [Hlt|Hge].
  - by rewrite runes_ascii_cons.
  - rewrite runes_unfold by done. cbn [leading utf8.t_rune startsIn].
    pose proof (DecodeRuneInString_wellFormed (String a s) ltac:(done)) as Hwf.
    pose proof (DecodeRuneInString_width (String a s) ltac:(done)) as Hw.
    destruct (utf8.DecodeRuneInString (String a s)) as [r n]. cbn [fst snd] in *.
    assert (Hr : (128 <= r)%N).
    { destruct Hwf as [(b & Hb & Heq)|(Hr & _)]; [|exact Hr].
      exfalso. apply (f_equal utf8.t_bytes) in Heq.
      cbn [utf8.t_bytes utf8.asciiToken] in Heq.
      destruct n as [|n]; simpl in Heq; [discriminate|].
      injection Heq as -> _. unfold utf8.RuneSelf in Hb. lia. }
    unfold onByte.
    destruct (p r) eqn:E1; destruct (p (code a)) eqn:E2; try reflexivity.
    + apply Hp in E1. lia.
    + apply Hp in E2. lia.
Qed.

Lemma onByte_ascii p X :
  (forall r, p r = true -> (r < 128)%N) ->
  allBytes (onByte p) X = true -> isASCII X = true.
Proof.
  intros Hp. unfold isASCII. apply allBytes_impl. intros c Hc.
  apply N.ltb_lt. unfold utf8.RuneSelf. by apply Hp.
Qed.

(** The leftmost run: bytes outside the class are passed over, and the run
    goes on as long as the class does. *)
Lemma FindString_first_run p pre X post :
  (forall r, p r = true -> (r < 128)%N) ->
  allBytes (onByte (cNot p)) pre = true -> X <> "" -> allBytes (onByte p) X = true ->
  startsIn p post = false ->
  FindString (many1 p) (pre +:+ X +:+ post) = X.
Proof.
  intros Hp Hpre Hne HX Hpost. unfold FindString.
  assert (Hb : utf8.boundary (X +:+ post)).
  { destruct X as [|x X]; [done|]. simpl in HX. apply andb_true_iff in HX as [Hx _].
    apply boundary_ascii. by apply Hp. }
  rewrite (runes_app pre _ Hb), (runes_ascii X post (onByte_ascii p X Hp HX)).
  assert (Hout : allRunes (cNot p) (utf8.runes pre) = true).
  { apply allRunes_outside; [exact Hp | apply runes_wellFormed | by rewrite bytes_runes]. }
  rewrite search_skip.
  - assert (Hrun : run (many1 p) (advanceOver start (utf8.runes pre))
                     (utf8.asciiTokens X ++ utf8.runes post)%list accept
                   = Some (advanceOver (advanceOver start (utf8.runes pre))
                             (utf8.asciiTokens X), utf8.runes post)).
    { unfold many1. cbn [run]. apply rep_greedy_longest; auto.
      - by rewrite allRunes_asciiTokens.
      - by rewrite leading_runes.
      - rewrite length_asciiTokens. destruct X; [contradiction | simpl; lia]. }
    rewrite (search_here _ _ _ _ _ Hrun). cbn [fmap option_fmap option_map].
    destruct (skipAll_fields (utf8.runes pre)
      (Found [] (take (length (utf8.asciiTokens X ++ utf8.runes post)
                       - length (utf8.runes post))
                   (utf8.asciiTokens X ++ utf8.runes post)%list)
             (advanceOver (advanceOver start (utf8.runes pre)) (utf8.asciiTokens X))
             (utf8.runes post))) as (_ & -> & _).
    cbn [f_text]. rewrite length_app.
    replace (length (utf8.asciiTokens X) + length (utf8.runes post)
             - length (utf8.runes post))%nat
      with (length (utf8.asciiTokens X)) by lia.
    rewrite take_app_length. apply bytes_asciiTokens.
  - intros p1 p2 Hp12 Hp2. apply run_many1_miss.
    destruct p2 as [|t p2]; [contradiction|]. cbn [app leading].
    rewrite Hp12 in Hout. unfold allRunes in Hout. rewrite forallb_app in Hout.
    apply andb_true_iff in Hout as [_ Hout]. simpl in Hout.
    apply andb_true_iff in Hout as [Ht _]. unfold cNot in Ht. by apply negb_true_iff in Ht.
Qed.

(** X2: the integer parser reads the first run of decimal digits of the
    text and nothing else: what stands before it (a sign, a currency
    symbol, text without digits) and what follows it is passed over. *)
Theorem parseInt_first_run_only pre D post :
  allBytes (onByte (cNot cDigit)) pre = true ->
  decimal D ->
  startsIn cDigit post = false ->
  parseInt (pre +:+ D +:+ post) = decimalValue D.
Proof.
  intros Hpre [Hne HD] Hpost. unfold parseInt. cbv zeta.
  rewrite (FindString_first_run cDigit pre D post cDigit_ascii Hpre Hne HD Hpost).
  rewrite bool_decide_eq_false_2 by exact Hne.
  rewrite (Atoi_digits D HD). by rewrite bool_decide_eq_false_2.
Qed.

Lemma digits_uncomma D :
  allBytes isDigit D = true -> filterBytes (fun c => negb (Ascii.eqb c ",")) D = D.
Proof.
  intros HD. apply filterBytes_id. revert HD. apply allBytes_impl.
  intros c Hc. destruct (Ascii.eqb_spec c ",") as [->|]; [discriminate | reflexivity].
Qed.

(** X3: a thousands separator ends the number for [parseInt] and is
    dropped by [parsePrice]: on "D1,D2" the first reads D1 alone, the
    second D1D2.  The square footage, the bedrooms and the days on market
    go through [parseInt], the price through [parsePrice]. *)
Theorem thousands_separator D1 D2 post :
  decimal D1 -> decimal D2 -> startsIn cDigitComma post = false ->
  parsePrice (D1 +:+ "," +:+ D2 +:+ post) = decimalValue (D1 +:+ D2)
  /\ parseInt (D1 +:+ "," +:+ D2 +:+ post) = decimalValue D1.
Proof.
  intros [Hne1 HD1] [Hne2 HD2] Hpost.
  assert (Hwide : forall D, allBytes isDigit D = true ->
                            allBytes (onByte cDigitComma) D = true).
  { intros D. apply allBytes_impl. intros c Hc. unfold onByte, cDigitComma.
    change (cDigit (code c)) with (isDigit c). by rewrite Hc. }
  split.
  - unfold parsePrice. cbv zeta.
    assert (Hfind : FindString (many1 cDigitComma) (D1 +:+ "," +:+ D2 +:+ post)
                    = D1 +:+ "," +:+ D2).
    { replace (D1 +:+ "," +:+ D2 +:+ post) with ("" +:+ (D1 +:+ "," +:+ D2) +:+ post)
        by (simpl; by rewrite !app_assoc_s).
      apply FindString_first_run.
      - exact cDigitComma_ascii.
      - reflexivity.
      - destruct D1; [contradiction | discriminate].
      - rewrite !allBytes_app, (Hwide D1 HD1), (Hwide D2 HD2). reflexivity.
      - exact Hpost. }
    rewrite Hfind. rewrite bool_decide_eq_false_2
      by (destruct D1; [contradiction | discriminate]).
    rewrite !filterBytes_app, (digits_uncomma D1 HD1), (digits_uncomma D2 HD2).
    simpl filterBytes. change ("" +:+ D2) with D2.
    rewrite Atoi_digits by (rewrite allBytes_app, HD1, HD2; reflexivity).
    rewrite bool_decide_eq_false_2; [reflexivity|].
    destruct D1; [contradiction | discriminate].
  - unfold parseInt. cbv zeta.
    assert (Hfind : FindString (many1 cDigit) (D1 +:+ "," +:+ D2 +:+ post) = D1)
      by (apply (FindString_first_run cDigit "" D1 ("," +:+ D2 +:+ post)); auto using cDigit_ascii).
    rewrite Hfind.
    rewrite bool_decide_eq_false_2 by exact Hne1.
    rewrite (Atoi_digits D1 HD1). by rewrite bool_decide_eq_false_2.
Qed.

(** [[0-9]+\.?[0-9]*] on a literal with a fraction. *)
Lemma run_float c I F (rest : list utf8.token) :
  decimal I -> allBytes isDigit F = true -> leading cDigit rest = false ->
  run (cat [many1 cDigit; Opt (byte "."); many cDigit]) c
      (utf8.asciiTokens I ++ utf8.asciiToken "." :: utf8.asciiTokens F ++ rest)%list accept
  = Some (advanceOver c (utf8.asciiTokens I ++ utf8.asciiToken "." :: utf8.asciiTokens F)%list,
          rest).
Proof.
  intros [Hne HI] HF Hrest. cbn [cat run]. unfold many1. cbn [run].
  apply rep_greedy_longest.
  - by rewrite allRunes_asciiTokens.
  - reflexivity.
  - rewrite length_asciiTokens. destruct I; [contradiction | simpl; lia].
  - unfold byte. cbn [run utf8.asciiToken utf8.t_rune]. rewrite N.eqb_refl.
    unfold many. cbn [run].
    rewrite (rep_greedy_longest cDigit 0 _ (utf8.asciiTokens F) rest accept
               (advanceOver (advance (advanceOver c (utf8.asciiTokens I))
                                     (utf8.asciiToken ".")) (utf8.asciiTokens F), rest));
      [| by rewrite allRunes_asciiTokens | exact Hrest | lia | reflexivity].
    by rewrite advanceOver_app.
Qed.

Lemma take_length_diff {A : Type} (X rest : list A) :
  take (length (X ++ rest) - length rest) (X ++ rest)%list = X.
Proof.
  rewrite length_app.
  replace (length X + length rest - length rest)%nat with (length X) by lia.
  apply take_app_length.
Qed.

(** X4: the sign of a number is read by [parsePercent] and passed over by
    [parseFloat]: on "-I.F" the first parses "-I.F", the second "I.F".
    The bathrooms and the lot size go through [parseFloat], the
    year-over-year change of the table through [parsePercent]. *)
Theorem float_sign I F post :
  decimal I -> allBytes isDigit F = true -> startsIn cDigit post = false ->
  parseFloat ("-" +:+ I +:+ "." +:+ F +:+ post) = FParse (I +:+ "." +:+ F)
  /\ parsePercent ("-" +:+ I +:+ "." +:+ F +:+ post) = FParse ("-" +:+ I +:+ "." +:+ F).
Proof.
  intros HI HF Hpost. pose proof HI as [Hne HId].
  assert (Hrest : leading cDigit (utf8.runes post) = false)
    by (by rewrite (leading_runes cDigit post cDigit_ascii)).
  assert (Hnum : isASCII (I +:+ "." +:+ F) = true)
    by (rewrite !isASCII_app, (isASCII_digits I HId), (isASCII_digits F HF); reflexivity).
  assert (Hrunes : utf8.runes ("-" +:+ I +:+ "." +:+ F +:+ post)
                   = (utf8.asciiToken "-"
                      :: (utf8.asciiTokens I ++ utf8.asciiToken "." :: utf8.asciiTokens F)
                      ++ utf8.runes post)%list).
  { replace ("-" +:+ I +:+ "." +:+ F +:+ post)
      with (("-" +:+ I +:+ "." +:+ F) +:+ post)
      by (cbn [String.append]; by rewrite !app_assoc_s).
    rewrite runes_ascii by (cbn [String.append]; simpl; exact Hnum).
    cbn [String.append utf8.asciiTokens]. by rewrite asciiTokens_app. }
  assert (Hbytes : utf8.bytes (utf8.asciiTokens I ++ utf8.asciiToken "." :: utf8.asciiTokens F)
                   = I +:+ "." +:+ F).
  { change (utf8.asciiToken "." :: utf8.asciiTokens F) with (utf8.asciiTokens ("." +:+ F)).
    by rewrite <- asciiTokens_app, bytes_asciiTokens. }
  split.
  - unfold parseFloat. cbv zeta.
    assert (Hfind : FindString (cat [many1 cDigit; Opt (byte "."); many cDigit])
                      ("-" +:+ I +:+ "." +:+ F +:+ post) = I +:+ "." +:+ F).
    { unfold FindString. rewrite Hrunes, search_unfold.
      assert (Hmiss : forall l, run (cat [many1 cDigit; Opt (byte "."); many cDigit]) start
                        (utf8.asciiToken "-" :: l) accept = None).
      { intros l. cbn [cat run]. unfold many1. cbn [run]. by rewrite rep_unfold. }
      rewrite Hmiss.
      rewrite <- app_assoc. cbn [app].
      rewrite (search_here _ _ _ _ _
                 (run_float (advance start (utf8.asciiToken "-")) I F _ HI HF Hrest)).
      cbn [fmap option_fmap option_map skip1 f_text].
      replace (utf8.asciiTokens I ++ utf8.asciiToken "." :: utf8.asciiTokens F ++ utf8.runes post)%list
        with ((utf8.asciiTokens I ++ utf8.asciiToken "." :: utf8.asciiTokens F)
              ++ utf8.runes post)%list by (by rewrite <- app_assoc).
      by rewrite take_length_diff. }
    rewrite Hfind. rewrite bool_decide_eq_false_2; [reflexivity|].
    destruct I; [contradiction | discriminate].
  - unfold parsePercent. cbv zeta.
    assert (Hfind : FindString (cat [Opt (byte "-"); many1 cDigit; Opt (byte "."); many cDigit])
                      ("-" +:+ I +:+ "." +:+ F +:+ post) = "-" +:+ I +:+ "." +:+ F).
    { unfold FindString. rewrite Hrunes.
      assert (Hrun : run (cat [Opt (byte "-"); many1 cDigit; Opt (byte "."); many cDigit]) start
                       (utf8.asciiToken "-"
                        :: (utf8.asciiTokens I ++ utf8.asciiToken "." :: utf8.asciiTokens F)
                        ++ utf8.runes post)%list accept
                     = Some (advanceOver (advance start (utf8.asciiToken "-"))
                               (utf8.asciiTokens I ++ utf8.asciiToken "." :: utf8.asciiTokens F)%list,
                             utf8.runes post)).
      { change (cat [Opt (byte "-"); many1 cDigit; Opt (byte "."); many cDigit])
          with (Cat (Opt (byte "-")) (cat [many1 cDigit; Opt (byte "."); many cDigit])).
        pose proof (run_float (advance start (utf8.asciiToken "-")) I F _ HI HF Hrest) as Hf.
        rewrite <- app_assoc. cbn [app].
        cbn [run]. unfold byte at 1. cbn [run utf8.asciiToken utf8.t_rune].
        rewrite N.eqb_refl. fold (utf8.asciiToken "-"). fold (utf8.asciiToken ".").
        by rewrite Hf. }
      rewrite (search_here _ _ _ _ _ Hrun). cbn [f_text].
      change (utf8.asciiToken "-"
              :: (utf8.asciiTokens I ++ utf8.asciiToken "." :: utf8.asciiTokens F)
                 ++ utf8.runes post)%list
        with ((utf8.asciiToken "-"
               :: utf8.asciiTokens I ++ utf8.asciiToken "." :: utf8.asciiTokens F)
              ++ utf8.runes post)%list.
      rewrite take_length_diff. cbn [utf8.bytes utf8.asciiToken utf8.t_bytes].
      rewrite Hbytes. reflexivity. }
    rewrite Hfind. by rewrite bool_decide_eq_false_2.
Qed.

(** ** The statistics record *)

Ltac untouched proj :=
  cbv zeta; repeat (rewrite (onSubmatch_keeps proj) by reflexivity); try reflexivity.

Lemma statsFromTable_keeps {B : Type} (proj : MarketStats -> B) doc stats :
  (forall s row, proj (statsRow s row) = proj s) ->
  proj (statsFromTable doc stats) = proj stats.
Proof. intros H. unfold statsFromTable. by apply foldl_keeps. Qed.

Lemma statsRow_keeps {B : Type} (proj : MarketStats -> B) s row :
  (forall v x, proj (statMedianSalePrice v x) = proj x) ->
  (forall v x, proj (statMedianSingleFamilyPrice v x) = proj x) ->
  (forall v x, proj (statMedianTownhousePrice v x) = proj x) ->
  (forall v x, proj (statAveragePricePerSqFt v x) = proj x) ->
  (forall v x, proj (statHomesForSale v x) = proj x) ->
  (forall v x, proj (statSalesLast12Months v x) = proj x) ->
  (forall v x, proj (statYearOverYearChange v x) = proj x) ->
  proj (statsRow s row) = proj s.
Proof.
  intros. unfold statsRow. cbv zeta.
  repeat (match goal with |- context [if ?b then _ else _] => destruct b end); auto.
Qed.

Lemma extractStats_labels homesRegex area timestamp doc :
  let stats := extractStats homesRegex area timestamp doc in
  Area stats = area /\ Timestamp stats = timestamp /\ MonthsOfSupply stats = FZero.
Proof.
  cbv zeta. unfold extractStats. cbv zeta.
  assert (Ht : forall {B} (proj : MarketStats -> B),
    (forall v x, proj (statMedianSalePrice v x) = proj x) ->
    (forall v x, proj (statMedianSingleFamilyPrice v x) = proj x) ->
    (forall v x, proj (statMedianTownhousePrice v x) = proj x) ->
    (forall v x, proj (statAveragePricePerSqFt v x) = proj x) ->
    (forall v x, proj (statHomesForSale v x) = proj x) ->
    (forall v x, proj (statSalesLast12Months v x) = proj x) ->
    (forall v x, proj (statYearOverYearChange v x) = proj x) ->
    proj (statsFromTable doc (blankStats area timestamp)) = proj (blankStats area timestamp)).
  { intros B proj **. apply statsFromTable_keeps. intros; by apply statsRow_keeps. }
  pose proof (Ht _ Area ltac:(done) ltac:(done) ltac:(done) ltac:(done) ltac:(done)
                ltac:(done) ltac:(done)) as HA.
  pose proof (Ht _ Timestamp ltac:(done) ltac:(done) ltac:(done) ltac:(done) ltac:(done)
                ltac:(done) ltac:(done)) as HT.
  pose proof (Ht _ MonthsOfSupply ltac:(done) ltac:(done) ltac:(done) ltac:(done)
                ltac:(done) ltac:(done) ltac:(done)) as HM.
  destruct (_ =? 0); [|auto].
  unfold statsFromText. cbv zeta.
  repeat split; [untouched Area | untouched Timestamp | untouched MonthsOfSupply]; assumption.
Qed.

(** X5: the statistics record carries the label of the area and the time
    of the extraction as they were set at the start, and its months of
    supply are never assigned: neither the rows of the table nor the
    patterns of the fallback touch the three. *)
Theorem stats_labels homesRegex area timestamp doc :
  let stats := extractStats homesRegex area timestamp doc in
  Area stats = area /\ Timestamp stats = timestamp /\ MonthsOfSupply stats = FZero.
Proof. exact (extractStats_labels homesRegex area timestamp doc). Qed.

(** X6: the two passes of the statistics extractor fill different fields:
    the rows of the table never set the average days on market, and the
    patterns of the fallback never set the medians of single-family homes
    and of townhouses. *)
Theorem stats_passes_differ homesRegex doc text stats :
  AverageDaysOnMarket (statsFromTable doc stats) = AverageDaysOnMarket stats
  /\ MedianSingleFamilyPrice (statsFromText homesRegex text stats)
     = MedianSingleFamilyPrice stats
  /\ MedianTownhousePrice (statsFromText homesRegex text stats)
     = MedianTownhousePrice stats.
Proof.
  split; [|split].
  - apply statsFromTable_keeps. intros; by apply statsRow_keeps.
  - unfold statsFromText. by untouched MedianSingleFamilyPrice.
  - unfold statsFromText. by untouched MedianTownhousePrice.
Qed.

(** X7: the market statistics of a city are read from the page of the
    neighborhood "manoa" of that city, the one request the call makes, and
    labelled with the city and the state alone. *)
Theorem market_stats_reads_manoa h city state resp doc :
  let url := "https://www.homes.com/" +:+ ToLower city +:+ "-" +:+ ToLower state
               +:+ "/manoa-neighborhood/sold/" in
  newRequestError h url = None ->
  client h (simpleRequest url) = http.Responded resp ->
  http.Body resp = goquery.Html doc ->
  requested (ScrapeMarketStats h city state) = [url]
  /\ exists stats,
       result (ScrapeMarketStats h city state) = (Some stats, None)
       /\ stats = extractStats statsPatterns.manoaRegex (city +:+ ", " +:+ state) (now h) doc
       /\ Area stats = city +:+ ", " +:+ state.
Proof.
  intros url Hreq Hresp Hbody. unfold ScrapeMarketStats. cbv zeta. fold url. split.
  - unfold requested, fetchStats, mbind, Net_bind, bind, Do, mret, Net_ret, ret.
    rewrite Hreq. simpl. rewrite Hresp, Hbody. reflexivity.
  - eexists. split; [by apply (fetchStats_parsed h _ _ _ resp doc)|].
    split; [reflexivity|].
    by destruct (extractStats_labels statsPatterns.manoaRegex (city +:+ ", " +:+ state) (now h) doc)
      as (-> & _).
Qed.

(** ** The detail extractors *)

Lemma parkingStep_keeps {B : Type} (proj : Property -> B) pageText p :
  (forall v x, proj (setGarage v x) = proj x) ->
  (forall v x, proj (setParkingSpaces v x) = proj x) ->
  proj (parkingStep pageText p) = proj p.
Proof.
  intros HG HP. unfold parkingStep.
  destruct (FindStringSubmatch _ _) as [|m [|g1 rest]]; auto.
  case_bool_decide; [by rewrite HG, HP|].
  destruct rest as [|g2 rest]; auto. case_bool_decide; auto.
Qed.

Lemma featureStep_keeps {B : Type} (proj : Property -> B) p feature :
  (forall v x, proj (setHeating v x) = proj x) ->
  (forall v x, proj (setCooling v x) = proj x) ->
  (forall v x, proj (setFlooring v x) = proj x) ->
  (forall v x, proj (setAppliances v x) = proj x) ->
  proj (featureStep p feature) = proj p.
Proof.
  intros HH HC HF HA. unfold featureStep. cbv zeta.
  repeat (match goal with |- context [if ?b then _ else _] => destruct b end);
    rewrite ?HA, ?HF, ?HC, ?HH; reflexivity.
Qed.

Lemma redfinAddress_status urlParts p :
  Status (redfinAddress urlParts p) = Status p.
Proof.
  induction urlParts as [|part rest IH]; simpl; [done|].
  destruct (stateSegment part); [|done].
  destruct rest as [|city [|segment after]]; simpl; try done.
  by destruct (0 <? _).
Qed.

Lemma redfinFields_urlFields doc p :
  urlFields (redfinFields doc p) = urlFields p.
Proof.
  unfold redfinFields. cbv zeta. unfold assignID.
  assert (HID : forall v x, urlFields (setID v x) = urlFields x) by reflexivity.
  assert (HPT : forall v x, urlFields (setPropertyType v x) = urlFields x) by reflexivity.
  rewrite HID, HPT.
  rewrite (foldl_keeps urlFields)
    by (intros x y; cbv zeta; repeat (destruct (_ && _)); reflexivity).
  assert (Hhood : forall q,
    urlFields
      (if bool_decide (City q = "Honolulu") && bool_decide (ZipCode q = "96822")
       then setNeighborhood "Manoa" q else q) = urlFields q)
    by (intros q; by destruct (_ && _)).
  rewrite Hhood.
  assert (HF : forall v x, urlFields (setFeatures v x) = urlFields x) by reflexivity.
  rewrite HF.
  rewrite (foldl_keeps urlFields) by (intros; by apply featureStep_keeps).
  assert (Hdesc : forall q,
    urlFields
      (if bool_decide (Description q = "")
       then onSubmatch redfinPatterns.descRegex (goquery.Text doc)
              (fun g => setDescription (TrimSpace g)) q
       else q) = urlFields q).
  { intros q. case_bool_decide; [|reflexivity]. by untouched urlFields. }
  rewrite Hdesc.
  rewrite (foldl_keeps urlFields)
    by (intros x y; cbv zeta; destruct (_ && _); reflexivity).
  rewrite parkingStep_keeps by reflexivity.
  by untouched urlFields.
Qed.

Lemma redfinDetails_urlFields doc p :
  urlFields (redfinDetails doc p) = urlFields p
  /\ ID (redfinDetails doc p) = generatePropertyID (Address p) (City p).
Proof.
  unfold redfinDetails.
  destruct (pricePerSqFtStep_keeps (redfinFields doc p))
    as (HS & HA & HC & HSt & HZ & _ & _ & HI).
  pose proof (redfinFields_urlFields doc p) as Hf.
  split.
  - unfold urlFields in *. by rewrite HS, HA, HC, HSt, HZ.
  - rewrite HI. unfold urlFields in Hf. injection Hf as _ Ha Hc _ _.
    rewrite <- Ha, <- Hc. unfold redfinFields. cbv zeta. unfold assignID.
    cbn [ID setID Address City setPropertyType]. reflexivity.
Qed.

(** X8: the redfin branch never fails.  Whatever the request does (no
    request could be built, the transport fails, any status, a page that
    does not parse), it returns a record and no error; the record is a
    sold listing whose address, city, state and postal code are those read
    from the URL, whatever the page says, and whose identifier is derived
    from that address and city, so never empty. *)
Theorem redfin_never_fails h url :
  exists p,
    result (scrapeRedfinProperty h url) = (Some p, None)
    /\ urlFields p = urlFields (redfinAddress (Split url "/") (setStatus "sold" zeroProperty))
    /\ Status p = "sold"
    /\ ID p = generatePropertyID (Address p) (City p)
    /\ ID p <> "".
Proof.
  set (q := redfinAddress (Split url "/") (setStatus "sold" zeroProperty)).
  assert (Hq : Status q = "sold") by (unfold q; by rewrite redfinAddress_status).
  assert (Hpartial : urlFields (assignID q) = urlFields q
                     /\ Status (assignID q) = "sold"
                     /\ ID (assignID q) = generatePropertyID (Address (assignID q)) (City (assignID q))
                     /\ ID (assignID q) <> "").
  { repeat split; [exact Hq|]. apply generatePropertyID_nonempty. }
  assert (Hfull : forall doc, urlFields (redfinDetails doc q) = urlFields q
                     /\ Status (redfinDetails doc q) = "sold"
                     /\ ID (redfinDetails doc q)
                        = generatePropertyID (Address (redfinDetails doc q))
                                             (City (redfinDetails doc q))
                     /\ ID (redfinDetails doc q) <> "").
  { intros doc. destruct (redfinDetails_urlFields doc q) as [Hu Hi].
    assert (Hu' := Hu). unfold urlFields in Hu'. injection Hu' as HS HA HC _ _.
    repeat split; [exact Hu | congruence | congruence |].
    rewrite Hi. apply generatePropertyID_nonempty. }
  unfold result, scrapeRedfinProperty, mbind, Net_bind, bind, Do, mret, Net_ret, ret.
  cbv zeta. fold q.
  destruct (newRequestError h url); [by eexists|]. simpl.
  destruct (client h (redfinRequest url)) as [err|resp]; [by eexists|].
  destruct (negb _); [by eexists|].
  destruct (goquery.NewDocumentFromReader _) as [[doc|] [err|]]; eexists; (split; [reflexivity|]); auto.
Qed.


(** X10: the two detail extractors classify a page alike, but for one
    category: the redfin branch alone knows "apartment".  Where it does
    not say "apartment" the two agree, and the homes.com branch says
    "house" wherever the redfin branch says "apartment". *)
Theorem property_type_branches pageText :
  (redfinPropertyType pageText <> "apartment" ->
   detailPropertyType pageText = redfinPropertyType pageText)
  /\ (redfinPropertyType pageText = "apartment" -> detailPropertyType pageText = "house")
  /\ detailPropertyType pageText ∈ ["condo"; "townhouse"; "house"].
Proof.
  unfold redfinPropertyType, detailPropertyType. cbv zeta.
  rewrite (orb_comm (Contains _ "condominium")).
  destruct (_ || _); [|destruct (_ || _); [|destruct (Contains _ "apartment")]];
    (split; [|split]); try done; set_solver.
Qed.


(** ** The listing search *)

(** X12: the window the patterns of a listing are run on spans at most
    1500 bytes: up to 500 before the offset of the anchor and up to 1000
    from it on, the anchor included. *)
Theorem window_span pageText addressIndex :
  0 <= addressIndex <= len pageText ->
  len (window pageText addressIndex) <= 1500
  /\ window pageText addressIndex
     = slice pageText (Z.max 0 (addressIndex - 500))
                      (Z.min (len pageText) (addressIndex + 1000)).
Proof.
  intros Hi. unfold window. cbv zeta.
  assert (Hlo : (if addressIndex - 500 <? 0 then 0 else addressIndex - 500)
                = Z.max 0 (addressIndex - 500))
    by (destruct (Z.ltb_spec (addressIndex - 500) 0); lia).
  assert (Hhi : (if len pageText <? addressIndex + 1000 then len pageText
                 else addressIndex + 1000)
                = Z.min (len pageText) (addressIndex + 1000))
    by (destruct (Z.ltb_spec (len pageText) (addressIndex + 1000)); lia).
  rewrite Hlo, Hhi. split; [|reflexivity].
  unfold slice, len at 1.
  pose proof (takeBytes_length
    (Z.to_nat (Z.min (len pageText) (addressIndex + 1000) - Z.max 0 (addressIndex - 500)))
    (dropBytes (Z.to_nat (Z.max 0 (addressIndex - 500))) pageText)).
  lia.
Qed.

Lemma windowFields_blanks chunk p :
  listingBlanks p -> listingBlanks (windowFields chunk p).
Proof.
  unfold listingBlanks, windowFields. intros (H1 & H2 & H3 & H4 & H5 & H6 & H7).
  repeat split;
    [rewrite <- H1; untouched LotSize | rewrite <- H2; untouched Description
    | rewrite <- H3; untouched Features | rewrite <- H4; untouched Agent
    | rewrite <- H5; untouched Brokerage | rewrite <- H6; untouched Neighborhood
    | rewrite <- H7; untouched ParkingSpaces].
Qed.

Lemma anchorRecord_blanks address : listingBlanks (anchorRecord address).
Proof.
  unfold anchorRecord, listingBlanks. cbv zeta.
  by destruct (3 <=? _)%nat.
Qed.

Lemma derivedFields_blanks p :
  listingBlanks p ->
  listingBlanks (derivedFields p) /\ PropertyType (derivedFields p) = "house".
Proof.
  unfold listingBlanks, derivedFields, pricePerSqFtStep. cbv zeta. intros H.
  case_bool_decide; destruct (_ && _); simpl; auto.
Qed.

(** X13: every record of the listing search is classified "house"
    whatever the page says, and leaves the lot size, the description, the
    features, the agent, the brokerage, the neighborhood and the parking
    spaces unset: no step of the extractor assigns them. *)
Theorem listings_shape pageText :
  Forall (fun p => PropertyType p = "house" /\ listingBlanks p
                   /\ ID p = generatePropertyID (Address p) (City p))
         (pageListings pageText).
Proof.
  apply Forall_forall. intros p (address & _ & Hp)%list_elem_of_omap.
  unfold listingAt in Hp. case_bool_decide; [discriminate|]. cbv zeta in Hp.
  destruct (Index pageText address =? -1); [discriminate|].
  set (chunk := window pageText (Index pageText address)) in *.
  set (q := windowFields chunk (anchorRecord address)) in *.
  destruct (derivedFields_blanks q) as [Hb Ht];
    [apply windowFields_blanks, anchorRecord_blanks|].
  destruct (derivedFields_fields q) as (_ & HA & HC & _ & _ & _ & Hid).
  { unfold q. destruct (windowFields_keeps chunk (anchorRecord address)) as (_&_&_&_&_&->).
    by destruct (anchorRecord_fields address) as (_ & -> & _). }
  case_bool_decide as Haddr; simpl in Hp; [|discriminate].
  destruct (0 <? _); [|discriminate]. injection Hp as <-.
  repeat split; try apply Hb; [exact Ht|].
  rewrite HA, HC. apply Hid. congruence.
Qed.

(** ** The test for the state segment *)

Lemma toUpperByte_fixed c : toUpperByte c = c <-> isLower c = false.
Proof.
  unfold toUpperByte. destruct (isLower c) eqn:E; [|done].
  split; [|done]. intros H. exfalso.
  unfold isLower, inRange in E. apply andb_true_iff in E as [H1 H2].
  apply N.leb_le in H1, H2. apply (f_equal code) in H. unfold code in H.
  rewrite N_ascii_embedding in H by (unfold code in *; lia). unfold code in *. lia.
Qed.

Lemma mapBytes_toUpper_fixed s :
  bool_decide (mapBytes toUpperByte s = s) = allBytes (fun c => negb (isLower c)) s.
Proof.
  induction s as [|c s IH]; [reflexivity|]. simpl. rewrite <- IH.
  destruct (isLower c) eqn:E; simpl.
  - apply bool_decide_eq_false_2. intros [= H _]. apply toUpperByte_fixed in H. congruence.
  - apply toUpperByte_fixed in E. rewrite E.
    apply bool_decide_ext. split; [by intros [= ->] | by intros ->].
Qed.

(** X14: on a segment of ASCII the test for the state asks for two bytes
    none of which is a lowercase letter: digits and punctuation pass it as
    capitals do. *)
Theorem state_segment_ascii part :
  isASCII part = true ->
  stateSegment part = (len part =? 2) && allBytes (fun c => negb (isLower c)) part.
Proof.
  intros Hascii. unfold stateSegment, ToUpper. rewrite Hascii.
  by rewrite mapBytes_toUpper_fixed.
Qed.

(** ** The address slug of a homes.com URL *)

Lemma slugScan_first before words part rest :
  Forall (fun w => len w <> 2) words -> len part = 2 ->
  slugScan before (words ++ part :: rest)
  = (Title <$> filter (fun w => w <> "")
                 (take (length (before ++ words) - 1) (before ++ words)),
     match last (before ++ words) with Some c => Title c | None => "" end,
     ToUpper part).
Proof.
  intros Hw Hp. revert before. induction Hw as [|w words Hlen _ IH]; intros before.
  - cbn [app slugScan]. rewrite app_nil_r.
    destruct (Z.eqb_spec (len part) 2); [reflexivity | contradiction].
  - cbn [app slugScan].
    destruct (Z.eqb_spec (len w) 2); [contradiction|].
    rewrite IH. by rewrite <- app_assoc.
Qed.

(** X15: the scan of an address slug stops at its first word of two
    bytes, wherever it stands: that word in upper case is the state, the
    word before it the city, and the words before that one, the empty ones
    dropped, the address, each in title case.  What follows the word is
    not read. *)
Theorem slug_first_short_word words part rest :
  Forall (fun w => len w <> 2) words -> len part = 2 ->
  slugScan [] (words ++ part :: rest)
  = (Title <$> filter (fun w => w <> "") (take (length words - 1) words),
     match last words with Some c => Title c | None => "" end,
     ToUpper part).
Proof. intros Hw Hp. exact (slugScan_first [] words part rest Hw Hp). Qed.

End Beyond.

(** * The claims on the sample environments

    The closed statements: the sample sites above and the sample of the
    Unicode tables.  Their inputs are ASCII, on which no table is
    consulted. *)

Section Closed.
#[local] Existing Instance unicode.sample.

(** C2 as stated fails: the input ("unknown", "") has a non-empty cleaned
    text and the identifier of ("", "").  (Both are ASCII: the tables take
    no part.) *)
Lemma C2_sentinel_collision :
  cleanedText "unknown" "" <> ""
  /\ generatePropertyID "unknown" "" = generatePropertyID "" "".
Proof. split; [discriminate | reflexivity]. Qed.

(** The three-page site: 20, 20 and 5 records, three requests. *)
Lemma C4_pagination_witness :
  requested (ScrapeNeighborhood threePages "Honolulu" "HI" "manoa" "sold")
  = [manoaPage 1; manoaPage 2; manoaPage 3].
Proof.
  eapply (proj2 (proj2 (C4_pagination threePages "Honolulu" "HI" "manoa" "sold")));
    vm_compute; reflexivity.
Defined.

(** The three-page site: 45 records yielded, three identifiers, three
    records returned. *)
Lemma C5_last_write_wins_witness :
  exists props,
    result (ScrapeNeighborhood threePages "Honolulu" "HI" "manoa" "sold") = (props, None)
    /\ length props = 3%nat
    /\ length props
       = length (remove_dups
           (ID <$> concat (pagesMerged threePages "Honolulu" "HI" "manoa" "sold" 3 1))).
Proof.
  eexists. split; [vm_compute; reflexivity|]. split; [reflexivity|].
  apply (C5_last_write_wins threePages "Honolulu" "HI" "manoa" "sold").
  vm_compute; reflexivity.
Defined.

(** A site whose second page answers 403: no record of page 1 is returned. *)
Lemma C6_failure_aborts_witness :
  result (ScrapeNeighborhood secondPageBlocked "Honolulu" "HI" "manoa" "sold")
  = ([], Some "failed to scrape page 2: HTTP 403: 403 Forbidden").
Proof.
  apply (C6_failure_aborts secondPageBlocked "Honolulu" "HI" "manoa" "sold" 2
           "HTTP 403: 403 Forbidden").
  - lia.
  - intros j Hj. assert (j = 1) as -> by lia.
    eexists. split; [vm_compute; reflexivity | vm_compute; lia].
  - apply (unexpectedStatus secondPageBlocked _
             (http.mkResponse 403 "403 Forbidden" (goquery.Html (textDoc "Access denied"))));
      [reflexivity | reflexivity | discriminate].
Defined.

(** A page without table that opens with "down 12%": the change is -12. *)
Lemma C8_stats_fallback_witness :
  exists final,
    result (ScrapeNeighborhoodStats statsSite "Honolulu" "HI" "manoa") = (Some final, None)
    /\ YearOverYearChange final = FNeg (FParse "12").
Proof.
  destruct (C8_stats_fallback statsSite "Honolulu" "HI" "manoa"
              (http.mkResponse 200 "200 OK" (goquery.Html statsPage)) statsPage
              eq_refl eq_refl eq_refl) as (final & Hres & _ & Hfallback).
  exists final. split; [exact Hres|].
  destruct (Hfallback eq_refl) as (_ & _ & _ & _ & _ & _ & _ & Hdown & _).
  apply Hdown.
  exists 0%nat. split.
  - exists "", " on last year, 45 days on the market".
    split; [reflexivity|]. split; [reflexivity|]. split; [discriminate | reflexivity].
  - intros; lia.
Defined.

(** C8 as stated fails: the page reads "down 3.5%" and the rows give no
    median price, so the fallback runs; the pattern asks for digits right
    up to the percent sign, finds none, and the change stays unset instead
    of becoming -3.5. *)
Lemma C8_fractional_percentage :
  Contains (goquery.Text fractionPage) "down 3.5%" = true
  /\ MedianSalePrice
       (statsFromTable fractionPage (blankStats "manoa, Honolulu, HI" (now fractionSite)))
     = 0
  /\ exists final,
       result (ScrapeNeighborhoodStats fractionSite "Honolulu" "HI" "manoa")
       = (Some final, None)
       /\ YearOverYearChange final = FZero
       /\ YearOverYearChange final <> FNeg (FParse "3.5").
Proof.
  split; [reflexivity|]. split; [reflexivity|].
  eexists. split; [vm_compute; reflexivity|]. split; [reflexivity | discriminate].
Qed.

End Closed.
(** ** The properties above on sample inputs *)

Section BeyondClosed.
#[local] Existing Instance unicode.sample.

(** "-1234 down": the digits without the sign before them. *)
Lemma parseInt_first_run_only_witness : parseInt "-1234 down" = 1234.
Proof.
  apply (parseInt_first_run_only "-" "1234" " down");
    [reflexivity | split; [discriminate | reflexivity] | reflexivity].
Defined.

Lemma thousands_separator_witness :
  parsePrice "1,250 sq ft" = 1250 /\ parseInt "1,250 sq ft" = 1.
Proof.
  apply (thousands_separator "1" "250" " sq ft");
    [split; [discriminate | reflexivity] | split; [discriminate | reflexivity] | reflexivity].
Defined.

Lemma float_sign_witness :
  parseFloat "-3.5%" = FParse "3.5" /\ parsePercent "-3.5%" = FParse "-3.5".
Proof.
  apply (float_sign "3" "5" "%"); [split; [discriminate | reflexivity] | reflexivity..].
Defined.

(** Asked for Hilo, the call reads the page of a neighborhood "manoa" of
    Hilo. *)
Lemma market_stats_reads_manoa_witness :
  requested (ScrapeMarketStats statsSite "Hilo" "HI")
  = ["https://www.homes.com/hilo-hi/manoa-neighborhood/sold/"]
  /\ exists stats,
       result (ScrapeMarketStats statsSite "Hilo" "HI") = (Some stats, None)
       /\ stats = extractStats statsPatterns.manoaRegex "Hilo, HI" (now statsSite) statsPage
       /\ Area stats = "Hilo, HI".
Proof.
  apply (market_stats_reads_manoa statsSite "Hilo" "HI"
           (http.mkResponse 200 "200 OK" (goquery.Html statsPage)) statsPage);
    reflexivity.
Defined.


Lemma window_span_witness :
  len (window (copies 2000 "x") 600) <= 1500
  /\ window (copies 2000 "x") 600
     = slice (copies 2000 "x") (Z.max 0 (600 - 500)) (Z.min (len (copies 2000 "x")) (600 + 1000)).
Proof. apply (window_span (copies 2000 "x") 600). vm_compute. split; discriminate. Defined.

Lemma state_segment_ascii_witness :
  stateSegment "12" = (len "12" =? 2) && allBytes (fun c => negb (isLower c)) "12".
Proof. apply (state_segment_ascii "12"). reflexivity. Defined.

(** In "2819-poelua-st-honolulu-hi" the word "st" is the first of two
    bytes. *)
Lemma slug_first_short_word_witness :
  slugScan [] ["2819"; "poelua"; "st"; "honolulu"; "hi"] = (["2819"], "Poelua", "ST").
Proof.
  apply (slug_first_short_word ["2819"; "poelua"] "st" ["honolulu"; "hi"]);
    [repeat constructor; discriminate | reflexivity].
Defined.

End BeyondClosed.
